(** * accessible_soundbox: the USB import job and the device watcher

    A shallow embedding of [usb_manager.py] and [watch_usb.py].  Python
    text is a [string] holding its UTF-8 bytes, the file system is a finite
    map from absolute paths to nodes, and every function that touches the
    outside world is a state transformer that either returns a value or
    raises a Python exception. *)

From Stdlib Require Import Ascii.
From stdpp Require Import gmap strings list fin_maps sorting.

(** ** Python [str] operations on UTF-8 text *)

Module Py.

Definition byte_is (n : nat) (a : ascii) : bool := Nat.eqb (nat_of_ascii a) n.

(** The one-byte code points Python treats as white space:
    U+0009..U+000D, U+001C..U+001F and U+0020. *)
Definition is_space1 (a : ascii) : bool :=
  let n := nat_of_ascii a in
  ((9 <=? n) && (n <=? 13)) || ((28 <=? n) && (n <=? 32)).

(** [space_prefix s] drops one leading white-space code point of [s], in the
    sense of [str.isspace]: the one-byte ones, U+0085 and U+00A0, U+1680,
    U+2000..U+200A, U+2028, U+2029, U+202F, U+205F and U+3000. *)
Definition space_prefix (s : string) : option string :=
  match s with
  | String a r =>
    if is_space1 a then Some r else
    match r with
    | String b r2 =>
      if byte_is 194 a && (byte_is 133 b || byte_is 160 b) then Some r2 else
      match r2 with
      | String c r3 =>
        let nc := nat_of_ascii c in
        if byte_is 225 a && byte_is 154 b && byte_is 128 c then Some r3
        else if byte_is 226 a && byte_is 128 b &&
                (((128 <=? nc) && (nc <=? 138)) || byte_is 168 c ||
                 byte_is 169 c || byte_is 175 c) then Some r3
        else if byte_is 226 a && byte_is 129 b && byte_is 159 c then Some r3
        else if byte_is 227 a && byte_is 128 b && byte_is 128 c then Some r3
        else None
      | EmptyString => None
      end
    | EmptyString => None
    end
  | EmptyString => None
  end.

(** The same test on a reversed string, for stripping at the right end. *)
Definition space_suffix_rev (s : string) : option string :=
  match s with
  | String c r =>
    if is_space1 c then Some r else
    match r with
    | String b r2 =>
      match r2 with
      | String a r3 =>
        match space_prefix (String a (String b (String c EmptyString))) with
        | Some EmptyString => Some r3
        | _ =>
          match space_prefix (String b (String c EmptyString)) with
          | Some EmptyString => Some r2
          | _ => None
          end
        end
      | EmptyString =>
        match space_prefix (String b (String c EmptyString)) with
        | Some EmptyString => Some r2
        | _ => None
        end
      end
    | EmptyString => None
    end
  | EmptyString => None
  end.

Fixpoint lstrip_fuel (n : nat) (s : string) : string :=
  match n with
  | O => s
  | S n' => match space_prefix s with
            | Some r => lstrip_fuel n' r
            | None => s
            end
  end.

Fixpoint rstrip_rev_fuel (n : nat) (s : string) : string :=
  match n with
  | O => s
  | S n' => match space_suffix_rev s with
            | Some r => rstrip_rev_fuel n' r
            | None => s
            end
  end.

(** [str.lstrip()], [str.rstrip()] and [str.strip()].  Each step removes at
    least one byte, so the length of the string is fuel enough. *)
Definition lstrip (s : string) : string := lstrip_fuel (String.length s) s.
Definition rstrip (s : string) : string :=
  String.rev (rstrip_rev_fuel (String.length s) (String.rev s)).
Definition strip (s : string) : string := rstrip (lstrip s).

(** [str.lower()] on the ASCII letters.  No code point outside ASCII
    lower-cases to one of the letters of [inventory] or [deletion] alone
    (U+0130 gives [i] followed by U+0307, U+212A gives [k]), so the two
    prefix tests of the parser see the same answer as with the full
    Unicode table. *)
Definition lower_ascii (a : ascii) : ascii :=
  let n := nat_of_ascii a in
  if (65 <=? n) && (n <=? 90) then ascii_of_nat (n + 32) else a.

Fixpoint lower (s : string) : string :=
  match s with
  | EmptyString => EmptyString
  | String a r => String (lower_ascii a) (lower r)
  end.

(** [s.startswith(p)] *)
Fixpoint startswith (p s : string) : bool :=
  match p with
  | EmptyString => true
  | String a p' =>
    match s with
    | String b s' => Ascii.eqb a b && startswith p' s'
    | EmptyString => false
    end
  end.

(** Truth value of a string: [bool(s)]. *)
Definition truthy (s : string) : bool :=
  match s with EmptyString => false | _ => true end.

Definition snoc (s : string) (a : ascii) : string :=
  s +:+ String a EmptyString.

(** Text-mode iteration over a file opened with the default [newline=None]:
    a line ends at ["\n"], ["\r"] or ["\r\n"], and the terminator is handed
    over as ["\n"]. *)
Fixpoint iter_lines_go (cur s : string) : list string :=
  match s with
  | EmptyString => match cur with EmptyString => [] | _ => [cur] end
  | String a r =>
    if byte_is 10 a then snoc cur "010"%char :: iter_lines_go EmptyString r
    else if byte_is 13 a then
      match r with
      | String b r2 =>
        if byte_is 10 b then snoc cur "010"%char :: iter_lines_go EmptyString r2
        else snoc cur "010"%char :: iter_lines_go EmptyString r
      | EmptyString => [snoc cur "010"%char]
      end
    else iter_lines_go (snoc cur a) r
  end.
Definition iter_lines : string → list string := iter_lines_go EmptyString.

(** What [read_text] returns for the bytes [s]: the text with the universal
    newline translation applied. *)
Definition read_translate (s : string) : string :=
  foldr String.app EmptyString (iter_lines s).

(** [str.splitlines()]: the boundaries are ["\n"], ["\r"], ["\r\n"],
    U+000B, U+000C, U+001C..U+001E, U+0085, U+2028 and U+2029; the line
    breaks are not part of the lines and a final break opens no new line. *)
Fixpoint splitlines_go (cur s : string) : list string :=
  match s with
  | EmptyString => match cur with EmptyString => [] | _ => [cur] end
  | String a r =>
    let n := nat_of_ascii a in
    if byte_is 13 a then
      match r with
      | String b r2 =>
        if byte_is 10 b then cur :: splitlines_go EmptyString r2
        else cur :: splitlines_go EmptyString r
      | EmptyString => [cur]
      end
    else if (byte_is 10 a || byte_is 11 a || byte_is 12 a ||
             ((28 <=? n) && (n <=? 30)))%bool
    then cur :: splitlines_go EmptyString r
    else
      match r with
      | String b r2 =>
        if byte_is 194 a && byte_is 133 b then cur :: splitlines_go EmptyString r2
        else
          match r2 with
          | String c r3 =>
            if byte_is 226 a && byte_is 128 b && (byte_is 168 c || byte_is 169 c)
            then cur :: splitlines_go EmptyString r3
            else splitlines_go (snoc cur a) r
          | EmptyString => splitlines_go (snoc cur a) r
          end
      | EmptyString => splitlines_go (snoc cur a) r
      end
  end.
Definition splitlines : string → list string := splitlines_go EmptyString.

(** [name[-1].isdigit()] for a non-empty name.  Device names come from the
    kernel and are ASCII, where the digits are [0] to [9]. *)
Fixpoint last_is_digit (s : string) : bool :=
  match s with
  | EmptyString => false
  | String a EmptyString =>
    let n := nat_of_ascii a in (48 <=? n) && (n <=? 57)
  | String _ r => last_is_digit r
  end.

End Py.

(** ** The outside world *)

(** A path is the list of its components below the root [/]. *)
Abbreviation path := (list string).

Inductive node :=
  | File (content : string)
  | Dir.

#[global] Instance node_eq_dec : EqDecision node.
Proof. solve_decision. Defined.

Inductive access := Read | Write | Listing | Unlink | Mkdir.

(** The Python exceptions the two scripts can meet.  All of them derive from
    [Exception], so an [except Exception] clause catches every one. *)
Inductive exn :=
  | FileNotFoundError (p : path)
  | PermissionError (p : path)
  | IsADirectoryError (p : path)
  | NotADirectoryError (p : path)
  | FileExistsError (p : path)
  | SameFileError (p : path)
  | OSError (msg : string)
  | CalledProcessError (argv : list string) (code : nat).

(** What happens to a child process: it cannot be started ([subprocess]
    raises), or it runs and exits with a status. *)
Inductive outcome :=
  | NotStarted (e : exn)
  | Exited (code : nat).

(** Observable effects, oldest first: child processes asked for and changes
    to files other than the log. *)
Inductive event :=
  | EvRun (argv : list string)
  | EvWrite (p : path) (content : string)
  | EvCopy (src dst : path)
  | EvUnlink (p : path).

(** The part of the world the scripts cannot change: which accesses the
    operating system refuses, what each child process does given the history
    so far, and the readings of the clock. *)
Record environment := Environment {
  denied : access → path → bool;
  proc : list event → list string → outcome;
  ctime : string;
  strftime : string;
}.

(** The part they change: the files and the history of effects. *)
Record state := State {
  fs : gmap path node;
  trace : list event;
}.

Inductive result (A : Type) :=
  | Ok (a : A)
  | Raise (e : exn).
Arguments Ok {A} a.
Arguments Raise {A} e.

(** A computation reads the environment, transforms the state, and returns
    or raises.  What it did before raising stays done. *)
Definition M (A : Type) : Type := environment → state → state * result A.

Definition ret {A} (a : A) : M A := λ _ st, (st, Ok a).
Definition raise {A} (e : exn) : M A := λ _ st, (st, Raise e).
Definition bind {A B} (m : M A) (k : A → M B) : M B :=
  λ E st, match m E st with
          | (st', Ok a) => k a E st'
          | (st', Raise e) => (st', Raise e)
          end.
(** [try: m except Exception as e: h e] *)
Definition try_except {A} (m : M A) (h : exn → M A) : M A :=
  λ E st, match m E st with
          | (st', Ok a) => (st', Ok a)
          | (st', Raise e) => h e E st'
          end.
(** [try: m except Exception: pass] *)
Definition try_pass (m : M unit) : M unit := try_except m (λ _, ret tt).

Declare Scope py_scope.
Delimit Scope py_scope with py.
Notation "x <- m ;; k" := (bind m (λ x, k))
  (at level 100, m at next level, k at level 200, right associativity) : py_scope.
Notation "m ;; k" := (bind m (λ _, k))
  (at level 100, k at level 200, right associativity) : py_scope.
Local Open Scope py_scope.

Definition get_fs : M (gmap path node) := λ _ st, (st, Ok (fs st)).
Definition set_fs (f : gmap path node) : M unit :=
  λ _ st, (State f (trace st), Ok tt).
Definition emit (ev : event) : M unit :=
  λ _ st, (State (fs st) (trace st ++ [ev]), Ok tt).
Definition refused (a : access) (p : path) : M bool :=
  λ E st, (st, Ok (denied E a p)).

Fixpoint for_each {A} (l : list A) (body : A → M unit) : M unit :=
  match l with
  | [] => ret tt
  | x :: l' => body x ;; for_each l' body
  end.

(** *** Paths *)

Module Path.

Fixpoint split_go (cur s : string) : list string :=
  match s with
  | EmptyString => [cur]
  | String a r =>
    if Ascii.eqb a "/"%char then cur :: split_go EmptyString r
    else split_go (Py.snoc cur a) r
  end.

(** The components of a path written as text; as [pathlib] does, empty
    components and [.] are dropped and [..] is kept. *)
Definition components (s : string) : list string :=
  List.filter (λ c, negb (String.eqb c "" || String.eqb c ".")) (split_go "" s).

(** [d / s]: an absolute [s] replaces [d]. *)
Definition join (d : path) (s : string) : path :=
  if Py.startswith "/" s then components s else d ++ components s.

(** [p.name] and [p.parent] *)
Definition name (p : path) : string := List.last p "".
Definition parent (p : path) : path := removelast p.

(** [str(p)] *)
Definition str (p : path) : string :=
  match p with
  | [] => "/"
  | _ => foldr (λ c acc, "/" +:+ c +:+ acc) "" p
  end.

(** A name a directory can hold. *)
Definition valid_name (n : string) : bool :=
  match split_go "" n with
  | [c] => negb (String.eqb c "" || String.eqb c "." || String.eqb c "..")
  | _ => false
  end.

Definition is_dir_at (f : gmap path node) (p : path) : bool :=
  match p with
  | [] => true
  | _ => match f !! p with Some Dir => true | _ => false end
  end.

(** Where the operating system arrives when it follows [todo] from [cur]:
    [..] steps back out of an existing directory. *)
Fixpoint resolve_go (f : gmap path node) (cur : path) (todo : list string)
  : option path :=
  match todo with
  | [] => Some cur
  | c :: rest =>
    if String.eqb c ".." then
      if is_dir_at f cur then resolve_go f (parent cur) rest else None
    else resolve_go f (cur ++ [c]) rest
  end.
Definition resolve (f : gmap path node) (p : path) : option path :=
  resolve_go f [] p.

(** [os.stat]: the node a path leads to, if any. *)
Definition stat (f : gmap path node) (p : path) : option (path * node) :=
  match resolve f p with
  | Some q => match q with
              | [] => Some (q, Dir)
              | _ => (λ nd, (q, nd)) <$> f !! q
              end
  | None => None
  end.

(** The names listed in directory [p], in the order of the map. *)
Definition child_of (p k : path) : option string :=
  match k with
  | [] => None
  | _ => if decide (parent k = p ∧ valid_name (name k) = true)
         then Some (name k) else None
  end.
Definition children (f : gmap path node) (p : path) : list string :=
  omap (λ kv, child_of p kv.1) (map_to_list f).

End Path.

Notation "d // s" := (Path.join d s) (at level 40, left associativity) : py_scope.

(** *** Files, directories and child processes *)

Module Os.

(** [Path.exists()] and [Path.is_file()].  The [stat] behind them is taken
    to answer: it finds a node or reports that there is none. *)
Definition exists_ (p : path) : M bool :=
  f <- get_fs ;;
  ret (match Path.stat f p with Some _ => true | None => false end).

Definition is_file (p : path) : M bool :=
  f <- get_fs ;;
  ret (match Path.stat f p with Some (_, File _) => true | _ => false end).

(** [Path.mkdir(parents=True, exist_ok=True)] *)
Fixpoint mkdir_go (done : path) (todo : list string) : M unit :=
  match todo with
  | [] => ret tt
  | c :: rest =>
    let q := done ++ [c] in
    f <- get_fs ;;
    match f !! q with
    | Some Dir => mkdir_go q rest
    | Some (File _) =>
      raise (match rest with [] => FileExistsError q | _ => NotADirectoryError q end)
    | None =>
      no <- refused Mkdir q ;;
      if no then raise (PermissionError q)
      else set_fs (<[q := Dir]> f) ;; mkdir_go q rest
    end
  end.
Definition mkdir_parents (p : path) : M unit := mkdir_go [] p.

(** Opening [p] for reading.  A refused read stands for a permission error
    and for text that does not decode as UTF-8 alike. *)
Definition open_read (p : path) : M string :=
  f <- get_fs ;;
  match f !! p with
  | None => raise (FileNotFoundError p)
  | Some Dir => raise (IsADirectoryError p)
  | Some (File c) =>
    no <- refused Read p ;;
    if no then raise (PermissionError p) else ret c
  end.

(** [Path.read_text(encoding="utf-8")] *)
Definition read_text (p : path) : M string :=
  c <- open_read p ;; ret (Py.read_translate c).

(** The lines of [for line in f] for [f = p.open("r", encoding="utf-8")].
    A read that fails does so before the first line. *)
Definition read_lines (p : path) : M (list string) :=
  c <- open_read p ;; ret (Py.iter_lines c).

(** Opening [p] for writing and storing [new old] in it, where [old] is
    what the file held ([None] when it is created). *)
Definition store (p : path) (new : option string → string) : M unit :=
  f <- get_fs ;;
  match f !! p with
  | Some Dir => raise (IsADirectoryError p)
  | old =>
    if negb (Path.is_dir_at f (Path.parent p)) then raise (FileNotFoundError p)
    else
      no <- refused Write p ;;
      if no then raise (PermissionError p)
      else set_fs (<[p := File (new (match old with
                                     | Some (File c) => Some c
                                     | _ => None
                                     end))]> f)
  end.

(** [Path.write_text(s, encoding="utf-8")], also [open("w")] followed by
    writes that add up to [s]. *)
Definition write_text (p : path) (s : string) : M unit :=
  store p (λ _, s) ;; emit (EvWrite p s).

(** [open("a")] followed by one write. *)
Definition append_text (p : path) (s : string) : M unit :=
  store p (λ old, default "" old +:+ s).

(** [Path.touch(exist_ok=True)] *)
Definition touch (p : path) : M unit :=
  f <- get_fs ;;
  match f !! p with
  | Some Dir =>
    no <- refused Write p ;; if no then raise (PermissionError p) else ret tt
  | _ => store p (default "")
  end.

(** [Path.iterdir()], read to its end before the loop body runs. *)
Definition iterdir (p : path) : M (list path) :=
  f <- get_fs ;;
  match Path.stat f p with
  | None => raise (FileNotFoundError p)
  | Some (_, File _) => raise (NotADirectoryError p)
  | Some (q, Dir) =>
    no <- refused Listing q ;;
    if no then raise (PermissionError p)
    else ret ((λ n, q ++ [n]) <$> Path.children f q)
  end.

(** [shutil.copy2(src, dst)]: the bytes of [src] are written to [dst], or
    into [dst] under the name of [src] when [dst] is a directory. *)
Definition copy2 (src dst : path) : M unit :=
  c <- open_read src ;;
  f <- get_fs ;;
  let dst' := if Path.is_dir_at f dst then dst ++ [Path.name src] else dst in
  if decide (dst' = src) then raise (SameFileError src)
  else store dst' (λ _, c) ;; emit (EvCopy src dst').

(** [Path.unlink()] *)
Definition unlink (p : path) : M unit :=
  f <- get_fs ;;
  match Path.stat f p with
  | None => raise (FileNotFoundError p)
  | Some (q, Dir) => raise (IsADirectoryError p)
  | Some (q, File _) =>
    no <- refused Unlink q ;;
    if no then raise (PermissionError p)
    else set_fs (delete q f) ;; emit (EvUnlink q)
  end.

(** [subprocess.run(argv)]: the exit status is returned, not inspected. *)
Definition run (argv : list string) : M nat :=
  λ E st,
    let st' := State (fs st) (trace st ++ [EvRun argv]) in
    match proc E (trace st) argv with
    | NotStarted e => (st', Raise e)
    | Exited code => (st', Ok code)
    end.

(** [subprocess.run(argv, check=True)] *)
Definition run_check (argv : list string) : M unit :=
  code <- run argv ;;
  match code with
  | O => ret tt
  | _ => raise (CalledProcessError argv code)
  end.

(** [str(e)], up to the wording of the operating system's messages. *)
Definition exn_str (e : exn) : string :=
  match e with
  | FileNotFoundError p => "[Errno 2] No such file or directory: '" +:+ Path.str p +:+ "'"
  | PermissionError p => "[Errno 13] Permission denied: '" +:+ Path.str p +:+ "'"
  | IsADirectoryError p => "[Errno 21] Is a directory: '" +:+ Path.str p +:+ "'"
  | NotADirectoryError p => "[Errno 20] Not a directory: '" +:+ Path.str p +:+ "'"
  | FileExistsError p => "[Errno 17] File exists: '" +:+ Path.str p +:+ "'"
  | SameFileError p => "'" +:+ Path.str p +:+ "' and '" +:+ Path.str p +:+ "' are the same file"
  | OSError msg => msg
  | CalledProcessError argv code =>
    "Command '" +:+ foldr (λ a acc, a +:+ " " +:+ acc) "" argv +:+ "' returned non-zero exit status"
  end.

(** [str(l)] for a list of plain names. *)
Fixpoint list_str_go (l : list string) : string :=
  match l with
  | [] => ""
  | [a] => "'" +:+ a +:+ "'"
  | a :: l' => "'" +:+ a +:+ "', " +:+ list_str_go l'
  end.
Definition list_str (l : list string) : string := "[" +:+ list_str_go l +:+ "]".

End Os.

Definition nl : string := String "010"%char "".
Definition dquote : string := String "034"%char "".

(** ** usb_manager.py: the import job *)

Module UsbManager.

Definition USB_MOUNT : path := ["media"; "usb"].
Definition AUDIO_DIR : path := ["home"; "USER"; "audiobooks"].
Definition LOG_FILE : path := ["home"; "USER"; "usb-import.log"].

Definition REBOOT_FILE_DEFAULT : string :=
  "### Remove the " +:+ dquote +:+ "–" +:+ dquote +:+
  " before Reboot to reboot the soundbox. ###" +:+ nl +:+
  "– Reboot" +:+ nl.

Definition speak (msg : string) : M unit :=
  try_pass (Os.run ["espeak-ng"; msg] ;; ret tt).

Definition log (msg : string) : M unit :=
  Os.mkdir_parents (Path.parent LOG_FILE) ;;
  (λ E, Os.append_text LOG_FILE (ctime E +:+ ": " +:+ msg +:+ nl) E).

Definition safe_copy (src dst_dir : path) : M unit :=
  Os.mkdir_parents dst_dir ;;
  let dst := dst_dir // Path.name src in
  Os.copy2 src dst ;;
  log ("Copied: " +:+ Path.str src +:+ " → " +:+ Path.str dst).

Definition safe_delete (filename : string) (target_dir : path) : M bool :=
  let target := target_dir // filename in
  b <- Os.exists_ target ;;
  if b then
    Os.unlink target ;;
    log ("Deleted: " +:+ Path.str target) ;;
    ret true
  else ret false.

Inductive section := Inventory | Deletion.

(** The body of the [for line in f] loop: [section] and [deletion] are the
    two variables it updates. *)
Definition parse_line (acc : option section * list string) (line : string)
  : option section * list string :=
  let '(section, deletion) := acc in
  let stripped := Py.strip line in
  if Py.startswith "inventory" (Py.lower stripped) then (Some Inventory, deletion)
  else if Py.startswith "deletion" (Py.lower stripped) then (Some Deletion, deletion)
  else if negb (Py.truthy stripped) then (section, deletion)
  else
    match section with
    | Some Deletion =>
      if negb (Py.startswith "." stripped) && negb (Py.startswith "#" stripped)
      then (section, deletion ++ [stripped])
      else (section, deletion)
    | _ => (section, deletion)
    end.

Definition parse_lines (lines : list string) : list string :=
  (foldl parse_line (None, []) lines).2.

Definition parse_deletion_from_library (library_path : path) : M (list string) :=
  b <- Os.exists_ library_path ;;
  if negb b then ret []
  else
    try_except
      (lines <- Os.read_lines library_path ;; ret (parse_lines lines))
      (λ e, log ("Error parsing library.txt (" +:+ Path.str library_path +:+ "): "
                 +:+ Os.exn_str e) ;;
            ret []).

Definition hidden (n : string) : bool := Py.startswith "." n.

(** The names the generator of [write_library_to_usb] yields: the entries
    of the content store that are regular files and not hidden. *)
Fixpoint visible_files (l : list path) : M (list string) :=
  match l with
  | [] => ret []
  | p :: l' =>
    isf <- Os.is_file p ;;
    rest <- visible_files l' ;;
    ret (if isf && negb (hidden (Path.name p)) then Path.name p :: rest else rest)
  end.

(** [sorted] on strings: code point order, which on UTF-8 text is the
    order of the bytes. *)
Definition sorted (l : list string) : list string := merge_sort String.le l.

Definition library_text (entries : list string) : string :=
  "Inventory:" +:+ nl +:+
  foldr (λ name acc, name +:+ nl +:+ acc) "" entries +:+
  nl +:+
  "Deletion:" +:+ nl.

Definition write_library_to_usb : M unit :=
  try_except
    (b <- Os.exists_ USB_MOUNT ;;
     if negb b then log "USB mount not found; skipping library write"
     else
       let library := USB_MOUNT // "library.txt" in
       a <- Os.exists_ AUDIO_DIR ;;
       entries <- (if negb a then ret []
                   else l <- Os.iterdir AUDIO_DIR ;;
                        names <- visible_files l ;;
                        ret (sorted names)) ;;
       Os.write_text library (library_text entries) ;;
       log "Updated library.txt")
    (λ e, log ("Error writing library file: " +:+ Os.exn_str e)).

Definition ensure_reboot_file (reboot_file : path) : M unit :=
  b <- Os.exists_ reboot_file ;;
  if negb b then
    try_except
      (Os.write_text reboot_file REBOOT_FILE_DEFAULT ;;
       log "Created default Reboot.txt")
      (λ e, log ("Error creating default Reboot.txt: " +:+ Os.exn_str e))
  else ret tt.

Definition check_reboot_trigger (reboot_file : path) : M bool :=
  b <- Os.exists_ reboot_file ;;
  if negb b then ret false
  else
    r <- try_except
           (t <- Os.read_text reboot_file ;; ret (Some (Py.splitlines t)))
           (λ e, log ("Error reading Reboot.txt: " +:+ Os.exn_str e) ;; ret None) ;;
    match r with
    | None => ret false
    | Some lines =>
      if length lines <? 2 then ret false
      else ret (String.eqb (Py.strip (nth 1 lines "")) "Reboot")
    end.

Definition restore_reboot_file (reboot_file : path) : M unit :=
  try_except
    (Os.write_text reboot_file REBOOT_FILE_DEFAULT ;;
     log "Restored Reboot.txt to default format")
    (λ e, log ("Error restoring Reboot.txt: " +:+ Os.exn_str e)).

Definition handle_reboot_file : M bool :=
  let reboot_file := USB_MOUNT // "Reboot.txt" in
  ensure_reboot_file reboot_file ;;
  trig <- check_reboot_trigger reboot_file ;;
  if trig then
    log "Reboot trigger detected via Reboot.txt" ;;
    restore_reboot_file reboot_file ;;
    speak "Rebooting now." ;;
    try_pass (Os.run ["sync"] ;; ret tt) ;;
    log "Rebooting now…" ;;
    try_except (Os.run ["reboot"] ;; ret tt)
               (λ e, log ("Reboot error: " +:+ Os.exn_str e)) ;;
    ret true
  else ret false.

(** The two loops of [process_usb], with the flag each one sets. *)
Fixpoint add_loop (l : list path) (added : bool) : M bool :=
  match l with
  | [] => ret added
  | f :: l' =>
    isf <- Os.is_file f ;;
    if isf && negb (hidden (Path.name f))
    then safe_copy f AUDIO_DIR ;; add_loop l' true
    else add_loop l' added
  end.

Fixpoint delete_loop (l : list string) (deleted : bool) : M bool :=
  match l with
  | [] => ret deleted
  | name :: l' =>
    d <- safe_delete name AUDIO_DIR ;;
    if d then delete_loop l' true else delete_loop l' deleted
  end.

Definition add_step : M unit :=
  let add_dir := USB_MOUNT // "Add" in
  b <- Os.exists_ add_dir ;;
  if b then
    l <- Os.iterdir add_dir ;;
    added <- add_loop l false ;;
    if added then speak "New books added" else ret tt
  else ret tt.

Definition delete_step : M unit :=
  let library := USB_MOUNT // "library.txt" in
  to_delete <- parse_deletion_from_library library ;;
  match to_delete with
  | [] => ret tt
  | _ =>
    log ("Requested deletions: " +:+ Os.list_str to_delete) ;;
    deleted <- delete_loop to_delete false ;;
    if deleted then speak "Books deleted" else ret tt
  end.

Definition process_usb : M unit :=
  rebooted <- handle_reboot_file ;;
  if rebooted then ret tt
  else
    add_step ;;
    delete_step ;;
    write_library_to_usb.

End UsbManager.

(** ** watch_usb.py: the device watcher *)

Module WatchUsb.

Definition MOUNTPOINT : path := ["media"; "usb"].
Definition LOG_FILE : path := ["home"; "USER"; "usb-import.log"].

Definition log (msg : string) : M unit :=
  λ E, Os.append_text LOG_FILE (strftime E +:+ " [watcher] " +:+ msg +:+ nl) E.

(** One object of the [blockdevices] tree that [lsblk -J] prints.  [None]
    is a key that is missing or [null]; [rm] is the JSON boolean, which
    Python compares equal to [1] exactly when it is [true]. *)
#[local] Unset Elimination Schemes.
Inductive block :=
  Block (name : option string) (dev_path : option string) (rm : bool)
        (mountpoint : option string) (children : list block).
#[local] Set Elimination Schemes.

Definition block_name (b : block) := let 'Block n _ _ _ _ := b in n.
Definition block_path (b : block) := let 'Block _ p _ _ _ := b in p.
Definition block_rm (b : block) := let 'Block _ _ r _ _ := b in r.
Definition block_mountpoint (b : block) := let 'Block _ _ _ m _ := b in m.
Definition block_children (b : block) := let 'Block _ _ _ _ c := b in c.

(** Truth value of a value that is [None] or a string. *)
Definition truthy (o : option string) : bool :=
  match o with Some s => Py.truthy s | None => false end.

(** The test of [walk]: removable, a name ending in a digit, and no
    mount point. *)
Definition wanted (b : block) : bool :=
  block_rm b &&
  truthy (block_name b) &&
  Py.last_is_digit (default "" (block_name b)) &&
  match block_mountpoint b with
  | None => true
  | Some m => String.eqb m ""
  end.

(** One turn of the loop of [walk]: [Some r] when the turn returns [r] from
    [walk], [None] when the loop goes on to the next block. *)
Fixpoint walk_block (b : block) : option (option string) :=
  if wanted b then Some (block_path b)
  else
    match block_children b with
    | [] => None
    | children =>
      let res :=
        (fix walk_list (l : list block) : option string :=
           match l with
           | [] => None
           | c :: l' =>
             match walk_block c with
             | Some r => r
             | None => walk_list l'
             end
           end) children in
      if truthy res then Some res else None
    end.

Fixpoint walk (blocks : list block) : option string :=
  match blocks with
  | [] => None
  | b :: rest =>
    match walk_block b with
    | Some r => r
    | None => walk rest
    end
  end.

(** What [check_output] and [json.loads] hand to [walk] in one poll: the
    exception of a failed [lsblk], or the list under [blockdevices] (empty
    when the key is missing).  What [lsblk] prints is taken to be JSON. *)
Definition enumeration : Type := exn + list block.

Definition lsblk_argv : list string :=
  ["lsblk"; "-J"; "-o"; "NAME,PATH,RM,MOUNTPOINT"].

Definition find_usb_partition (enum : enumeration) : M (option string) :=
  out <- try_except
           (emit (EvRun lsblk_argv) ;;
            match enum with
            | inl e => raise e
            | inr blocks => ret (Some blocks)
            end)
           (λ e, log ("lsblk failed: " +:+ Os.exn_str e) ;; ret None) ;;
  match out with
  | None => ret None
  | Some blocks => ret (walk blocks)
  end.

Definition mount_argv (dev : string) : list string :=
  ["mount"; "-o"; "umask=000"; dev; Path.str MOUNTPOINT].
Definition importer_argv : list string :=
  ["/usr/bin/python3"; "/home/USER/usb_manager.py"].
Definition umount_argv : list string := ["umount"; Path.str MOUNTPOINT].

(** The body of the [try] block; its value is the new [last_device]. *)
Definition handle (dev : string) : M (option string) :=
  Os.mkdir_parents MOUNTPOINT ;;
  Os.run_check (mount_argv dev) ;;
  log ("Mounted " +:+ dev +:+ " at " +:+ Path.str MOUNTPOINT) ;;
  Os.run_check importer_argv ;;
  log "usb_manager.py completed" ;;
  Os.run ["sync"] ;;
  Os.run_check umount_argv ;;
  log ("Unmounted " +:+ dev) ;;
  ret (Some dev).

(** One turn of the [while True] loop, from the value of [last_device]
    before it to the value after it. *)
Definition cycle (enum : enumeration) (last_device : option string)
  : M (option string) :=
  dev <- find_usb_partition enum ;;
  last_device <-
    (if truthy dev && negb (bool_decide (dev = last_device)) then
       log ("Detected new USB device: " +:+ default "" dev) ;;
       try_except (handle (default "" dev))
         (λ e, log ("Error handling " +:+ default "" dev +:+ ": " +:+ Os.exn_str e) ;;
               ret last_device)
     else ret last_device) ;;
  if negb (truthy dev) then
    (if truthy last_device
     then log ("USB device " +:+ default "" last_device +:+ " removed")
     else ret tt) ;;
    ret None
  else ret last_device.

(** The loop over the polls whose enumerations are [enums]. *)
Fixpoint main_loop (enums : list enumeration) (last_device : option string)
  : M (option string) :=
  match enums with
  | [] => ret last_device
  | enum :: rest =>
    last_device <- cycle enum last_device ;;
    main_loop rest last_device
  end.

Definition main (enums : list enumeration) : M (option string) :=
  Os.touch LOG_FILE ;;
  log "USB watcher started" ;;
  main_loop enums None.

End WatchUsb.

(** ** Notions the properties are stated with *)

Local Open Scope py_scope.

(** *** The block-device tree *)

Module Tree.
Import WatchUsb.

(** The nodes of a tree in pre-order: a node, then its children's subtrees
    from left to right. *)
Fixpoint preorder_block (b : block) : list block :=
  b :: (fix go (l : list block) : list block :=
          match l with
          | [] => []
          | c :: l' => preorder_block c ++ go l'
          end) (block_children b).

Fixpoint preorder (blocks : list block) : list block :=
  match blocks with
  | [] => []
  | b :: rest => preorder_block b ++ preorder rest
  end.


(** Every node that [lsblk] lists carries its device path. *)
Definition has_paths (blocks : list block) : Prop :=
  Forall (λ b, truthy (block_path b) = true) (preorder blocks).

Definition has_pathsb (blocks : list block) : bool :=
  forallb (λ b, truthy (block_path b)) (preorder blocks).

End Tree.

(** *** The sections of library.txt *)

Module Library.
Import UsbManager.

Definition inventory_header (line : string) : bool :=
  Py.startswith "inventory" (Py.lower (Py.strip line)).
Definition deletion_header (line : string) : bool :=
  Py.startswith "deletion" (Py.lower (Py.strip line)).
Definition header (line : string) : bool :=
  inventory_header line || deletion_header line.

(** A line lies in the deletion section when the nearest header above it
    is a deletion header. *)
Definition in_deletion_section (above : list string) : bool :=
  match List.find header (rev above) with
  | Some h => deletion_header h
  | None => false
  end.

(** A line is a request when it is no header, not blank, and starts with
    neither [.] nor [#]. *)
Definition request (line : string) : bool :=
  negb (header line) &&
  Py.truthy (Py.strip line) &&
  negb (Py.startswith "." (Py.strip line)) &&
  negb (Py.startswith "#" (Py.strip line)).

(** The requests of the deletion section of [below], given the lines
    [above] it: in file order, trimmed, duplicates kept. *)
Fixpoint requests_from (above below : list string) : list string :=
  match below with
  | [] => []
  | line :: rest =>
    (if in_deletion_section above && request line then [Py.strip line] else [])
    ++ requests_from (above ++ [line]) rest
  end.

Definition deletion_requests (text : string) : list string :=
  requests_from [] (Py.iter_lines text).

Definition library : path := USB_MOUNT // "library.txt".

(** The section the cursor of the parser points to below the lines
[above]: the one named by the nearest header. *)
Definition cursor (above : list string) : option section :=
match List.find header (rev above) with
| Some h => if inventory_header h then Some Inventory else Some Deletion
| None => None
end.

End Library.

(** *** Reboot.txt *)

Module Reboot.
Import UsbManager.

Definition reboot_file : path := USB_MOUNT // "Reboot.txt".

(** The lines of a Reboot.txt that holds the bytes [c]. *)
Definition lines_of (c : string) : list string :=
  Py.splitlines (Py.read_translate c).

Definition second_line (c : string) : option string := lines_of c !! 1.

(** Triggered: line 2, trimmed, is the token [Reboot]. *)
Definition triggered (c : string) : bool :=
  match second_line c with
  | Some l => String.eqb (Py.strip l) "Reboot"
  | None => false
  end.

Definition placeholder : string := "– Reboot".

End Reboot.

(** *** The log file *)

Module Log.
Import UsbManager.

Definition text (f : gmap path node) : string :=
  match f !! LOG_FILE with Some (File c) => c | _ => "" end.

(** The log can be appended to: its directory is there, the log is not
    itself a directory, and writing to it is not refused. *)
Definition ready (E : environment) (f : gmap path node) : Prop :=
  denied E Write LOG_FILE = false ∧
  f !! ["home"] = Some Dir ∧
  f !! ["home"; "USER"] = Some Dir ∧
  f !! LOG_FILE ≠ Some Dir.

Definition readyb (E : environment) (f : gmap path node) : bool :=
  negb (denied E Write LOG_FILE) &&
  bool_decide (f !! ["home"] = Some Dir) &&
  bool_decide (f !! ["home"; "USER"] = Some Dir) &&
  bool_decide (f !! LOG_FILE ≠ Some Dir).

(** The files after [line] has been appended to the log. *)
Definition append (line : string) (f : gmap path node) : gmap path node :=
  <[LOG_FILE := File (text f +:+ line)]> f.

(** The line the import job writes for [msg], and the watcher's. *)
Definition line (E : environment) (msg : string) : string :=
  ctime E +:+ ": " +:+ msg +:+ nl.
Definition watcher_line (E : environment) (msg : string) : string :=
  strftime E +:+ " [watcher] " +:+ msg +:+ nl.

End Log.

(** *** Specifications of computations *)

(** [triple E P m Q R]: started in a state where [P] holds, [m] ends in a
    state where [Q] holds of its value, or raises in a state where [R]
    holds of the exception. *)
Definition triple {A} (E : environment) (P : state → Prop) (m : M A)
    (Q : A → state → Prop) (R : exn → state → Prop) : Prop :=
  ∀ st, P st →
    match m E st with
    | (st', Ok a) => Q a st'
    | (st', Raise e) => R e st'
    end.


(** The paths a call of the log sink can change. *)
Definition log_paths : list path :=
  [["home"]; ["home"; "USER"]; UsbManager.LOG_FILE].

(** [st'] differs from [st] in files only at paths of [touched], and its
    history extends that of [st] by events that satisfy [allowed]. *)
Definition changes_only (touched : list path) (allowed : event → bool)
    (st st' : state) : Prop :=
  (∀ p, p ∉ touched → fs st' !! p = fs st !! p) ∧
  ∃ evs, trace st' = trace st ++ evs ∧ forallb allowed evs = true.

(** [frames T al m]: whatever the outcome, [m] changes only [T] and emits
    only events in [al]. *)
Definition frames {A} (T : list path) (al : event → bool) (m : M A) : Prop :=
  ∀ E st, changes_only T al st (m E st).1.

(** The events the reboot handling may emit: child processes and writes
    to Reboot.txt. *)
Definition reboot_event (ev : event) : bool :=
  match ev with
  | EvRun _ => true
  | EvWrite p _ => bool_decide (p = Reboot.reboot_file)
  | _ => false
  end.

Arguments Reboot.reboot_file : simpl never.
Arguments Library.library : simpl never.
Arguments UsbManager.LOG_FILE : simpl never.
Arguments UsbManager.AUDIO_DIR : simpl never.
Arguments UsbManager.USB_MOUNT : simpl never.
Arguments UsbManager.REBOOT_FILE_DEFAULT : simpl never.
Arguments WatchUsb.LOG_FILE : simpl never.
Arguments WatchUsb.MOUNTPOINT : simpl never.

Section AfterReboot.
Import UsbManager Reboot.

(** The files and the history after a triggered reboot handling whose
    rewrite of Reboot.txt succeeds. *)
Definition after_restore (E : environment) (st : state) : state :=
  let f1 := Log.append (Log.line E "Reboot trigger detected via Reboot.txt") (fs st) in
  let f2 := Log.append (Log.line E "Restored Reboot.txt to default format")
              (<[reboot_file := File REBOOT_FILE_DEFAULT]> f1) in
  let f3 := Log.append (Log.line E "Rebooting now…") f2 in
  State f3 (((trace st ++ [EvWrite reboot_file REBOOT_FILE_DEFAULT])
               ++ [EvRun ["espeak-ng"; "Rebooting now."]]) ++ [EvRun ["sync"]]).

Definition after_reboot (E : environment) (st : state) : state :=
  let st3 := after_restore E st in
  State (match proc E (trace st3) ["reboot"] with
         | NotStarted e =>
           Log.append (Log.line E ("Reboot error: " +:+ Os.exn_str e)) (fs st3)
         | Exited _ => fs st3
         end)
        (trace st3 ++ [EvRun ["reboot"]]).

End AfterReboot.

(** ** Concrete worlds *)

Module Demo.
Import UsbManager.

Definition always_exits (code : nat) : list event → list string → outcome :=
  λ _ _, Exited code.

(** Nothing is refused and every child process succeeds. *)
Definition quiet : environment :=
  Environment (λ _ _, false) (always_exits 0)
              "Thu Jan  1 00:00:00 1970" "1970-01-01 00:00:00".

(** A volume mounted read-only: no write below the mount point. *)
Definition read_only_volume : environment :=
  Environment (λ a p, match a with
                      | Write => bool_decide (USB_MOUNT `prefix_of` p)
                      | _ => false
                      end)
              (always_exits 0)
              "Thu Jan  1 00:00:00 1970" "1970-01-01 00:00:00".

(** The [reboot] command runs and exits with status 1. *)
Definition reboot_exits_1 : environment :=
  Environment (λ _ _, false)
              (λ _ argv, if decide (argv = ["reboot"]) then Exited 1 else Exited 0)
              "Thu Jan  1 00:00:00 1970" "1970-01-01 00:00:00".

(** The [reboot] command cannot be started. *)
Definition reboot_missing : environment :=
  Environment (λ _ _, false)
              (λ _ argv, if decide (argv = ["reboot"])
                         then NotStarted (OSError "[Errno 2] No such file or directory: 'reboot'")
                         else Exited 0)
              "Thu Jan  1 00:00:00 1970" "1970-01-01 00:00:00".



(** The appliance with an empty log and a content store of two books, and
    a mounted volume holding [files]. *)
Definition appliance : list (path * node) :=
  [ (["home"], Dir); (["home"; "USER"], Dir);
    (LOG_FILE, File "");
    (AUDIO_DIR, Dir);
    (AUDIO_DIR ++ ["b.mp3"], File "bbb");
    (AUDIO_DIR ++ ["a.mp3"], File "aaa");
    (AUDIO_DIR ++ [".cache"], File "ccc") ].

Definition mounted (files : list (path * node)) : state :=
  State (list_to_map (appliance ++ [(["media"], Dir); (USB_MOUNT, Dir)] ++ files)) [].

Definition unmounted : state :=
  State (list_to_map (appliance ++ [(["media"], Dir)])) [].

Definition triggered_text : string :=
  "### edited ###" +:+ nl +:+ "Reboot" +:+ nl.

Definition short_text : string := "Reboot" +:+ nl.

Definition library_example : string :=
  "Inventory:" +:+ nl +:+ "a.mp3" +:+ nl +:+ "b.mp3" +:+ nl +:+ nl +:+
  "Deletion:" +:+ nl +:+ "a.mp3" +:+ nl +:+ "#skip.mp3" +:+ nl +:+ nl +:+
  "b.mp3" +:+ nl.

Definition triggered_volume : state :=
  mounted [(Reboot.reboot_file, File triggered_text)].

Definition short_volume : state :=
  mounted [(Reboot.reboot_file, File short_text)].

Definition plain_volume : state :=
  mounted [(Reboot.reboot_file, File REBOOT_FILE_DEFAULT);
           (Library.library, File library_example);
           (USB_MOUNT ++ ["Add"], Dir);
           (USB_MOUNT ++ ["Add"; "x.mp3"], File "xxx")].

End Demo.

(** *** The watcher's polls *)

Module Poll.
Import WatchUsb Tree.

(** An enumeration that shows exactly one partition passing the test, with
    device path [d]. *)
Definition shows (d : string) (enum : enumeration) : Prop :=
  ∃ blocks b, enum = inr blocks ∧ has_paths blocks ∧
              List.filter wanted (preorder blocks) = [b] ∧
              block_path b = Some d.


(** Mount, import and unmount of [d] succeed, and the flush runs. *)
Definition handling_succeeds (E : environment) (d : string) : Prop :=
  (∀ tr, proc E tr (mount_argv d) = Exited 0) ∧
  (∀ tr, proc E tr importer_argv = Exited 0) ∧
  (∀ tr, ∃ code, proc E tr ["sync"] = Exited code) ∧
  (∀ tr, proc E tr umount_argv = Exited 0).

(** The mount point is there. *)
Definition mountpoint_present (f : gmap path node) : Prop :=
  f !! ["media"] = Some Dir ∧ f !! MOUNTPOINT = Some Dir.

Definition is_poll (ev : event) : bool :=
  match ev with
  | EvRun argv => bool_decide (argv = lsblk_argv)
  | _ => false
  end.

(** The events of a history that are not polls. *)
Definition actions (tr : list event) : list event :=
  List.filter (λ ev, negb (is_poll ev)) tr.

(** The child processes of one handled insertion of [d]. *)
Definition handling (d : string) : list event :=
  [EvRun (mount_argv d); EvRun importer_argv; EvRun ["sync"]; EvRun umount_argv].

(** What the loop does when it has found a new device: the log line and
    the guarded handling. *)
Definition attempt (dev : string) (last_device : option string)
  : M (option string) :=
  (log ("Detected new USB device: " +:+ dev) ;;
   try_except (handle dev)
     (λ e, log ("Error handling " +:+ dev +:+ ": " +:+ Os.exn_str e) ;;
           ret last_device))%py.

(** The state in which the poll has been made. *)
Definition polled (st : state) : state :=
  State (fs st) (trace st ++ [EvRun lsblk_argv]).

(** The state after a turn of the loop that found the new device [d] and
    handled it with success: four lines in the log, and the poll and the
    four child processes in the history. *)
Definition handled (E : environment) (d : string) (st : state) : state :=
  State (Log.append (Log.watcher_line E ("Unmounted " +:+ d))
           (Log.append (Log.watcher_line E "usb_manager.py completed")
              (Log.append (Log.watcher_line E
                             ("Mounted " +:+ d +:+ " at " +:+ Path.str MOUNTPOINT))
                 (Log.append (Log.watcher_line E ("Detected new USB device: " +:+ d))
                    (fs st)))))
        ((trace st ++ [EvRun lsblk_argv]) ++ handling d).

(** The state in which the new device [d] has been found and announced in
    the log, before the handling starts. *)
Definition detected (E : environment) (d : string) (st : state) : state :=
  State (Log.append (Log.watcher_line E ("Detected new USB device: " +:+ d)) (fs st))
        (trace st ++ [EvRun lsblk_argv]).

(** Mount and import succeed, the flush runs, and [umount] fails. *)
Definition only_umount_fails (E : environment) (d : string) : Prop :=
  (∀ tr, proc E tr (mount_argv d) = Exited 0) ∧
  (∀ tr, proc E tr importer_argv = Exited 0) ∧
  (∀ tr, ∃ code, proc E tr ["sync"] = Exited code) ∧
  (∀ tr, proc E tr umount_argv ≠ Exited 0).


(** A USB stick with one partition, not mounted. *)
Definition stick : list block :=
  [ Block (Some "mmcblk0") (Some "/dev/mmcblk0") false None
      [ Block (Some "mmcblk0p1") (Some "/dev/mmcblk0p1") false (Some "/boot") [];
        Block (Some "mmcblk0p2") (Some "/dev/mmcblk0p2") false (Some "/") [] ];
    Block (Some "sda") (Some "/dev/sda") true None
      [ Block (Some "sda1") (Some "/dev/sda1") true None [] ] ].

(** The same board with the stick pulled out. *)
Definition no_stick : list block :=
  [ Block (Some "mmcblk0") (Some "/dev/mmcblk0") false None
      [ Block (Some "mmcblk0p1") (Some "/dev/mmcblk0p1") false (Some "/boot") [];
        Block (Some "mmcblk0p2") (Some "/dev/mmcblk0p2") false (Some "/") [] ] ].

(** [umount] exits with status 32; every other child process succeeds. *)
Definition umount_fails : environment :=
  Environment (λ _ _, false)
              (λ _ argv, if decide (argv = umount_argv) then Exited 32 else Exited 0)
              "Thu Jan  1 00:00:00 1970" "1970-01-01 00:00:00".

End Poll.
Arguments Library.inventory_header : simpl never.
Arguments Library.deletion_header : simpl never.
Arguments Py.strip : simpl never.
Arguments Py.lower : simpl never.
Arguments Py.startswith : simpl never.
Arguments Py.iter_lines : simpl never.
Arguments Py.splitlines : simpl never.
Arguments Py.read_translate : simpl never.

(** *** The content store *)

Module Store.
Import UsbManager.

(** A regular file lies at [p]. *)
Definition file_at (f : gmap path node) (p : path) : bool :=
  match f !! p with Some (File _) => true | _ => false end.


(** The names [write_library_to_usb] collects from the files [f]. *)
Definition entries (f : gmap path node) : list string :=
  match f !! AUDIO_DIR with
  | Some Dir =>
    sorted (List.filter (λ n, file_at f (AUDIO_DIR ++ [n]) && negb (hidden n))
              (Path.children f AUDIO_DIR))
  | _ => []
  end.

End Store.

(** The invariant of the watcher: the log can be appended to. *)
Definition logging (E : environment) (st : state) : Prop := Log.ready E (fs st).

(** *** A run of the import job without a failing copy or delete *)

Module Job.
Import UsbManager.

Definition add_dir : path := USB_MOUNT // "Add".

(** [f] has directories exactly where [f0] has. *)
Definition same_dirs (f0 f : gmap path node) : Prop :=
  ∀ p, f !! p = Some Dir ↔ f0 !! p = Some Dir.

(** What holds all along a run from the files [f0]: the log accepts lines
    and no directory has come or gone. *)
Definition steady (E : environment) (f0 : gmap path node) (st : state) : Prop :=
  Log.ready E (fs st) ∧ same_dirs f0 (fs st).

(** The additions cannot fail: [Add] is absent or a directory that can be
    listed, the files in it can be read, and the content store is a
    directory without subdirectories into which files can be written. *)
Definition can_add (E : environment) (f : gmap path node) : Prop :=
  (∀ c, f !! add_dir ≠ Some (File c)) ∧
  denied E Listing add_dir = false ∧
  (∀ n, denied E Read (add_dir ++ [n]) = false) ∧
  f !! AUDIO_DIR = Some Dir ∧
  (∀ n, f !! (AUDIO_DIR ++ [n]) ≠ Some Dir) ∧
  (∀ n, denied E Write (AUDIO_DIR ++ [n]) = false).


(** The staging folder and library.txt are as they were in [f0]. *)
Definition volume_kept (f0 : gmap path node) (st : state) : Prop :=
  (∀ p, add_dir `prefix_of` p → fs st !! p = f0 !! p) ∧
  fs st !! Library.library = f0 !! Library.library.

(** [st] with one more line in the log, for [msg]. *)
Definition logged (E : environment) (msg : string) (st : state) : state :=
  State (Log.append (Log.line E msg) (fs st)) (trace st).

(** Each guarded step, when what it guards raises [e], writes its line to
    the log and returns, so that the steps after it run: creating, reading
    and restoring Reboot.txt, reading library.txt, and writing library.txt
    (also when the volume is missing). *)
Definition failures_logged (E : environment) : Prop :=
  ∀ st, Log.ready E (fs st) →
    (∀ e, fs st !! Reboot.reboot_file = None →
       Os.write_text Reboot.reboot_file REBOOT_FILE_DEFAULT E st = (st, Raise e) →
       ensure_reboot_file Reboot.reboot_file E st =
         (logged E ("Error creating default Reboot.txt: " +:+ Os.exn_str e) st, Ok tt)) ∧
    (∀ e, fs st !! Reboot.reboot_file ≠ None →
       Os.read_text Reboot.reboot_file E st = (st, Raise e) →
       check_reboot_trigger Reboot.reboot_file E st =
         (logged E ("Error reading Reboot.txt: " +:+ Os.exn_str e) st, Ok false)) ∧
    (∀ e, Os.write_text Reboot.reboot_file REBOOT_FILE_DEFAULT E st = (st, Raise e) →
       restore_reboot_file Reboot.reboot_file E st =
         (logged E ("Error restoring Reboot.txt: " +:+ Os.exn_str e) st, Ok tt)) ∧
    (∀ e, fs st !! Library.library ≠ None →
       Os.read_lines Library.library E st = (st, Raise e) →
       parse_deletion_from_library Library.library E st =
         (logged E ("Error parsing library.txt (" +:+ Path.str Library.library +:+ "): "
                    +:+ Os.exn_str e) st, Ok [])) ∧
    (fs st !! USB_MOUNT = None →
       write_library_to_usb E st =
         (logged E "USB mount not found; skipping library write" st, Ok tt)) ∧
    (∀ e, fs st !! USB_MOUNT = Some Dir →
       (∀ c, fs st !! AUDIO_DIR ≠ Some (File c)) →
       denied E Listing AUDIO_DIR = false →
       Os.write_text Library.library (library_text (Store.entries (fs st))) E st
         = (st, Raise e) →
       write_library_to_usb E st =
         (logged E ("Error writing library file: " +:+ Os.exn_str e) st, Ok tt)).

(** Both, in a form that can be computed on given files. *)
Definition no_subdirs (f : gmap path node) : bool :=
  bool_decide (map_Forall (λ p nd, nd = Dir → Path.parent p ≠ AUDIO_DIR ∨ p = []) f).


End Job.

Arguments Job.add_dir : simpl never.

(** ** Notions for further properties of the two scripts *)

Module Text.

(** [s] holds neither a line feed nor a carriage return. *)
Fixpoint one_line (s : string) : bool :=
  match s with
  | EmptyString => true
  | String a r => negb (Py.byte_is 10 a || Py.byte_is 13 a) && one_line r
  end.

End Text.

Module Rewrite.
Import UsbManager.

(** The lines of a library.txt that lists [entries]. *)
Definition lines (entries : list string) : list string :=
  ("Inventory:" +:+ nl) :: ((λ name, name +:+ nl) <$> entries)
  ++ [nl; "Deletion:" +:+ nl].

(** No name of [entries], read as a line, is a deletion header. *)
Definition no_deletion_names (entries : list string) : Prop :=
  Forall (λ name, Library.deletion_header (name +:+ nl) = false) entries.

End Rewrite.

Module Staging.
Import UsbManager Job.

(** [name] is a regular, not hidden file of the staging folder in [f]. *)
Definition is_staged (f : gmap path node) (name : string) : bool :=
  Store.file_at f (add_dir ++ [name]) && negb (hidden name).

(** The names the additions act on, in the order of the listing. *)
Definition staged (f : gmap path node) : list string :=
  List.filter (is_staged f) (Path.children f add_dir).

(** One copy into the content store for each of [names]. *)
Definition copies (names : list string) : list event :=
  (λ n, EvCopy (add_dir ++ [n]) (AUDIO_DIR ++ [n])) <$> names.

(** The announcement [msg], made when [names] is not empty. *)
Definition announcement (msg : string) (names : list string) : list event :=
  match names with
  | [] => []
  | _ => [EvRun ["espeak-ng"; msg]]
  end.



End Staging.

Module Sample.
Import UsbManager Job.

(** A library.txt that asks for a stored book, an unknown one and one that
    is only staged. *)
Definition requests_text : string :=
  "Inventory:" +:+ nl +:+ "a.mp3" +:+ nl +:+ "b.mp3" +:+ nl +:+ nl +:+
  "Deletion:" +:+ nl +:+ "b.mp3" +:+ nl +:+ "gone.mp3" +:+ nl +:+ "n.mp3" +:+ nl.

(** A volume whose staging folder holds a new version of a stored book, a
    new book, a hidden file and a folder. *)
Definition restaged_volume : state :=
  Demo.mounted [(Reboot.reboot_file, File REBOOT_FILE_DEFAULT);
                (Library.library, File requests_text);
                (add_dir, Dir);
                (add_dir ++ ["a.mp3"], File "new");
                (add_dir ++ ["n.mp3"], File "nnn");
                (add_dir ++ [".hidden"], File "h");
                (add_dir ++ ["sub"], Dir)].

(** A box that has not imported anything yet: no content store, and a
    volume with one staged book. *)
Definition fresh_box : state :=
  State (list_to_map [ (["home"], Dir); (["home"; "USER"], Dir);
                       (["media"], Dir); (USB_MOUNT, Dir);
                       (add_dir, Dir);
                       (add_dir ++ ["x.mp3"], File "xxx") ]) [].

(** [mount] exits with status 32; every other child process succeeds. *)
Definition mount_fails : environment :=
  Environment (λ _ _, false)
              (λ _ argv, match argv with
                         | "mount" :: _ => Exited 32
                         | _ => Exited 0
                         end)
              "Thu Jan  1 00:00:00 1970" "1970-01-01 00:00:00".

End Sample.

Module Watch.
Import WatchUsb Poll.

(** The paths the watcher itself can change: its log and the mount point
    with the directory above it. *)
Definition watcher_paths : list path := [LOG_FILE; ["media"]; MOUNTPOINT].

(** A child process. *)
Definition is_run (ev : event) : bool :=
  match ev with EvRun _ => true | _ => false end.

(** A child process other than the poll. *)
Definition is_action (ev : event) : bool :=
  match ev with
  | EvRun argv => negb (bool_decide (argv = lsblk_argv))
  | _ => false
  end.

(** The number of polls in a history. *)
Definition polls (tr : list event) : nat := length (List.filter is_poll tr).

(** The state after a turn in which [lsblk] failed with [e] while [d] was
    recorded: the failure and the removal in the log, the poll in the
    history. *)
Definition forgotten (E : environment) (d : string) (e : exn) (st : state) : state :=
  State (Log.append (Log.watcher_line E ("USB device " +:+ d +:+ " removed"))
           (Log.append (Log.watcher_line E ("lsblk failed: " +:+ Os.exn_str e))
              (fs st)))
        (trace st ++ [EvRun lsblk_argv]).

(** Two sticks, each with one partition that is not mounted. *)
Definition two_sticks : list block :=
  [ Block (Some "sda") (Some "/dev/sda") true None
      [ Block (Some "sda1") (Some "/dev/sda1") true None [] ];
    Block (Some "sdb") (Some "/dev/sdb") true None
      [ Block (Some "sdb1") (Some "/dev/sdb1") true None [] ] ].

End Watch.

#[local] Set Warnings "-clear-no-such-hyp".

(** ** Python strings *)

Example strip_ex : Py.strip "  a.mp3
" = "a.mp3".
Proof. reflexivity. Qed.

Example splitlines_ex : Py.splitlines "ab
cd
" = ["ab"; "cd"].
Proof. reflexivity. Qed.

(** ** The partition search *)

Section Walk.
Import WatchUsb Tree.

Lemma block_ind (P : block → Prop) :
  (∀ n p r m ch, Forall P ch → P (Block n p r m ch)) → ∀ b, P b.
Proof.
  intros IH. fix rec 1. intros [n p r m ch]. apply IH.
  induction ch as [|c ch IHch]; constructor; [apply rec | exact IHch].
Qed.

Lemma preorder_block_eq b :
  preorder_block b = b :: preorder (block_children b).
Proof.
  by destruct b.
Qed.

Lemma walk_block_eq b :
  walk_block b =
    if wanted b then Some (block_path b)
    else match block_children b with
         | [] => None
         | ch => if truthy (walk ch) then Some (walk ch) else None
         end.
Proof.
  destruct b as [n p r m ch]. cbn [walk_block block_children].
  destruct (wanted _); [done|]. by destruct ch.
Qed.

Lemma find_app_first {A} (f : A → bool) (l1 l2 : list A) :
  List.find f (l1 ++ l2) =
    match List.find f l1 with Some x => Some x | None => List.find f l2 end.
Proof. induction l1 as [|x l1 IH]; simpl; [done|]. by destruct (f x). Qed.

Definition path_of_first (l : list block) : option string :=
  match List.find wanted l with
  | Some b => block_path b
  | None => None
  end.

Lemma walk_block_first b :
  Forall (λ x, truthy (block_path x) = true) (preorder_block b) →
  walk_block b =
    match List.find wanted (preorder_block b) with
    | Some x => Some (block_path x)
    | None => None
    end.
Proof.
  induction b as [n p r m ch IH] using block_ind. intros Hp.
  rewrite walk_block_eq. rewrite preorder_block_eq in Hp |- *.
  cbn [block_children] in *. apply Forall_cons in Hp as [_ Hp].
  cbn [List.find]. destruct (wanted _); [done|].
  assert (Hw : walk ch = path_of_first (preorder ch) ∧
               (∀ x, List.find wanted (preorder ch) = Some x →
                     truthy (block_path x) = true)).
  { split.
    - clear -IH Hp. unfold path_of_first.
      induction ch as [|c ch IHch]; [done|].
      cbn [preorder walk] in *. apply Forall_app in Hp as [Hc Hch].
      apply Forall_cons in IH as [IHc IHall].
      rewrite (IHc Hc), find_app_first.
      destruct (List.find wanted (preorder_block c)); [done|]. by apply IHch.
    - intros x Hx. apply find_some in Hx as [Hin _].
      rewrite Forall_forall in Hp. apply Hp. by apply list_elem_of_In. }
  destruct Hw as [Hw Htr]. destruct ch as [|c ch]; [done|].
  rewrite Hw. unfold path_of_first.
  destruct (List.find wanted (preorder (c :: ch))) as [x|] eqn:Hf; [|done].
  by rewrite (Htr x).
Qed.

Lemma walk_first blocks :
  has_paths blocks → walk blocks = path_of_first (preorder blocks).
Proof.
  unfold has_paths, path_of_first.
  induction blocks as [|b rest IH]; [done|]. cbn [preorder walk].
  intros [Hb Hrest]%Forall_app.
  rewrite (walk_block_first b Hb), find_app_first.
  destruct (List.find wanted (preorder_block b)); [done|]. by apply IH.
Qed.

End Walk.

(** ** Running computations *)

Section Running.
Context {A B : Type}.

Lemma bind_ok (m : M A) (k : A → M B) E st st' a :
  m E st = (st', Ok a) → bind m k E st = k a E st'.
Proof. unfold bind. by intros ->. Qed.

Lemma bind_raise (m : M A) (k : A → M B) E st st' e :
  m E st = (st', Raise e) → bind m k E st = (st', Raise e).
Proof. unfold bind. by intros ->. Qed.

Lemma try_ok (m : M A) h E st st' a :
  m E st = (st', Ok a) → try_except m h E st = (st', Ok a).
Proof. unfold try_except. by intros ->. Qed.

Lemma try_raise (m : M A) h E st st' e :
  m E st = (st', Raise e) → try_except m h E st = h e E st'.
Proof. unfold try_except. by intros ->. Qed.

Lemma triple_bind E P (m : M A) (k : A → M B) Q' Q R :
  triple E P m Q' R → (∀ a, triple E (Q' a) (k a) Q R) →
  triple E P (bind m k) Q R.
Proof.
  intros Hm Hk st HP. specialize (Hm st HP). unfold bind.
  destruct (m E st) as [st' [a|e]]; [by apply Hk | done].
Qed.

Lemma triple_try E P (m : M A) h Q R' R :
  triple E P m Q R' → (∀ e, triple E (R' e) (h e) Q R) →
  triple E P (try_except m h) Q R.
Proof.
  intros Hm Hh st HP. specialize (Hm st HP). unfold try_except.
  destruct (m E st) as [st' [a|e]]; [done | by apply Hh].
Qed.

Lemma triple_weaken E (P P' : state → Prop) (m : M A)
    (Q Q' : A → state → Prop) (R R' : exn → state → Prop) :
  triple E P' m Q' R' →
  (∀ st, P st → P' st) → (∀ a st, Q' a st → Q a st) →
  (∀ e st, R' e st → R e st) →
  triple E P m Q R.
Proof.
  intros Hm HP HQ HR st Hst. specialize (Hm st (HP st Hst)).
  destruct (m E st) as [st' [a|e]]; auto.
Qed.

Lemma triple_ret E (P : state → Prop) (a : A) Q R :
  (∀ st, P st → Q a st) → triple E P (ret a) Q R.
Proof. intros H st HP. by apply H. Qed.

End Running.

(** ** The log sink *)

Section LogSink.
Import UsbManager.

Lemma store_ok p new E st :
  fs st !! p ≠ Some Dir →
  Path.is_dir_at (fs st) (Path.parent p) = true →
  denied E Write p = false →
  Os.store p new E st =
    (State (<[p := File (new (match fs st !! p with
                              | Some (File c) => Some c
                              | _ => None
                              end))]> (fs st)) (trace st), Ok tt).
Proof.
  intros Hnd Hpar Hw. unfold Os.store, bind, get_fs, refused, set_fs. cbn.
  destruct (fs st !! p) as [[c|]|]; [| done |];
    rewrite Hpar; cbn; by rewrite Hw.
Qed.


Lemma mkdir_log_parent E st :
  Log.ready E (fs st) →
  Os.mkdir_parents (Path.parent LOG_FILE) E st = (st, Ok tt).
Proof.
  intros (_ & Hh & Hu & _). unfold Os.mkdir_parents, LOG_FILE. cbn.
  unfold bind, get_fs. cbn. rewrite Hh. cbn. by rewrite Hu.
Qed.

Lemma ready_parent E f :
  Log.ready E f → Path.is_dir_at f (Path.parent LOG_FILE) = true.
Proof. intros (_ & _ & Hu & _). unfold LOG_FILE. cbn. by rewrite Hu. Qed.

Lemma log_ok msg E st :
  Log.ready E (fs st) →
  log msg E st = (State (Log.append (Log.line E msg) (fs st)) (trace st), Ok tt).
Proof.
  intros Hr. unfold log. erewrite bind_ok by by apply mkdir_log_parent.
  unfold Os.append_text. rewrite store_ok; [| apply Hr | by eapply ready_parent | apply Hr].
  unfold Log.append, Log.text, Log.line.
  by destruct (fs st !! LOG_FILE) as [[c|]|].
Qed.

Lemma watcher_log_ok msg E st :
  Log.ready E (fs st) →
  WatchUsb.log msg E st =
    (State (Log.append (Log.watcher_line E msg) (fs st)) (trace st), Ok tt).
Proof.
  intros Hr. unfold WatchUsb.log, Os.append_text.
  rewrite store_ok; [| apply Hr | by eapply ready_parent | apply Hr].
  unfold Log.append, Log.text, Log.watcher_line.
  change WatchUsb.LOG_FILE with LOG_FILE.
  by destruct (fs st !! LOG_FILE) as [[c|]|].
Qed.

Lemma ready_append E f line : Log.ready E f → Log.ready E (Log.append line f).
Proof.
  intros (Hw & Hh & Hu & Hl). unfold Log.append.
  split_and!; [done | by rewrite lookup_insert_ne | by rewrite lookup_insert_ne |].
  by rewrite lookup_insert_eq.
Qed.

Lemma ready_insert_file E f p c :
  Log.ready E f → f !! p ≠ Some Dir → Log.ready E (<[p := File c]> f).
Proof.
  intros (Hw & Hh & Hu & Hl) Hp.
  split_and!; [done | | |].
  - rewrite lookup_insert_ne; [done | congruence].
  - rewrite lookup_insert_ne; [done | congruence].
  - destruct (decide (p = LOG_FILE)) as [->|];
      [by rewrite lookup_insert_eq | by rewrite lookup_insert_ne].
Qed.

Lemma ready_delete_file E f p c :
  Log.ready E f → f !! p = Some (File c) → Log.ready E (delete p f).
Proof.
  intros (Hw & Hh & Hu & Hl) Hp.
  split_and!; [done | | |].
  - rewrite lookup_delete_ne; [done | congruence].
  - rewrite lookup_delete_ne; [done | congruence].
  - destruct (decide (p = LOG_FILE)) as [->|];
      [by rewrite lookup_delete_eq | by rewrite lookup_delete_ne].
Qed.

Lemma readyb_ready E f : Log.readyb E f = true → Log.ready E f.
Proof.
  unfold Log.readyb, Log.ready. rewrite !andb_true_iff, negb_true_iff.
  rewrite !bool_decide_eq_true. tauto.
Qed.

End LogSink.

(** ** What a computation leaves alone *)

Section Frame.
Import UsbManager.

Lemma changes_only_refl T al st : changes_only T al st st.
Proof. split; [done|]. exists []. by rewrite app_nil_r. Qed.

Lemma changes_only_trans T al st1 st2 st3 :
  changes_only T al st1 st2 → changes_only T al st2 st3 →
  changes_only T al st1 st3.
Proof.
  intros [Hf1 (e1 & Ht1 & Ha1)] [Hf2 (e2 & Ht2 & Ha2)]. split.
  - intros p Hp. by rewrite Hf2, Hf1.
  - exists (e1 ++ e2). rewrite Ht2, Ht1, <-app_assoc, forallb_app, Ha1, Ha2. done.
Qed.

Lemma changes_only_mono T T' (al al' : event → bool) st st' :
  changes_only T al st st' → T ⊆ T' → (∀ ev, al ev = true → al' ev = true) →
  changes_only T' al' st st'.
Proof.
  intros [Hf (evs & Ht & Ha)] HT Hal. split.
  - intros p Hp. apply Hf. intros Hin. by apply Hp, HT.
  - exists evs. split; [done|]. rewrite forallb_forall in Ha |- *. auto.
Qed.

Lemma frames_ret {A} T al (a : A) : frames T al (ret a).
Proof. intros E st. apply changes_only_refl. Qed.

Lemma frames_raise {A} T al e : frames T al (raise (A:=A) e).
Proof. intros E st. apply changes_only_refl. Qed.

Lemma frames_bind {A B} T al (m : M A) (k : A → M B) :
  frames T al m → (∀ a, frames T al (k a)) → frames T al (bind m k).
Proof.
  intros Hm Hk E st. specialize (Hm E st). unfold bind.
  destruct (m E st) as [st' [a|e]]; [|done].
  eapply changes_only_trans; [exact Hm | apply Hk].
Qed.

Lemma frames_try {A} T al (m : M A) h :
  frames T al m → (∀ e, frames T al (h e)) → frames T al (try_except m h).
Proof.
  intros Hm Hh E st. specialize (Hm E st). unfold try_except.
  destruct (m E st) as [st' [a|e]]; [done|].
  eapply changes_only_trans; [exact Hm | apply Hh].
Qed.

Lemma frames_if {A} T al (b : bool) (m1 m2 : M A) :
  frames T al m1 → frames T al m2 → frames T al (if b then m1 else m2).
Proof. by destruct b. Qed.

Lemma frames_get_fs T al : frames T al get_fs.
Proof. intros E st. apply changes_only_refl. Qed.

Lemma frames_refused T al a p : frames T al (refused a p).
Proof. intros E st. apply changes_only_refl. Qed.


Lemma frames_emit T (al : event → bool) ev :
  al ev = true → frames T al (emit ev).
Proof.
  intros Hev E st. split; [done|]. exists [ev]. cbn. by rewrite Hev.
Qed.

Lemma frames_store T al p new : p ∈ T → frames T al (Os.store p new).
Proof.
  intros Hp E st. unfold Os.store, bind, get_fs, refused, set_fs, raise. cbn.
  destruct (fs st !! p) as [[c|]|]; cbn; try apply changes_only_refl;
    destruct (Path.is_dir_at _ _); cbn; try apply changes_only_refl;
    destruct (denied E Write p); cbn; try apply changes_only_refl;
    (split; cbn; [intros q Hq; rewrite lookup_insert_ne; [done | by intros ->]
                 | exists []; by rewrite app_nil_r]).
Qed.

Lemma frames_mkdir_go T al todo : ∀ done,
  (∀ k, (0 < k ≤ length todo)%nat → done ++ take k todo ∈ T) →
  frames T al (Os.mkdir_go done todo).
Proof.
  induction todo as [|c rest IH]; intros dn HT; [apply frames_ret|].
  cbn [Os.mkdir_go]. intros E st. unfold bind at 1. unfold get_fs at 1.
  assert (Hq : dn ++ [c] ∈ T) by (apply (HT 1%nat); cbn; lia).
  assert (Hrest : frames T al (Os.mkdir_go (dn ++ [c]) rest)).
  { apply IH. intros k Hk. rewrite <- app_assoc. apply (HT (S k)). cbn. lia. }
  destruct (fs st !! (dn ++ [c])) as [[x|]|]; cbn.
  - apply changes_only_refl.
  - apply Hrest.
  - unfold bind, refused. cbn. destruct (denied E Mkdir _); cbn.
    + apply changes_only_refl.
    + eapply changes_only_trans; [|apply Hrest]. split; cbn.
      * intros q Hq'. rewrite lookup_insert_ne; [done | by intros <-].
      * exists []. by rewrite app_nil_r.
Qed.

Lemma frames_run T (al : event → bool) argv :
  al (EvRun argv) = true → frames T al (Os.run argv).
Proof.
  intros Hev E st. unfold Os.run.
  destruct (proc E (trace st) argv); (split; [done|]);
    exists [EvRun argv]; cbn; by rewrite Hev.
Qed.

Lemma frames_mono {A} T T' (al al' : event → bool) (m : M A) :
  frames T al m → T ⊆ T' → (∀ ev, al ev = true → al' ev = true) →
  frames T' al' m.
Proof. intros Hm HT Hal E st. eapply changes_only_mono; eauto. Qed.

Lemma frames_log T al msg : log_paths ⊆ T → frames T al (log msg).
Proof.
  intros HT. eapply frames_mono with (T := log_paths) (al := al); [|done|done].
  unfold log. apply frames_bind.
  - apply frames_mkdir_go. intros k Hk. cbn in Hk.
    destruct k as [|[|[|k]]]; try lia; cbn; set_solver.
  - intros _ E. apply frames_store. set_solver.
Qed.

Lemma frames_write_text T (al : event → bool) p s :
  p ∈ T → al (EvWrite p s) = true → frames T al (Os.write_text p s).
Proof.
  intros Hp Hal. apply frames_bind; [by apply frames_store|].
  intros _. by apply frames_emit.
Qed.

Lemma frames_speak T (al : event → bool) msg :
  (∀ argv, al (EvRun argv) = true) → frames T al (speak msg).
Proof.
  intros Hal. apply frames_try; [|intros; apply frames_ret].
  apply frames_bind; [by apply frames_run | intros; apply frames_ret].
Qed.

End Frame.

(** ** The reboot trigger *)

Section RebootFile.
Import UsbManager Reboot.

Lemma frames_handle_reboot_file :
  frames (reboot_file :: log_paths) reboot_event handle_reboot_file.
Proof.
  assert (Hlog : ∀ msg, frames (reboot_file :: log_paths) reboot_event (log msg)).
  { intros msg. apply frames_log. set_solver. }
  assert (Hwr : ∀ s, frames (reboot_file :: log_paths) reboot_event
                       (Os.write_text reboot_file s)).
  { intros s. apply frames_write_text; [set_solver|]. cbn. by rewrite bool_decide_eq_true. }
  unfold handle_reboot_file. change (USB_MOUNT // "Reboot.txt") with reboot_file.
  apply frames_bind.
  { unfold ensure_reboot_file. apply frames_bind; [apply frames_bind;
      [apply frames_get_fs | intros; apply frames_ret]|].
    intros b. apply frames_if; [|apply frames_ret].
    apply frames_try; [apply frames_bind; auto | auto]. }
  intros _. apply frames_bind.
  { unfold check_reboot_trigger. apply frames_bind; [apply frames_bind;
      [apply frames_get_fs | intros; apply frames_ret]|].
    intros b. apply frames_if; [apply frames_ret|].
    apply frames_bind.
    - apply frames_try.
      + apply frames_bind; [|intros; apply frames_ret].
        unfold Os.read_text, Os.open_read. apply frames_bind; [|intros; apply frames_ret].
        apply frames_bind; [apply frames_get_fs|]. intros f.
        destruct (f !! reboot_file) as [[c|]|]; try apply frames_raise.
        apply frames_bind; [apply frames_refused|].
        intros no. apply frames_if; [apply frames_raise | apply frames_ret].
      + intros e. apply frames_bind; [auto | intros; apply frames_ret].
    - intros [lines|]; [|apply frames_ret].
      apply frames_if; apply frames_ret. }
  intros trig. apply frames_if; [|apply frames_ret].
  apply frames_bind; [auto|]. intros _.
  apply frames_bind.
  { unfold restore_reboot_file. apply frames_try; [apply frames_bind; auto | auto]. }
  intros _. apply frames_bind; [by apply frames_speak|]. intros _.
  apply frames_bind.
  { apply frames_try; [|intros; apply frames_ret].
    apply frames_bind; [by apply frames_run | intros; apply frames_ret]. }
  intros _. apply frames_bind; [auto|]. intros _.
  apply frames_bind; [|intros; apply frames_ret].
  apply frames_try; [|auto].
  apply frames_bind; [by apply frames_run | intros; apply frames_ret].
Qed.

Lemma store_not_touched p :
  AUDIO_DIR `prefix_of` p → p ∉ reboot_file :: log_paths.
Proof.
  intros [k ->]. unfold log_paths, reboot_file, AUDIO_DIR.
  rewrite !elem_of_cons, elem_of_nil. cbn. intros [H|[H|[H|[H|[]]]]]; discriminate.
Qed.

End RebootFile.

Section RebootTrigger.
Import UsbManager Reboot.

Lemma stat_reboot_file f :
  Path.stat f reboot_file = (λ nd, (reboot_file, nd)) <$> f !! reboot_file.
Proof. done. Qed.

Lemma ensure_present E st nd :
  fs st !! reboot_file = Some nd →
  ensure_reboot_file reboot_file E st = (st, Ok tt).
Proof.
  intros Hnd. unfold ensure_reboot_file, Os.exists_, bind, get_fs, ret.
  by rewrite stat_reboot_file, Hnd.
Qed.

Lemma check_readable E st c :
  fs st !! reboot_file = Some (File c) →
  denied E Read reboot_file = false →
  check_reboot_trigger reboot_file E st = (st, Ok (triggered c)).
Proof.
  intros Hc Hr.
  unfold check_reboot_trigger, Os.exists_, Os.read_text, Os.open_read,
    try_except, bind, get_fs, refused, ret.
  rewrite stat_reboot_file, Hc. cbn. rewrite Hc, Hr. cbn.
  unfold triggered, second_line, lines_of.
  destruct (Py.splitlines (Py.read_translate c)) as [|l1 [|l2 ls]]; done.
Qed.

Lemma check_unreadable E st c :
  fs st !! reboot_file = Some (File c) →
  denied E Read reboot_file = true →
  ∃ msg, check_reboot_trigger reboot_file E st =
         match log msg E st with
         | (st', Ok _) => (st', Ok false)
         | (st', Raise e) => (st', Raise e)
         end.
Proof.
  intros Hc Hr.
  exists ("Error reading Reboot.txt: " +:+ Os.exn_str (PermissionError reboot_file)).
  unfold check_reboot_trigger, Os.exists_, Os.read_text, Os.open_read,
    try_except, bind, get_fs, refused, ret, raise.
  rewrite stat_reboot_file, Hc. cbn. rewrite Hc, Hr. cbn.
  by destruct (log _ E st) as [st' [[]|e]].
Qed.

Lemma handle_untriggered E st st' :
  check_reboot_trigger reboot_file E st = (st', Ok false) →
  (trig <- check_reboot_trigger reboot_file ;;
   if trig then
     log "Reboot trigger detected via Reboot.txt" ;;
     restore_reboot_file reboot_file ;;
     speak "Rebooting now." ;;
     try_pass (Os.run ["sync"] ;; ret tt) ;;
     log "Rebooting now…" ;;
     try_except (Os.run ["reboot"] ;; ret tt)
                (λ e, log ("Reboot error: " +:+ Os.exn_str e)) ;;
     ret true
   else ret false) E st = (st', Ok false).
Proof. intros H. by erewrite bind_ok by exact H. Qed.

Lemma log_paths_not_reboot : reboot_file ∉ log_paths.
Proof.
  unfold log_paths, reboot_file. rewrite !elem_of_cons, elem_of_nil. cbn.
  intros [H|[H|[H|[]]]]; discriminate.
Qed.

Lemma log_keeps msg E st :
  fs (log msg E st).1 !! reboot_file = fs st !! reboot_file ∧
  trace (log msg E st).1 = trace st.
Proof.
  destruct (frames_log log_paths (λ _, false) msg (reflexivity _) E st)
    as [Hf (evs & Ht & Hev)].
  split; [apply Hf, log_paths_not_reboot|].
  destruct evs; [by rewrite Ht, app_nil_r | done].
Qed.

End RebootTrigger.

Section RebootClaims.
Import UsbManager Reboot.

Lemma short_not_triggered c : length (lines_of c) < 2 → triggered c = false.
Proof.
  intros Hlen. unfold triggered, second_line.
  by rewrite (proj2 (lookup_ge_None (lines_of c) 1)) by lia.
Qed.

(** C10.  When Reboot.txt exists and holds fewer than two lines, the reboot
    check reports no trigger: [handle_reboot_file] does not return [True],
    it starts no child process at all (neither the announcement nor the
    reboot command: the history of effects is unchanged), and Reboot.txt
    keeps its content.  When the file can be read the whole state is left
    as it was. *)
Theorem short_reboot_file_is_ignored E st c :
  fs st !! reboot_file = Some (File c) →
  length (lines_of c) < 2 →
  (denied E Read reboot_file = false →
     handle_reboot_file E st = (st, Ok false)) ∧
  (handle_reboot_file E st).2 ≠ Ok true ∧
  trace (handle_reboot_file E st).1 = trace st ∧
  fs (handle_reboot_file E st).1 !! reboot_file = Some (File c).
Proof.
  intros Hc Hlen.
  assert (Hread : denied E Read reboot_file = false →
                  handle_reboot_file E st = (st, Ok false)).
  { intros Hr. unfold handle_reboot_file.
    change (USB_MOUNT // "Reboot.txt") with reboot_file.
    erewrite bind_ok by (by eapply ensure_present).
    apply handle_untriggered.
    by rewrite (check_readable E st c), short_not_triggered. }
  split; [exact Hread|].
  destruct (denied E Read reboot_file) eqn:Hr; [|by rewrite Hread].
  unfold handle_reboot_file.
  change (USB_MOUNT // "Reboot.txt") with reboot_file.
  erewrite bind_ok by (by eapply ensure_present).
  destruct (check_unreadable E st c Hc Hr) as [msg Hchk].
  destruct (log_keeps msg E st) as [Hfile Htrace].
  destruct (log msg E st) as [st' [[]|e]] eqn:Hlog; cbn in Hfile, Htrace.
  - rewrite (handle_untriggered E st st' Hchk). cbn. by rewrite Hfile.
  - erewrite bind_raise by exact Hchk. cbn. by rewrite Hfile.
Qed.

(** C8.  When the reboot trigger fires, that is when [handle_reboot_file]
    returns [True], [process_usb] returns at once in the state the reboot
    handling left: no file in or below the content store and not
    library.txt has changed, and the only effects are child processes and
    writes to Reboot.txt (no copy, no unlink, no write of library.txt). *)
Theorem reboot_short_circuits E st st' :
  handle_reboot_file E st = (st', Ok true) →
  process_usb E st = (st', Ok tt) ∧
  (∀ p, AUDIO_DIR `prefix_of` p → fs st' !! p = fs st !! p) ∧
  fs st' !! Library.library = fs st !! Library.library ∧
  ∃ evs, trace st' = trace st ++ evs ∧ forallb reboot_event evs = true.
Proof.
  intros Hh. split.
  { unfold process_usb. by erewrite bind_ok by exact Hh. }
  destruct (frames_handle_reboot_file E st) as [Hf Hev].
  rewrite Hh in Hf, Hev. cbn in Hf, Hev. split_and!; [| |exact Hev].
  - intros p Hp. by apply Hf, store_not_touched.
  - apply Hf. unfold log_paths, reboot_file, Library.library.
    rewrite !elem_of_cons, elem_of_nil. cbn.
    intros [H|[H|[H|[H|[]]]]]; discriminate.
Qed.

End RebootClaims.

Section RebootRestore.
Import UsbManager Reboot.

Lemma write_text_ok p s E st :
  fs st !! p ≠ Some Dir →
  Path.is_dir_at (fs st) (Path.parent p) = true →
  denied E Write p = false →
  Os.write_text p s E st =
    (State (<[p := File s]> (fs st)) (trace st ++ [EvWrite p s]), Ok tt).
Proof.
  intros H1 H2 H3. unfold Os.write_text.
  by erewrite bind_ok by (by apply store_ok).
Qed.


Lemma speak_eq msg E st :
  speak msg E st = (State (fs st) (trace st ++ [EvRun ["espeak-ng"; msg]]), Ok tt).
Proof.
  unfold speak, try_pass, try_except, bind, Os.run, ret.
  by destruct (proc E (trace st) _).
Qed.

Lemma sync_eq E st :
  try_pass (Os.run ["sync"] ;; ret tt) E st =
    (State (fs st) (trace st ++ [EvRun ["sync"]]), Ok tt).
Proof.
  unfold try_pass, try_except, bind, Os.run, ret.
  by destruct (proc E (trace st) _).
Qed.

Lemma usb_is_parent f :
  Path.is_dir_at f (Path.parent reboot_file) = Path.is_dir_at f USB_MOUNT.
Proof. done. Qed.

Lemma reboot_try_eq E st :
  Log.ready E (fs st) →
  try_except (Os.run ["reboot"] ;; ret tt)
             (λ e, log ("Reboot error: " +:+ Os.exn_str e)) E st =
    (State (match proc E (trace st) ["reboot"] with
            | NotStarted e =>
              Log.append (Log.line E ("Reboot error: " +:+ Os.exn_str e)) (fs st)
            | Exited _ => fs st
            end)
           (trace st ++ [EvRun ["reboot"]]), Ok tt).
Proof.
  intros Hlog. unfold try_except, bind, Os.run, ret.
  destruct (proc E (trace st) ["reboot"]) as [e|code]; [|done].
  by rewrite log_ok.
Qed.

Lemma handle_triggered E st c :
  fs st !! reboot_file = Some (File c) →
  triggered c = true →
  denied E Read reboot_file = false →
  denied E Write reboot_file = false →
  Path.is_dir_at (fs st) USB_MOUNT = true →
  Log.ready E (fs st) →
  handle_reboot_file E st = (after_reboot E st, Ok true).
Proof.
  intros Hc Htrig Hr Hw Hmnt Hlog. unfold handle_reboot_file.
  change (USB_MOUNT // "Reboot.txt") with reboot_file.
  erewrite bind_ok by (by eapply ensure_present).
  erewrite bind_ok by (by eapply check_readable). rewrite Htrig.
  erewrite bind_ok by (by apply log_ok).
  set (f1 := Log.append _ (fs st)).
  assert (Hlog1 : Log.ready E f1) by by apply ready_append.
  assert (Hc1 : f1 !! reboot_file = Some (File c)).
  { unfold f1, Log.append. rewrite lookup_insert_ne; [done|discriminate]. }
  assert (Hmnt1 : Path.is_dir_at f1 USB_MOUNT = true).
  { revert Hmnt. unfold f1, Log.append, Path.is_dir_at, USB_MOUNT.
    rewrite lookup_insert_ne; [done|discriminate]. }
  erewrite bind_ok; cycle 1.
  { unfold restore_reboot_file. erewrite try_ok; [done|].
    erewrite bind_ok; cycle 1.
    { apply write_text_ok; cbn [fs]; [by rewrite Hc1 | by rewrite usb_is_parent | done]. }
    apply log_ok. cbn [fs]. apply ready_insert_file; [done | by rewrite Hc1]. }
  cbn [fs trace].
  set (f2 := Log.append _ (<[reboot_file := _]> f1)).
  assert (Hlog2 : Log.ready E f2).
  { apply ready_append, ready_insert_file; [done | by rewrite Hc1]. }
  erewrite bind_ok by apply speak_eq.
  erewrite bind_ok by apply sync_eq.
  erewrite bind_ok by (by apply log_ok). cbn [fs trace].
  set (f3 := Log.append _ f2).
  assert (Hlog3 : Log.ready E f3) by by apply ready_append.
  erewrite bind_ok by (by apply reboot_try_eq). done.
Qed.

End RebootRestore.

Section RebootRestoreClaims.
Import UsbManager Reboot.

Lemma text_append line f : Log.text (Log.append line f) = Log.text f +:+ line.
Proof. unfold Log.text at 1, Log.append. by rewrite lookup_insert_eq. Qed.

Lemma default_is_armed :
  second_line REBOOT_FILE_DEFAULT = Some placeholder ∧
  triggered REBOOT_FILE_DEFAULT = false.
Proof. by vm_compute. Qed.

(** C2, as the code has it.  Let Reboot.txt be readable with second line,
    trimmed, [Reboot]; let the volume accept the rewrite of the file and the
    log accept new lines.  Then [process_usb] returns normally whatever the
    [reboot] command does; Reboot.txt ends up holding the default text,
    whose second line is the placeholder; the rewrite is in the history
    before the [reboot] command; and the log gains a [Reboot error] line
    exactly when the command could not be started: a command that runs and
    exits with a non-zero status leaves no line. *)
Theorem reboot_file_restored_first E st c :
  fs st !! reboot_file = Some (File c) →
  triggered c = true →
  denied E Read reboot_file = false →
  denied E Write reboot_file = false →
  Path.is_dir_at (fs st) USB_MOUNT = true →
  Log.ready E (fs st) →
  let st' := after_reboot E st in
  process_usb E st = (st', Ok tt) ∧
  fs st' !! reboot_file = Some (File REBOOT_FILE_DEFAULT) ∧
  second_line REBOOT_FILE_DEFAULT = Some placeholder ∧
  trace st' = trace st ++ [EvWrite reboot_file REBOOT_FILE_DEFAULT;
                           EvRun ["espeak-ng"; "Rebooting now."];
                           EvRun ["sync"];
                           EvRun ["reboot"]] ∧
  Log.text (fs st') =
    match proc E (trace (after_restore E st)) ["reboot"] with
    | NotStarted e =>
      Log.text (fs (after_restore E st)) +:+
      Log.line E ("Reboot error: " +:+ Os.exn_str e)
    | Exited _ => Log.text (fs (after_restore E st))
    end.
Proof.
  intros Hc Htrig Hr Hw Hmnt Hlog st'. split_and!.
  - unfold process_usb.
    by erewrite bind_ok by (by eapply handle_triggered).
  - unfold st', after_reboot, after_restore. cbn [fs trace].
    assert (Hne : LOG_FILE ≠ reboot_file) by discriminate.
    destruct (proc E _ ["reboot"]); unfold Log.append;
      rewrite ?(lookup_insert_ne _ LOG_FILE) by done;
      by rewrite lookup_insert_eq.
  - apply default_is_armed.
  - unfold st', after_reboot, after_restore. cbn [fs trace].
    by rewrite <- !app_assoc.
  - unfold st', after_reboot. cbn [fs].
    destruct (proc E _ ["reboot"]); [by rewrite text_append | done].
Qed.

Lemma reboot_file_restored_first_witness :
  process_usb Demo.reboot_missing Demo.triggered_volume =
    (after_reboot Demo.reboot_missing Demo.triggered_volume, Ok tt) ∧
  fs (after_reboot Demo.reboot_missing Demo.triggered_volume) !! reboot_file =
    Some (File REBOOT_FILE_DEFAULT).
Proof.
  refine (let H := reboot_file_restored_first Demo.reboot_missing
                     Demo.triggered_volume Demo.triggered_text _ _ _ _ _ _ in
          conj (proj1 H) (proj1 (proj2 H)));
    try (vm_compute; reflexivity).
  apply readyb_ready. vm_compute. reflexivity.
Defined.

(** C2 as stated fails twice.  On a volume that refuses writes the rewrite
    of Reboot.txt fails, is logged, and the [reboot] command is issued all
    the same: after the invocation line 2 still reads [Reboot].  And a
    [reboot] command that exits with status 1 is not logged. *)
Lemma reboot_file_not_always_restored :
  (let st' := (process_usb Demo.read_only_volume Demo.triggered_volume).1 in
   fs st' !! reboot_file = Some (File Demo.triggered_text) ∧
   second_line Demo.triggered_text = Some "Reboot" ∧
   second_line Demo.triggered_text ≠ Some placeholder ∧
   trace st' = [EvRun ["espeak-ng"; "Rebooting now."]; EvRun ["sync"];
                EvRun ["reboot"]]) ∧
  (let st' := (process_usb Demo.reboot_exits_1 Demo.triggered_volume).1 in
   proc Demo.reboot_exits_1 (trace (after_restore Demo.reboot_exits_1
                                      Demo.triggered_volume)) ["reboot"] = Exited 1 ∧
   Log.text (fs st') =
     Log.line Demo.reboot_exits_1 "Reboot trigger detected via Reboot.txt" +:+
     Log.line Demo.reboot_exits_1 "Restored Reboot.txt to default format" +:+
     Log.line Demo.reboot_exits_1 "Rebooting now…").
Proof. by vm_compute. Qed.

Lemma short_reboot_file_is_ignored_witness :
  handle_reboot_file Demo.quiet Demo.short_volume = (Demo.short_volume, Ok false).
Proof.
  apply (short_reboot_file_is_ignored Demo.quiet Demo.short_volume Demo.short_text).
  - vm_compute. reflexivity.
  - vm_compute. lia.
  - vm_compute. reflexivity.
Defined.

Lemma reboot_short_circuits_witness :
  process_usb Demo.quiet Demo.triggered_volume =
    (after_reboot Demo.quiet Demo.triggered_volume, Ok tt).
Proof.
  apply (reboot_short_circuits Demo.quiet Demo.triggered_volume).
  vm_compute. reflexivity.
Defined.

End RebootRestoreClaims.

(** ** The log sink, as the code has it *)

Section LogClaims.






End LogClaims.

(** ** The partition search, as a whole *)

Section SearchClaims.
Import WatchUsb Tree.

Lemma find_listed blocks E st :
  find_usb_partition (inr blocks) E st = (Poll.polled st, Ok (walk blocks)).
Proof. done. Qed.

Lemma find_failed e E st :
  Log.ready E (fs st) →
  find_usb_partition (inl e) E st =
    (State (Log.append (Log.watcher_line E ("lsblk failed: " +:+ Os.exn_str e)) (fs st))
           (trace st ++ [EvRun lsblk_argv]), Ok None).
Proof.
  intros Hr. unfold find_usb_partition.
  erewrite bind_ok; cycle 1.
  { erewrite try_raise by reflexivity.
    by erewrite bind_ok by (by apply watcher_log_ok). }
  done.
Qed.


Lemma has_pathsb_has_paths blocks : has_pathsb blocks = true → has_paths blocks.
Proof.
  unfold has_pathsb, has_paths. rewrite forallb_forall, Forall_forall.
  intros H x Hx. by apply H, list_elem_of_In.
Qed.


End SearchClaims.

(** ** The deletion parser *)

Section Parser.
Import UsbManager Library.

Lemma headers_disjoint line :
  inventory_header line = true → deletion_header line = false.
Proof.
  unfold inventory_header, deletion_header.
  destruct (Py.lower (Py.strip line)) as [|a r]; [done|].
  change (Py.startswith "inventory" (String a r))
    with (Ascii.eqb "i" a && Py.startswith "nventory" r).
  change (Py.startswith "deletion" (String a r))
    with (Ascii.eqb "d" a && Py.startswith "eletion" r).
  destruct (Ascii.eqb_spec "i" a) as [<-|]; [done|]. done.
Qed.

Lemma cursor_snoc above line :
  cursor (above ++ [line]) =
    if inventory_header line then Some Inventory
    else if deletion_header line then Some Deletion
    else cursor above.
Proof.
  unfold cursor. rewrite rev_app_distr. cbn. unfold header.
  destruct (inventory_header line) eqn:Hi; cbn; [by rewrite Hi|].
  destruct (deletion_header line) eqn:Hd; cbn; [by rewrite Hi | done].
Qed.

Lemma cursor_deletion above :
  in_deletion_section above =
    match cursor above with Some Deletion => true | _ => false end.
Proof.
  unfold in_deletion_section, cursor.
  destruct (List.find header (rev above)) as [h|] eqn:Hf; [|done].
  apply find_some in Hf as [_ Hh]. unfold header in Hh.
  destruct (inventory_header h) eqn:Hi.
  - by rewrite headers_disjoint.
  - cbn in Hh. by rewrite Hh.
Qed.

Lemma parse_line_step above acc line :
  parse_line (cursor above, acc) line =
    (cursor (above ++ [line]),
     acc ++ (if in_deletion_section above && request line
             then [Py.strip line] else [])).
Proof.
  rewrite cursor_snoc, cursor_deletion. unfold parse_line, request, header.
  fold (inventory_header line). fold (deletion_header line).
  destruct (inventory_header line); [by rewrite andb_false_r, app_nil_r|].
  destruct (deletion_header line); [by rewrite andb_false_r, app_nil_r|].
  cbn [orb negb andb].
  destruct (Py.truthy (Py.strip line)); cbn [negb andb];
    [|by rewrite andb_false_r, app_nil_r].
  destruct (cursor above) as [[]|]; cbn; [by rewrite app_nil_r | | by rewrite app_nil_r].
  destruct (negb (Py.startswith "." (Py.strip line)) &&
            negb (Py.startswith "#" (Py.strip line))); [done | by rewrite app_nil_r].
Qed.

Lemma parse_lines_from rest : ∀ above acc,
  foldl parse_line (cursor above, acc) rest =
    (cursor (above ++ rest), acc ++ requests_from above rest).
Proof.
  induction rest as [|line rest IH]; intros above acc; cbn [foldl requests_from].
  - by rewrite !app_nil_r.
  - rewrite parse_line_step, IH, <- !app_assoc. done.
Qed.

Lemma parse_lines_requests lines : parse_lines lines = requests_from [] lines.
Proof.
  unfold parse_lines. change (None, []) with (cursor [], @nil string).
  by rewrite parse_lines_from.
Qed.

Lemma stat_library f :
  Path.stat f library = (λ nd, (library, nd)) <$> f !! library.
Proof. done. Qed.

Lemma parse_absent E st :
  fs st !! library = None →
  parse_deletion_from_library library E st = (st, Ok []).
Proof.
  intros Hn. unfold parse_deletion_from_library, Os.exists_, bind, get_fs, ret.
  by rewrite stat_library, Hn.
Qed.

Lemma parse_readable E st c :
  fs st !! library = Some (File c) →
  denied E Read library = false →
  parse_deletion_from_library library E st = (st, Ok (deletion_requests c)).
Proof.
  intros Hc Hr.
  unfold parse_deletion_from_library, Os.exists_, Os.read_lines, Os.open_read,
    try_except, bind, get_fs, refused, ret.
  rewrite stat_library, Hc. cbn. rewrite Hc, Hr. cbn.
  by rewrite parse_lines_requests.
Qed.

(** C4.  [parse_deletion_from_library] returns, for a readable library.txt,
    the requests of its deletion section: the lines below a deletion header
    and above the next header that are not blank and start with neither [.]
    nor [#], trimmed, in file order and with duplicates; it leaves the state
    as it was.  When the file is absent it returns the empty list.  For the
    file with a.mp3, #skip.mp3, a blank line and b.mp3 under [Deletion:] the
    result is [a.mp3; b.mp3]. *)
Theorem deletion_parser E st :
  (fs st !! library = None →
     parse_deletion_from_library library E st = (st, Ok [])) ∧
  (∀ c, fs st !! library = Some (File c) → denied E Read library = false →
     parse_deletion_from_library library E st = (st, Ok (deletion_requests c))) ∧
  (fs st !! library = Some (File Demo.library_example) →
   denied E Read library = false →
     parse_deletion_from_library library E st = (st, Ok ["a.mp3"; "b.mp3"])).
Proof.
  split_and!.
  - apply parse_absent.
  - intros c. apply parse_readable.
  - intros Hc Hr. by rewrite (parse_readable E st _ Hc Hr).
Qed.

Lemma deletion_parser_witness :
  parse_deletion_from_library library Demo.quiet Demo.plain_volume =
    (Demo.plain_volume, Ok ["a.mp3"; "b.mp3"]) ∧
  parse_deletion_from_library library Demo.quiet Demo.triggered_volume =
    (Demo.triggered_volume, Ok []).
Proof.
  split.
  - apply (deletion_parser Demo.quiet Demo.plain_volume); vm_compute; reflexivity.
  - apply (deletion_parser Demo.quiet Demo.triggered_volume). vm_compute. reflexivity.
Defined.

End Parser.

(** ** Directory listings *)

Section Listings.

Lemma resolve_go_plain f todo : ∀ cur,
  Forall (λ c, c ≠ "..") todo →
  Path.resolve_go f cur todo = Some (cur ++ todo).
Proof.
  induction todo as [|c rest IH]; intros cur Hp; cbn [Path.resolve_go].
  - by rewrite app_nil_r.
  - apply Forall_cons in Hp as [Hc Hrest].
    destruct (String.eqb_spec c ".."); [done|].
    rewrite IH by done. by rewrite <- app_assoc.
Qed.

Lemma stat_plain f p :
  Forall (λ c, c ≠ "..") p → p ≠ [] →
  Path.stat f p = (λ nd, (p, nd)) <$> f !! p.
Proof.
  intros Hp Hne. unfold Path.stat, Path.resolve.
  rewrite resolve_go_plain by done. cbn [app]. by destruct p.
Qed.

Lemma valid_name_plain n : Path.valid_name n = true → n ≠ "..".
Proof. intros Hv ->. vm_compute in Hv. discriminate. Qed.

Lemma child_of_Some p k n :
  Path.child_of p k = Some n ↔ k = p ++ [n] ∧ Path.valid_name n = true.
Proof.
  unfold Path.child_of, Path.parent, Path.name. split.
  - destruct k as [|c k]; [done|]. case_decide as Hd; [|done].
    intros Heq. assert (n = List.last (c :: k) "") as -> by congruence.
    destruct Hd as [<- Hv]. split; [|done].
    by apply (app_removelast_last (l := c :: k) "").
  - intros [-> Hv]. rewrite removelast_last, last_last.
    destruct (p ++ [n]) eqn:Hk; [by destruct p|].
    rewrite decide_True; done.
Qed.

Lemma elem_of_children f p n :
  n ∈ Path.children f p ↔
    is_Some (f !! (p ++ [n])) ∧ Path.valid_name n = true.
Proof.
  unfold Path.children. rewrite list_elem_of_omap. split.
  - intros ([k nd] & Hin & Hch). cbn in Hch.
    apply child_of_Some in Hch as [-> Hv].
    apply elem_of_map_to_list in Hin. eauto.
  - intros [[nd Hnd] Hv]. exists (p ++ [n], nd). split.
    + by apply elem_of_map_to_list.
    + cbn. by apply child_of_Some.
Qed.



End Listings.

(** ** The inventory rewrite *)

Section Inventory.
Import UsbManager Library Store.

Lemma audio_dir_plain : Forall (λ c, c ≠ "..") AUDIO_DIR.
Proof. unfold AUDIO_DIR. repeat constructor; discriminate. Qed.

Lemma child_plain q n :
  Forall (λ c, c ≠ "..") q → Path.valid_name n = true →
  Forall (λ c, c ≠ "..") (q ++ [n]).
Proof.
  intros Hq Hv. apply Forall_app. split; [done|].
  constructor; [by apply valid_name_plain | constructor].
Qed.

Lemma is_file_child q n E st :
  Forall (λ c, c ≠ "..") q → Path.valid_name n = true →
  Os.is_file (q ++ [n]) E st = (st, Ok (file_at (fs st) (q ++ [n]))).
Proof.
  intros Hq Hv. unfold Os.is_file, bind, get_fs, ret, file_at.
  rewrite stat_plain; [| by apply child_plain | by destruct q].
  by destruct (fs st !! (q ++ [n])) as [[c|]|].
Qed.

Lemma visible_files_eq q names E st :
  Forall (λ c, c ≠ "..") q →
  Forall (λ n, Path.valid_name n = true) names →
  visible_files ((λ n, q ++ [n]) <$> names) E st =
    (st, Ok (List.filter (λ n, file_at (fs st) (q ++ [n]) && negb (hidden n)) names)).
Proof.
  intros Hq. induction 1 as [|n names Hn Hnames IH]; [done|].
  cbn [fmap list_fmap visible_files List.filter].
  erewrite bind_ok by (by apply is_file_child).
  erewrite bind_ok by exact IH.
  unfold Path.name. rewrite last_last. unfold ret.
  by destruct (file_at _ _ && _).
Qed.

Lemma children_valid f p : Forall (λ n, Path.valid_name n = true) (Path.children f p).
Proof. apply Forall_forall. intros n Hn. by apply elem_of_children in Hn as [_ ?]. Qed.

Lemma collect_entries E st :
  (∀ c, fs st !! AUDIO_DIR ≠ Some (File c)) →
  denied E Listing AUDIO_DIR = false →
  (a <- Os.exists_ AUDIO_DIR ;;
   if negb a then ret []
   else l <- Os.iterdir AUDIO_DIR ;;
        names <- visible_files l ;;
        ret (sorted names)) E st = (st, Ok (entries (fs st))).
Proof.
  intros Hnf Hl. unfold entries, Os.exists_, Os.iterdir.
  unfold bind at 1 2. unfold get_fs at 1. unfold ret at 1.
  rewrite (stat_plain _ AUDIO_DIR) by (apply audio_dir_plain || done).
  destruct (fs st !! AUDIO_DIR) as [[c|]|] eqn:Ha; cbn [fmap option_fmap option_map negb].
  - by destruct (Hnf c).
  - erewrite bind_ok; cycle 1.
    { unfold bind, get_fs, refused, ret.
      rewrite (stat_plain _ AUDIO_DIR) by (apply audio_dir_plain || done).
      rewrite Ha. cbn. rewrite Hl. done. }
    erewrite bind_ok by (apply visible_files_eq; [apply audio_dir_plain | apply children_valid]).
    done.
  - done.
Qed.



Lemma store_not_log p : AUDIO_DIR `prefix_of` p → p ∉ log_paths.
Proof.
  intros [k ->]. unfold log_paths, AUDIO_DIR. rewrite !elem_of_cons, elem_of_nil. cbn.
  intros [H|[H|[H|[]]]]; discriminate.
Qed.




End Inventory.

Section InventoryClaims.
Import UsbManager Library Store.






End InventoryClaims.

(** ** The watcher loop *)

Section Watcher.
Import WatchUsb Tree Poll.

Lemma run_exited argv code E st :
  proc E (trace st) argv = Exited code →
  Os.run argv E st = (State (fs st) (trace st ++ [EvRun argv]), Ok code).
Proof. intros H. unfold Os.run. by rewrite H. Qed.

Lemma run_check_ok argv E st :
  proc E (trace st) argv = Exited 0 →
  Os.run_check argv E st = (State (fs st) (trace st ++ [EvRun argv]), Ok tt).
Proof. intros H. unfold Os.run_check. by erewrite bind_ok by (by apply run_exited). Qed.

Lemma run_check_raises argv E st :
  proc E (trace st) argv ≠ Exited 0 →
  ∃ e, Os.run_check argv E st = (State (fs st) (trace st ++ [EvRun argv]), Raise e).
Proof.
  intros H. unfold Os.run_check, bind, Os.run.
  destruct (proc E (trace st) argv) as [e|[|n]]; [eauto | done | eauto].
Qed.

Lemma mkdir_mountpoint E st :
  mountpoint_present (fs st) → Os.mkdir_parents MOUNTPOINT E st = (st, Ok tt).
Proof.
  intros [Hm Hu]. unfold Os.mkdir_parents, MOUNTPOINT in *. cbn.
  unfold bind, get_fs. cbn. rewrite Hm. cbn. by rewrite Hu.
Qed.

Lemma present_append line f :
  mountpoint_present f → mountpoint_present (Log.append line f).
Proof.
  intros [Hm Hu]. unfold mountpoint_present, Log.append.
  by rewrite !lookup_insert_ne by discriminate.
Qed.

Lemma handle_ok d E st :
  handling_succeeds E d → Log.ready E (fs st) → mountpoint_present (fs st) →
  handle d E st =
    (State (Log.append (Log.watcher_line E ("Unmounted " +:+ d))
              (Log.append (Log.watcher_line E "usb_manager.py completed")
                 (Log.append (Log.watcher_line E
                                ("Mounted " +:+ d +:+ " at " +:+ Path.str MOUNTPOINT))
                    (fs st))))
           (trace st ++ handling d), Ok (Some d)).
Proof.
  intros (Hmount & Himp & Hsync & Humount) Hr Hm. unfold handle.
  erewrite bind_ok by (by apply mkdir_mountpoint).
  erewrite bind_ok by (by apply run_check_ok).
  erewrite bind_ok by (by apply watcher_log_ok). cbn [fs trace].
  erewrite bind_ok by (by apply run_check_ok). cbn [fs trace].
  erewrite bind_ok by (apply watcher_log_ok; cbn [fs]; by apply ready_append).
  cbn [fs trace].
  destruct (Hsync ((trace st ++ [EvRun (mount_argv d)]) ++ [EvRun importer_argv]))
    as [code Hcode].
  erewrite bind_ok by (by apply run_exited). cbn [fs trace].
  erewrite bind_ok by (by apply run_check_ok). cbn [fs trace].
  erewrite bind_ok by (apply watcher_log_ok; cbn [fs]; by do 2 apply ready_append).
  cbn [fs trace]. unfold ret, handling. by rewrite <- !app_assoc.
Qed.

Lemma cycle_attempts blocks d last E st :
  walk blocks = Some d → Py.truthy d = true → Some d ≠ last →
  cycle (inr blocks) last E st = attempt d last E (polled st).
Proof.
  intros Hw Ht Hne. unfold cycle. rewrite (bind_ok _ _ _ _ _ _ (find_listed blocks E st)).
  rewrite Hw. cbn [truthy default]. rewrite Ht, bool_decide_eq_false_2 by done.
  cbn [andb negb]. unfold attempt.
  unfold bind at 1. by destruct ((_ ;; _) E (polled st)) as [st' [a|e]].
Qed.

Lemma cycle_handles blocks d last E st :
  walk blocks = Some d → Py.truthy d = true → Some d ≠ last →
  handling_succeeds E d → Log.ready E (fs st) → mountpoint_present (fs st) →
  cycle (inr blocks) last E st = (handled E d st, Ok (Some d)).
Proof.
  intros Hw Ht Hne Hall Hr Hm. rewrite (cycle_attempts blocks d) by done.
  unfold attempt. erewrite bind_ok by (by apply watcher_log_ok).
  erewrite try_ok; [done|].
  rewrite handle_ok; [done | done | by apply ready_append | by apply present_append].
Qed.

Lemma cycle_same blocks d E st :
  walk blocks = Some d → Py.truthy d = true →
  cycle (inr blocks) (Some d) E st = (polled st, Ok (Some d)).
Proof.
  intros Hw Ht. unfold cycle. rewrite (bind_ok _ _ _ _ _ _ (find_listed blocks E st)).
  rewrite Hw. cbn [truthy default]. rewrite Ht, bool_decide_eq_true_2 by done.
  done.
Qed.


End Watcher.

Section WatcherOnce.
Import WatchUsb Tree Poll.

Lemma find_of_filter {A} (f : A → bool) (l : list A) :
  List.find f l = head (List.filter f l).
Proof. induction l as [|x l IH]; [done|]. cbn. by destruct (f x). Qed.

Lemma shows_walk d enum :
  shows d enum →
  ∃ blocks, enum = inr blocks ∧ walk blocks = Some d ∧ Py.truthy d = true.
Proof.
  intros (blocks & b & -> & Hp & Hf & Hb). exists blocks. split; [done|].
  assert (Hfind : List.find wanted (preorder blocks) = Some b).
  { by rewrite find_of_filter, Hf. }
  split.
  - rewrite walk_first by done. unfold path_of_first. by rewrite Hfind.
  - apply find_some in Hfind as [Hin _].
    unfold has_paths in Hp. rewrite Forall_forall in Hp.
    specialize (Hp b (proj2 (list_elem_of_In _ _) Hin)).
    by rewrite Hb in Hp.
Qed.


Lemma actions_app tr1 tr2 : actions (tr1 ++ tr2) = actions tr1 ++ actions tr2.
Proof. unfold actions. induction tr1 as [|ev tr1 IH]; [done|]. cbn. rewrite IH. by destruct (negb _). Qed.

Lemma actions_poll : actions [EvRun lsblk_argv] = [].
Proof. done. Qed.

Lemma actions_handling d : actions (handling d) = handling d.
Proof. done. Qed.


Lemma actions_handled E d st :
  actions (trace (handled E d st)) = actions (trace st) ++ handling d.
Proof.
  unfold handled. cbn [trace].
  by rewrite !actions_app, actions_poll, actions_handling, app_nil_r.
Qed.








End WatcherOnce.

Section WatcherSurvives.
Import WatchUsb Tree Poll.

Lemma ready_changes_only E T al st st' :
  changes_only T al st st' → (∀ p, p ∈ log_paths → p ∉ T) →
  Log.ready E (fs st) → Log.ready E (fs st').
Proof.
  intros [Hf _] Hdis (Hw & Hh & Hu & Hl). unfold Log.ready.
  rewrite !Hf; [done | | |]; apply Hdis; unfold log_paths; set_solver.
Qed.

Lemma keeps_log msg E R :
  triple E (logging E) (WatchUsb.log msg) (λ _, logging E) R.
Proof.
  intros st Hr. rewrite watcher_log_ok by done. by apply ready_append.
Qed.

Lemma keeps_run argv E :
  triple E (logging E) (Os.run argv) (λ _, logging E) (λ _, logging E).
Proof. intros st Hr. unfold Os.run. by destruct (proc E (trace st) argv). Qed.

Lemma keeps_run_check argv E :
  triple E (logging E) (Os.run_check argv) (λ _, logging E) (λ _, logging E).
Proof.
  intros st Hr. unfold Os.run_check, bind, Os.run.
  by destruct (proc E (trace st) argv) as [e|[|n]].
Qed.

Lemma keeps_mkdir_mountpoint E :
  triple E (logging E) (Os.mkdir_parents MOUNTPOINT) (λ _, logging E) (λ _, logging E).
Proof.
  intros st Hr.
  assert (Hch : changes_only [["media"]; MOUNTPOINT] (λ _, false) st
                  (Os.mkdir_parents MOUNTPOINT E st).1).
  { apply frames_mkdir_go. intros k Hk. unfold MOUNTPOINT in *. cbn in Hk.
    destruct k as [|[|[|k]]]; try lia; cbn; set_solver. }
  assert (Hr' : Log.ready E (fs (Os.mkdir_parents MOUNTPOINT E st).1)).
  { eapply ready_changes_only; [exact Hch | | exact Hr].
    intros p Hp HT. unfold log_paths, MOUNTPOINT, UsbManager.LOG_FILE in *.
    rewrite !elem_of_cons, elem_of_nil in Hp.
    rewrite !elem_of_cons, elem_of_nil in HT.
    destruct Hp as [Hp|[Hp|[Hp|[]]]]; subst p;
      destruct HT as [H|[H|[]]]; discriminate. }
  clear Hch. revert Hr'.
  by destruct (Os.mkdir_parents MOUNTPOINT E st) as [st' [a|e]].
Qed.

Lemma keeps_handle d E :
  triple E (logging E) (handle d) (λ _, logging E) (λ _, logging E).
Proof.
  unfold handle.
  eapply triple_bind; [apply keeps_mkdir_mountpoint | intros ?].
  eapply triple_bind; [apply keeps_run_check | intros ?].
  eapply triple_bind; [apply keeps_log | intros ?].
  eapply triple_bind; [apply keeps_run_check | intros ?].
  eapply triple_bind; [apply keeps_log | intros ?].
  eapply triple_bind; [apply keeps_run | intros ?].
  eapply triple_bind; [apply keeps_run_check | intros ?].
  eapply triple_bind; [apply keeps_log | intros ?].
  by apply triple_ret.
Qed.

Lemma keeps_find enum E :
  triple E (logging E) (find_usb_partition enum) (λ _, logging E) (λ _ _, False).
Proof.
  intros st Hr. destruct enum as [e|blocks].
  - rewrite find_failed by done. by apply ready_append.
  - by rewrite find_listed.
Qed.

(** With a log that accepts lines, a turn of the loop never raises. *)
Lemma cycle_returns enum last E :
  triple E (logging E) (cycle enum last) (λ _, logging E) (λ _ _, False).
Proof.
  unfold cycle.
  eapply triple_bind; [apply keeps_find | intros dev].
  eapply triple_bind with (Q' := λ _, logging E).
  - destruct (truthy dev && _); [|by apply triple_ret].
    eapply triple_bind; [apply keeps_log | intros ?].
    eapply triple_try; [apply keeps_handle | intros e].
    eapply triple_bind; [apply keeps_log | intros ?]. by apply triple_ret.
  - intros last'. destruct (negb (truthy dev)); [|by apply triple_ret].
    eapply triple_bind with (Q' := λ _, logging E); [|intros ?; by apply triple_ret].
    destruct (truthy last'); [apply keeps_log | by apply triple_ret].
Qed.

Lemma attempt_failure d last E st st1 e :
  Log.ready E (fs st) →
  handle d E (detected E d st) = (st1, Raise e) →
  attempt d last E (polled st) =
    (State (Log.append (Log.watcher_line E ("Error handling " +:+ d +:+ ": "
                                            +:+ Os.exn_str e)) (fs st1))
           (trace st1), Ok last).
Proof.
  intros Hr Hh. unfold attempt.
  erewrite bind_ok by (by apply watcher_log_ok).
  erewrite try_raise; cycle 1; [exact Hh|].
  assert (Hr1 : Log.ready E (fs st1)).
  { pose proof (keeps_handle d E (detected E d st)) as Hk.
    rewrite Hh in Hk. apply Hk. unfold logging, detected. cbn [fs].
    by apply ready_append. }
  by erewrite bind_ok by (by apply watcher_log_ok).
Qed.

Lemma handle_umount_fails d E st :
  only_umount_fails E d → Log.ready E (fs st) → mountpoint_present (fs st) →
  ∃ st1 e, handle d E st = (st1, Raise e) ∧ trace st1 = trace st ++ handling d.
Proof.
  intros (Hmount & Himp & Hsync & Humount) Hr Hm. unfold handle.
  erewrite bind_ok by (by apply mkdir_mountpoint).
  erewrite bind_ok by (by apply run_check_ok).
  erewrite bind_ok by (by apply watcher_log_ok). cbn [fs trace].
  erewrite bind_ok by (by apply run_check_ok). cbn [fs trace].
  erewrite bind_ok by (apply watcher_log_ok; cbn [fs]; by apply ready_append).
  cbn [fs trace].
  destruct (Hsync ((trace st ++ [EvRun (mount_argv d)]) ++ [EvRun importer_argv]))
    as [code Hcode].
  erewrite bind_ok by (by apply run_exited). cbn [fs trace].
  match goal with
  | |- context [Os.run_check umount_argv] =>
    destruct (run_check_raises umount_argv E
                (State (Log.append (Log.watcher_line E "usb_manager.py completed")
                          (Log.append (Log.watcher_line E
                             ("Mounted " +:+ d +:+ " at " +:+ Path.str MOUNTPOINT))
                             (fs st)))
                       (((trace st ++ [EvRun (mount_argv d)]) ++ [EvRun importer_argv])
                          ++ [EvRun ["sync"]])) (Humount _)) as [e He]
  end.
  erewrite bind_raise by exact He.
  eexists _, e. split; [done|]. cbn [trace]. unfold handling. by rewrite <- !app_assoc.
Qed.

End WatcherSurvives.

Section WatcherClaims.
Import WatchUsb Tree Poll.

(** C6, as the code has it.  With a log that accepts lines, a turn of the
    loop returns normally whatever fails in it, and the log still accepts
    lines for the next turn.  When the handling of a new device [d] raises,
    at any of its steps, the error is logged and the recorded path is left
    as it was, so it is not [d]; this is so in particular when only [umount] fails, after mount,
    import and flush have run.  Since the record is not [d], a later turn
    that finds [d] attempts the handling again. *)
Theorem failed_handling_is_not_recorded E st enum last :
  Log.ready E (fs st) →
  (∃ st' last', cycle enum last E st = (st', Ok last') ∧ Log.ready E (fs st')) ∧
  (∀ blocks d,
     enum = inr blocks → walk blocks = Some d → Py.truthy d = true →
     Some d ≠ last →
     (∀ st1 e, handle d E (detected E d st) = (st1, Raise e) →
        cycle enum last E st =
          (State (Log.append (Log.watcher_line E ("Error handling " +:+ d +:+ ": "
                                                  +:+ Os.exn_str e)) (fs st1))
                 (trace st1), Ok last)) ∧
     (only_umount_fails E d → mountpoint_present (fs st) →
        ∃ st', cycle enum last E st = (st', Ok last) ∧
               trace st' = (trace st ++ [EvRun lsblk_argv]) ++ handling d) ∧
     (∀ st2, cycle enum last E st2 = attempt d last E (polled st2))).
Proof.
  intros Hr. split.
  - pose proof (cycle_returns enum last E st Hr) as Hc.
    destruct (cycle enum last E st) as [st' [last'|e]]; [eauto | done].
  - intros blocks d -> Hw Ht Hne.
    assert (Hfail : ∀ st1 e, handle d E (detected E d st) = (st1, Raise e) →
              cycle (inr blocks) last E st =
                (State (Log.append (Log.watcher_line E ("Error handling " +:+ d +:+ ": "
                                                        +:+ Os.exn_str e)) (fs st1))
                       (trace st1), Ok last)).
    { intros st1 e Hh. rewrite (cycle_attempts blocks d) by done.
      by rewrite (attempt_failure d last E st st1 e Hr Hh). }
    split_and!.
    + exact Hfail.
    + intros Hum Hm.
      destruct (handle_umount_fails d E (detected E d st) Hum) as (st1 & e & Hh & Htr).
      { unfold detected. cbn [fs]. by apply ready_append. }
      { unfold detected. cbn [fs]. by apply present_append. }
      eexists. split; [by apply Hfail|]. cbn [trace]. by rewrite Htr.
    + intros st2. by apply cycle_attempts.
Qed.

Lemma failed_handling_is_not_recorded_witness :
  ∃ st' last',
    cycle (inr stick) None umount_fails Demo.plain_volume = (st', Ok last') ∧
    Log.ready umount_fails (fs st').
Proof.
  apply (failed_handling_is_not_recorded umount_fails Demo.plain_volume (inr stick) None).
  apply readyb_ready. vm_compute. reflexivity.
Defined.

(** C6 as stated fails where it says that the device stays flagged as
    handled when [umount] fails: the turn ends with nothing recorded. *)
Lemma failed_umount_is_not_recorded :
  walk stick = Some "/dev/sda1" ∧
  (cycle (inr stick) None umount_fails Demo.plain_volume).2 = Ok None ∧
  trace (cycle (inr stick) None umount_fails Demo.plain_volume).1 =
    EvRun lsblk_argv :: handling "/dev/sda1" ∧
  (cycle (inr stick) None umount_fails Demo.plain_volume).2 ≠ Ok (Some "/dev/sda1").
Proof. by vm_compute. Qed.

Lemma shows_stick : shows "/dev/sda1" (inr stick).
Proof.
  exists stick, (Block (Some "sda1") (Some "/dev/sda1") true None []).
  split_and!; [done | | done | done].
  apply has_pathsb_has_paths. vm_compute. reflexivity.
Defined.



End WatcherClaims.

(** ** A run of the import job *)

Section Steady.
Import UsbManager Job.

Lemma same_dirs_refl f : same_dirs f f.
Proof. by intros p. Qed.

Lemma same_dirs_insert_file f0 f p c :
  same_dirs f0 f → f !! p ≠ Some Dir → same_dirs f0 (<[p := File c]> f).
Proof.
  intros Hs Hp q. destruct (decide (p = q)) as [->|Hne].
  - rewrite lookup_insert_eq. split; [done|]. intros Hq. by apply Hs in Hq.
  - rewrite lookup_insert_ne by done. apply Hs.
Qed.


Lemma steady_append E f0 st line :
  steady E f0 st → steady E f0 (State (Log.append line (fs st)) (trace st)).
Proof.
  intros [Hr Hs]. split; cbn [fs]; [by apply ready_append|].
  apply same_dirs_insert_file; [done | apply Hr].
Qed.

Lemma steady_insert_file E f0 st p c tr :
  steady E f0 st → fs st !! p ≠ Some Dir →
  steady E f0 (State (<[p := File c]> (fs st)) tr).
Proof.
  intros [Hr Hs] Hp. split; cbn [fs];
    [by apply ready_insert_file | by apply same_dirs_insert_file].
Qed.


Lemma steady_same_fs E f0 st st' :
  steady E f0 st → fs st' = fs st → steady E f0 st'.
Proof. intros [Hr Hs] Heq. split; by rewrite Heq. Qed.

End Steady.

Section SteadySteps.
Import UsbManager Job.
Context (E : environment) (f0 : gmap path node).

(** A step that returns and leaves the files alone. *)
Lemma quiet_step {A} (m : M A) R :
  (∀ st, ∃ a st', m E st = (st', Ok a) ∧ fs st' = fs st) →
  triple E (steady E f0) m (λ _, (steady E f0)) R.
Proof.
  intros Hm st Hst. destruct (Hm st) as (a & st' & -> & Hfs).
  by eapply steady_same_fs.
Qed.

(** A step that may raise and leaves the files alone. *)
Lemma still_step {A} (m : M A) :
  (∀ st, fs (m E st).1 = fs st) →
  triple E (steady E f0) m (λ _, (steady E f0)) (λ _, (steady E f0)).
Proof.
  intros Hm st Hst. specialize (Hm st).
  destruct (m E st) as [st' [a|e]]; by eapply steady_same_fs.
Qed.

Lemma steady_exists p R : triple E (steady E f0) (Os.exists_ p) (λ _, (steady E f0)) R.
Proof. apply quiet_step. intros st. by eexists _, st. Qed.


Lemma steady_ret {A} (a : A) R : triple E (steady E f0) (ret a) (λ _, (steady E f0)) R.
Proof. by apply triple_ret. Qed.

Lemma steady_raise {A} e : triple E (steady E f0) (raise (A:=A) e) (λ _, (steady E f0)) (λ _, (steady E f0)).
Proof. by intros st Hst. Qed.

Lemma steady_open_read p : triple E (steady E f0) (Os.open_read p) (λ _, (steady E f0)) (λ _, (steady E f0)).
Proof.
  apply still_step. intros st. unfold Os.open_read, bind, get_fs, refused, raise, ret.
  destruct (fs st !! p) as [[c|]|]; [|done|done]. by destruct (denied E Read p).
Qed.


Lemma steady_read_lines p : triple E (steady E f0) (Os.read_lines p) (λ _, (steady E f0)) (λ _, (steady E f0)).
Proof.
  eapply triple_bind; [apply steady_open_read | intros c; apply steady_ret].
Qed.






Lemma steady_log msg R : triple E (steady E f0) (log msg) (λ _, (steady E f0)) R.
Proof.
  intros st Hst. rewrite log_ok by apply Hst. by apply steady_append.
Qed.







Lemma steady_parse p R : triple E (steady E f0) (parse_deletion_from_library p) (λ _, (steady E f0)) R.
Proof.
  unfold parse_deletion_from_library.
  eapply triple_bind; [apply steady_exists | intros b].
  destruct (negb b); [apply steady_ret|].
  eapply triple_try.
  - eapply triple_bind; [apply steady_read_lines | intros t; apply steady_ret].
  - intros e. eapply triple_bind; [apply steady_log | intros ?; apply steady_ret].
Qed.


End SteadySteps.

(** ** Names and joined paths *)

Section Names.

Lemma str_app_cons a s t : String a s +:+ t = String a (s +:+ t).
Proof. reflexivity. Qed.

Lemma str_app_nil_r s : s +:+ "" = s.
Proof. induction s as [|a s IH]; [done|]. by rewrite str_app_cons, IH. Qed.

Lemma str_app_assoc s t u : (s +:+ t) +:+ u = s +:+ t +:+ u.
Proof. induction s as [|a s IH]; [done|]. by rewrite !str_app_cons, IH. Qed.

Lemma split_go_nonempty s : ∀ cur, Path.split_go cur s ≠ [].
Proof.
  induction s as [|a s IH]; intros cur; cbn [Path.split_go]; [done|].
  destruct (Ascii.eqb a "/"); [done | apply IH].
Qed.

Lemma split_go_single s : ∀ cur c,
  Path.split_go cur s = [c] → c = cur +:+ s ∧ Py.startswith "/" s = false.
Proof.
  induction s as [|a s IH]; intros cur c; cbn [Path.split_go].
  - intros [= <-]. by rewrite str_app_nil_r.
  - destruct (Ascii.eqb a "/") eqn:Ha.
    + intros [= _ Hs]. by apply split_go_nonempty in Hs.
    + intros Hs. apply IH in Hs as [-> _]. split.
      * unfold Py.snoc. by rewrite str_app_assoc.
      * unfold Py.startswith. by rewrite Ascii.eqb_sym, Ha.
Qed.

Lemma join_valid d n : Path.valid_name n = true → Path.join d n = d ++ [n].
Proof.
  unfold Path.valid_name, Path.join, Path.components.
  destruct (Path.split_go "" n) as [|c [|c' l]] eqn:Hs; [done| |done].
  apply split_go_single in Hs as [-> Hsl]. rewrite Hsl.
  change ("" +:+ n) with n. intros Hv. cbn [List.filter].
  rewrite !negb_true_iff, !orb_false_iff in Hv. destruct Hv as [[H1 H2] _].
  by rewrite H1, H2.
Qed.

End Names.

Section Additions.
Import UsbManager Job.
Context (E : environment) (f0 : gmap path node).

Lemma add_dir_plain : Forall (λ c, c ≠ "..") add_dir.
Proof. unfold add_dir. cbn. repeat constructor; discriminate. Qed.


Lemma is_dir_at_lookup f p :
  p ≠ [] → Path.is_dir_at f p = match f !! p with Some Dir => true | _ => false end.
Proof. by destruct p. Qed.

Lemma mkdir_store st :
  Log.ready E (fs st) → fs st !! AUDIO_DIR = Some Dir →
  Os.mkdir_parents AUDIO_DIR E st = (st, Ok tt).
Proof.
  intros (_ & Hh & Hu & _) Ha. unfold Os.mkdir_parents, AUDIO_DIR in *. cbn.
  unfold bind, get_fs. cbn. rewrite Hh. cbn. rewrite Hu. cbn. by rewrite Ha.
Qed.

Lemma volume_kept_append st line :
  volume_kept f0 st → volume_kept f0 (State (Log.append line (fs st)) (trace st)).
Proof.
  intros [Ha Hl]. unfold Log.append. split; cbn [fs].
  - intros p Hp. rewrite lookup_insert_ne; [by apply Ha|].
    destruct Hp as [k ->]. discriminate.
  - rewrite lookup_insert_ne; [done | discriminate].
Qed.

Lemma volume_kept_store st n c tr :
  volume_kept f0 st →
  volume_kept f0 (State (<[AUDIO_DIR ++ [n] := File c]> (fs st)) tr).
Proof.
  intros [Ha Hl]. split; cbn [fs].
  - intros p Hp. rewrite lookup_insert_ne; [by apply Ha|].
    destruct Hp as [k ->]. discriminate.
  - rewrite lookup_insert_ne; [done | discriminate].
Qed.




End Additions.

Section Deletions.
Import UsbManager Job Library.
Context (E : environment) (f0 : gmap path node).







End Deletions.

Section ImportJob.
Import UsbManager Job Library.


Lemma no_subdirs_flat f :
  no_subdirs f = true → ∀ n, f !! (AUDIO_DIR ++ [n]) ≠ Some Dir.
Proof.
  unfold no_subdirs. rewrite bool_decide_eq_true. intros Hall n Hn.
  destruct (Hall _ _ Hn eq_refl) as [Hp|Hp].
  - apply Hp. unfold Path.parent. by rewrite removelast_last.
  - by destruct AUDIO_DIR.
Qed.


Lemma stat_mount f :
  Path.stat f USB_MOUNT = (λ nd, (USB_MOUNT, nd)) <$> f !! USB_MOUNT.
Proof. done. Qed.

Lemma guarded_failures_logged E : failures_logged E.
Proof.
  intros st Hr. split_and!.
  - intros e Habs Hw. unfold ensure_reboot_file, Os.exists_.
    unfold bind at 1 2. unfold get_fs at 1, ret at 1.
    rewrite stat_reboot_file, Habs. cbn [fmap option_fmap option_map negb].
    erewrite try_raise; cycle 1.
    { by erewrite bind_raise by exact Hw. }
    by rewrite log_ok.
  - intros e Hex Hrd. unfold check_reboot_trigger, Os.exists_.
    unfold bind at 1 2. unfold get_fs at 1, ret at 1. rewrite stat_reboot_file.
    destruct (fs st !! Reboot.reboot_file) as [nd|]; [|done].
    cbn [fmap option_fmap option_map negb].
    erewrite bind_ok; cycle 1.
    { erewrite try_raise; cycle 1.
      { by erewrite bind_raise by exact Hrd. }
      by erewrite bind_ok by (by apply log_ok). }
    done.
  - intros e Hw. unfold restore_reboot_file.
    erewrite try_raise; cycle 1.
    { by erewrite bind_raise by exact Hw. }
    by rewrite log_ok.
  - intros e Hex Hrd. unfold parse_deletion_from_library, Os.exists_.
    unfold bind at 1 2. unfold get_fs at 1, ret at 1. rewrite stat_library.
    destruct (fs st !! library) as [nd|]; [|done].
    cbn [fmap option_fmap option_map negb].
    erewrite try_raise; cycle 1.
    { by erewrite bind_raise by exact Hrd. }
    by erewrite bind_ok by (by apply log_ok).
  - intros Habs. unfold write_library_to_usb.
    erewrite try_ok; [done|]. unfold Os.exists_.
    unfold bind at 1 2. unfold get_fs at 1, ret at 1.
    rewrite stat_mount, Habs. cbn [fmap option_fmap option_map negb].
    by rewrite log_ok.
  - intros e Hm Hnf Hl Hw. unfold write_library_to_usb.
    erewrite try_raise; cycle 1.
    { unfold Os.exists_ at 1.
      unfold bind at 1 2. unfold get_fs at 1, ret at 1.
      rewrite stat_mount, Hm. cbn [fmap option_fmap option_map negb].
      change (USB_MOUNT // "library.txt") with library.
      pose proof (collect_entries E st Hnf Hl) as Hcol. unfold bind at 1 in Hcol.
      unfold bind at 1.
      destruct (Os.exists_ AUDIO_DIR E st) as [st0 [a|e0]] eqn:Hex; [|done].
      assert (st0 = st) as -> by (by inversion Hex).
      erewrite bind_ok by exact Hcol.
      by erewrite bind_raise by exact Hw. }
    by rewrite log_ok.
Qed.




End ImportJob.

(** ** A whole run, computed *)

Section Examples.
Import UsbManager.

(** One book added, two deleted, the hidden file left alone, and the
    inventory rewritten with an empty deletion section. *)
Example plain_run :
  let st' := (process_usb Demo.quiet Demo.plain_volume).1 in
  (process_usb Demo.quiet Demo.plain_volume).2 = Ok tt ∧
  fs st' !! Library.library =
    Some (File ("Inventory:" +:+ nl +:+ "x.mp3" +:+ nl +:+ nl +:+ "Deletion:" +:+ nl)) ∧
  trace st' =
    [EvCopy (Job.add_dir ++ ["x.mp3"]) (AUDIO_DIR ++ ["x.mp3"]);
     EvRun ["espeak-ng"; "New books added"];
     EvUnlink (AUDIO_DIR ++ ["a.mp3"]);
     EvUnlink (AUDIO_DIR ++ ["b.mp3"]);
     EvRun ["espeak-ng"; "Books deleted"];
     EvWrite Library.library
       ("Inventory:" +:+ nl +:+ "x.mp3" +:+ nl +:+ nl +:+ "Deletion:" +:+ nl)] ∧
  fs st' !! (AUDIO_DIR ++ [".cache"]) = Some (File "ccc").
Proof. by vm_compute. Qed.

(** No volume at the mount point: two log lines and nothing else. *)
Example missing_volume_run :
  (process_usb Demo.quiet Demo.unmounted).2 = Ok tt ∧
  trace (process_usb Demo.quiet Demo.unmounted).1 = [] ∧
  Log.text (fs (process_usb Demo.quiet Demo.unmounted).1) =
    Log.line Demo.quiet
      ("Error creating default Reboot.txt: " +:+
       Os.exn_str (FileNotFoundError Reboot.reboot_file)) +:+
    Log.line Demo.quiet "USB mount not found; skipping library write".
Proof. by vm_compute. Qed.

End Examples.

(** ** The parser and the file it reads back *)

Section ParserMore.
Import UsbManager Library.

Lemma requests_from_app l1 : ∀ above l2,
  requests_from above (l1 ++ l2) =
    requests_from above l1 ++ requests_from (above ++ l1) l2.
Proof.
  induction l1 as [|l l1 IH]; intros above l2; cbn [requests_from app].
  - by rewrite app_nil_r.
  - rewrite IH, <- !app_assoc. done.
Qed.

Lemma section_kept above line :
  in_deletion_section above = false → deletion_header line = false →
  in_deletion_section (above ++ [line]) = false.
Proof.
  rewrite !cursor_deletion, cursor_snoc. intros Ha Hl. rewrite Hl.
  by destruct (inventory_header line).
Qed.

Lemma no_header_no_requests lines : ∀ above,
  in_deletion_section above = false →
  Forall (λ line, deletion_header line = false) lines →
  requests_from above lines = [] ∧ in_deletion_section (above ++ lines) = false.
Proof.
  induction lines as [|l lines IH]; intros above Ha Hall; cbn [requests_from].
  - by rewrite app_nil_r.
  - apply Forall_cons in Hall as [Hl Hall]. rewrite Ha. cbn [andb app].
    destruct (IH (above ++ [l]) (section_kept _ _ Ha Hl) Hall) as [-> Hs].
    by rewrite <- app_assoc in Hs.
Qed.

(** X1.  A library.txt without a deletion header requests nothing, whatever
    else it holds. *)
Theorem no_deletion_header_no_requests lines :
  Forall (λ line, deletion_header line = false) lines →
  parse_lines lines = [].
Proof.
  intros Hall. rewrite parse_lines_requests.
  by apply (no_header_no_requests lines []).
Qed.

Lemma no_deletion_header_no_requests_witness :
  parse_lines ["Inventory:" +:+ nl; "a.mp3" +:+ nl; "#b.mp3" +:+ nl] = [].
Proof.
  apply no_deletion_header_no_requests.
  repeat constructor; vm_compute; reflexivity.
Defined.




(** X3.  An inventory header ends the deletion section: the lines after
    it, up to the next deletion header, are never requests, so a line such
    as [Inventory of tapes.mp3] among the requests silently drops every
    request below it. *)
Theorem inventory_header_ends_the_requests pre h post :
  inventory_header h = true →
  Forall (λ line, deletion_header line = false) post →
  parse_lines (pre ++ h :: post) = parse_lines pre.
Proof.
  intros Hh Hpost. rewrite !parse_lines_requests, requests_from_app.
  cbn [requests_from app].
  assert (Hreq : request h = false).
  { unfold request, header. by rewrite Hh. }
  rewrite Hreq, andb_false_r. cbn [app].
  destruct (no_header_no_requests post (pre ++ [h])) as [-> _]; [|done|].
  - by rewrite cursor_deletion, cursor_snoc, Hh.
  - by rewrite app_nil_r.
Qed.

Lemma inventory_header_ends_the_requests_witness :
  parse_lines (["Deletion:" +:+ nl; "a.mp3" +:+ nl]
               ++ ("Inventory of tapes.mp3" +:+ nl) :: ["b.mp3" +:+ nl])
  = parse_lines ["Deletion:" +:+ nl; "a.mp3" +:+ nl].
Proof.
  apply inventory_header_ends_the_requests.
  - vm_compute. reflexivity.
  - repeat constructor; vm_compute; reflexivity.
Defined.

End ParserMore.

Section ReadBack.
Import UsbManager Library.

Lemma iter_lines_go_line s : ∀ cur rest,
  Text.one_line s = true →
  Py.iter_lines_go cur (s +:+ nl +:+ rest) =
    (cur +:+ s +:+ nl) :: Py.iter_lines_go "" rest.
Proof.
  induction s as [|a s IH]; intros cur rest Hs.
  - done.
  - cbn [Text.one_line] in Hs. apply andb_true_iff in Hs as [Ha Hs].
    rewrite negb_true_iff, orb_false_iff in Ha. destruct Ha as [H10 H13].
    rewrite str_app_cons. cbn [Py.iter_lines_go]. rewrite H10, H13.
    rewrite IH by done. unfold Py.snoc. by rewrite str_app_assoc.
Qed.

Lemma entries_then rest entries :
  foldr (λ name acc, name +:+ nl +:+ acc) "" entries +:+ rest =
  foldr (λ name acc, name +:+ nl +:+ acc) rest entries.
Proof.
  induction entries as [|n entries IH]; [done|]. cbn [foldr].
  by rewrite !str_app_assoc, IH.
Qed.

Lemma iter_lines_entries entries rest :
  Forall (λ n, Text.one_line n = true) entries →
  Py.iter_lines_go "" (foldr (λ name acc, name +:+ nl +:+ acc) rest entries) =
    ((λ name, name +:+ nl) <$> entries) ++ Py.iter_lines_go "" rest.
Proof.
  induction 1 as [|n entries Hn Hall IH]; [done|]. cbn [foldr fmap list_fmap app].
  by rewrite iter_lines_go_line, IH.
Qed.

(** The lines text-mode iteration yields for the library.txt that
    [write_library_to_usb] writes. *)
Lemma iter_lines_library_text entries :
  Forall (λ n, Text.one_line n = true) entries →
  Py.iter_lines (library_text entries) = Rewrite.lines entries.
Proof.
  intros Hall. unfold library_text, Rewrite.lines, Py.iter_lines.
  rewrite (iter_lines_go_line "Inventory:") by done.
  rewrite entries_then, iter_lines_entries by done.
  change (Py.iter_lines_go "" (nl +:+ "Deletion:" +:+ nl))
    with (Py.iter_lines_go "" ("" +:+ nl +:+ "Deletion:" +:+ nl +:+ "")).
  rewrite (iter_lines_go_line "") by done.
  by rewrite (iter_lines_go_line "Deletion:") by done.
Qed.

Lemma library_text_requests_nothing entries :
  Forall (λ n, Text.one_line n = true) entries →
  Rewrite.no_deletion_names entries →
  deletion_requests (library_text entries) = [].
Proof.
  intros Hone Hnames.
  unfold deletion_requests. rewrite iter_lines_library_text by done.
  unfold Rewrite.lines.
  rewrite app_comm_cons. change [nl; "Deletion:" +:+ nl] with ([nl] ++ ["Deletion:" +:+ nl]).
  rewrite app_assoc, requests_from_app.
  destruct (no_header_no_requests
              ((("Inventory:" +:+ nl) :: ((λ name, name +:+ nl) <$> entries)) ++ [nl]) [])
    as [-> Hsec]; [done | |].
  - rewrite <- app_comm_cons. constructor; [done|].
    apply Forall_app. split; [|by repeat constructor].
    apply Forall_fmap. exact Hnames.
  - cbn [requests_from app]. by rewrite andb_false_r.
Qed.

(** X4.  Read back, the library.txt that the job has written requests no
    deletion, provided no listed name contains a line break or reads as a
    deletion header: a second run on the untouched file deletes nothing. *)
Theorem rewritten_library_requests_nothing E st entries :
  fs st !! library = Some (File (library_text entries)) →
  denied E Read library = false →
  Forall (λ n, Text.one_line n = true) entries →
  Rewrite.no_deletion_names entries →
  parse_deletion_from_library library E st = (st, Ok []).
Proof.
  intros Hf Hr Hone Hnames.
  rewrite (parse_readable E st _ Hf Hr).
  by rewrite library_text_requests_nothing.
Qed.

Lemma rewritten_library_requests_nothing_witness :
  parse_deletion_from_library library Demo.quiet
    (Demo.mounted [(library, File (library_text ["a.mp3"; "inventory.mp3"]))]) =
    (Demo.mounted [(library, File (library_text ["a.mp3"; "inventory.mp3"]))], Ok []).
Proof.
  apply (rewritten_library_requests_nothing Demo.quiet _ ["a.mp3"; "inventory.mp3"]).
  - vm_compute. reflexivity.
  - reflexivity.
  - repeat constructor.
  - repeat constructor; vm_compute; reflexivity.
Defined.

(** X5.  A listed name that reads as a deletion header turns the name
    after it into a request: when the store holds a file whose name starts
    with [deletion] (in any case), the library.txt that the job writes asks,
    on the next run, for the deletion of the file listed next. *)
Theorem deletion_named_file_requests_next before h n after :
  Forall (λ m, Text.one_line m = true) (before ++ h :: n :: after) →
  deletion_header (h +:+ nl) = true →
  request (n +:+ nl) = true →
  Py.strip (n +:+ nl) ∈
    deletion_requests (library_text (before ++ h :: n :: after)).
Proof.
  intros Hone Hh Hn. unfold deletion_requests.
  rewrite iter_lines_library_text by done. unfold Rewrite.lines.
  rewrite fmap_app. cbn [fmap list_fmap].
  set (pre := ("Inventory:" +:+ nl) :: ((λ name, name +:+ nl) <$> before)).
  set (post := ((λ name, name +:+ nl) <$> after) ++ [nl; "Deletion:" +:+ nl]).
  match goal with
  | |- _ ∈ requests_from [] ?l =>
    replace l with (pre ++ [h +:+ nl] ++ (n +:+ nl) :: post)
      by (unfold pre, post; cbn [app]; by rewrite <- !app_assoc)
  end.
  rewrite !requests_from_app. cbn [requests_from app].
  rewrite !elem_of_app. right. right. left.
  assert (Hsec : in_deletion_section (pre ++ [h +:+ nl]) = true).
  { rewrite cursor_deletion, cursor_snoc, Hh.
    destruct (inventory_header (h +:+ nl)) eqn:Hi; [|done].
    by rewrite (headers_disjoint _ Hi) in Hh. }
  rewrite Hsec, Hn. apply list_elem_of_here.
Qed.

Lemma deletion_named_file_requests_next_witness :
  Py.strip ("zebra.mp3" +:+ nl) ∈
    deletion_requests (library_text ([] ++ "Deletion song.mp3" :: "zebra.mp3" :: [])).
Proof.
  apply (deletion_named_file_requests_next [] "Deletion song.mp3" "zebra.mp3" []).
  - repeat constructor.
  - vm_compute. reflexivity.
  - vm_compute. reflexivity.
Defined.

End ReadBack.

(** ** Reboot.txt over two runs *)

Section RebootMore.
Import UsbManager Reboot.

Lemma handle_armed E st c :
  fs st !! reboot_file = Some (File c) →
  denied E Read reboot_file = false →
  triggered c = false →
  handle_reboot_file E st = (st, Ok false).
Proof.
  intros Hc Hr Ht. unfold handle_reboot_file.
  change (USB_MOUNT // "Reboot.txt") with reboot_file.
  erewrite bind_ok by (by eapply ensure_present).
  apply handle_untriggered. by rewrite (check_readable E st c), Ht.
Qed.

(** X6.  When Reboot.txt is missing on a mounted, writable volume, the
    reboot handling creates it with the default text and reports no
    trigger: it starts no child process, and the only changes are the new
    file and one line in the log. *)
Theorem missing_reboot_file_is_created_armed E st :
  fs st !! reboot_file = None →
  Path.is_dir_at (fs st) USB_MOUNT = true →
  denied E Write reboot_file = false →
  denied E Read reboot_file = false →
  Log.ready E (fs st) →
  handle_reboot_file E st =
    (Job.logged E "Created default Reboot.txt"
       (State (<[reboot_file := File REBOOT_FILE_DEFAULT]> (fs st))
              (trace st ++ [EvWrite reboot_file REBOOT_FILE_DEFAULT])),
     Ok false).
Proof.
  intros Habs Hm Hw Hr Hlog.
  set (st1 := State (<[reboot_file := File REBOOT_FILE_DEFAULT]> (fs st))
                    (trace st ++ [EvWrite reboot_file REBOOT_FILE_DEFAULT])).
  assert (Hlog1 : Log.ready E (fs st1)).
  { apply ready_insert_file; [done | by rewrite Habs]. }
  unfold handle_reboot_file. change (USB_MOUNT // "Reboot.txt") with reboot_file.
  erewrite bind_ok; cycle 1.
  { unfold ensure_reboot_file, Os.exists_.
    unfold bind at 1 2. unfold get_fs at 1, ret at 1.
    rewrite stat_reboot_file, Habs. cbn [fmap option_fmap option_map negb].
    erewrite try_ok; [done|].
    erewrite bind_ok; cycle 1.
    { apply write_text_ok; [by rewrite Habs | by rewrite usb_is_parent | done]. }
    by apply log_ok. }
  apply handle_untriggered.
  erewrite check_readable; [| |done].
  - by rewrite (proj2 default_is_armed).
  - unfold Log.append. cbn [fs]. rewrite lookup_insert_ne by discriminate.
    by rewrite lookup_insert_eq.
Qed.

Lemma missing_reboot_file_is_created_armed_witness :
  handle_reboot_file Demo.quiet (Demo.mounted []) =
    (Job.logged Demo.quiet "Created default Reboot.txt"
       (State (<[reboot_file := File REBOOT_FILE_DEFAULT]> (fs (Demo.mounted [])))
              (trace (Demo.mounted []) ++ [EvWrite reboot_file REBOOT_FILE_DEFAULT])),
     Ok false).
Proof.
  apply (missing_reboot_file_is_created_armed Demo.quiet (Demo.mounted []));
    try (vm_compute; reflexivity).
  apply readyb_ready. vm_compute. reflexivity.
Defined.

Lemma after_reboot_file E st :
  fs (after_reboot E st) !! reboot_file = Some (File REBOOT_FILE_DEFAULT).
Proof.
  unfold after_reboot, after_restore. cbn [fs trace].
  assert (Hne : LOG_FILE ≠ reboot_file) by discriminate.
  destruct (proc E _ ["reboot"]); unfold Log.append;
    rewrite ?(lookup_insert_ne _ LOG_FILE) by done;
    by rewrite lookup_insert_eq.
Qed.

(** X7.  The trigger is used up by the run that acts on it: after a run
    that found Reboot.txt triggered and could rewrite it, a second reboot
    check finds the file armed, reports no trigger and changes nothing, so
    one edit of the file reboots the box once. *)
Theorem trigger_fires_once E st c :
  fs st !! reboot_file = Some (File c) →
  triggered c = true →
  denied E Read reboot_file = false →
  denied E Write reboot_file = false →
  Path.is_dir_at (fs st) USB_MOUNT = true →
  Log.ready E (fs st) →
  process_usb E st = (after_reboot E st, Ok tt) ∧
  handle_reboot_file E (after_reboot E st) = (after_reboot E st, Ok false).
Proof.
  intros Hc Htrig Hr Hw Hmnt Hlog. split.
  - unfold process_usb. by erewrite bind_ok by (by eapply handle_triggered).
  - eapply handle_armed; [apply after_reboot_file | done | apply default_is_armed].
Qed.

Lemma trigger_fires_once_witness :
  process_usb Demo.quiet Demo.triggered_volume =
    (after_reboot Demo.quiet Demo.triggered_volume, Ok tt) ∧
  handle_reboot_file Demo.quiet (after_reboot Demo.quiet Demo.triggered_volume) =
    (after_reboot Demo.quiet Demo.triggered_volume, Ok false).
Proof.
  apply (trigger_fires_once Demo.quiet Demo.triggered_volume Demo.triggered_text);
    try (vm_compute; reflexivity).
  apply readyb_ready. vm_compute. reflexivity.
Defined.

End RebootMore.

(** ** What the additions and the deletions do to the content store *)

Section StoreChanges.
Import UsbManager Job Staging.
Context (E : environment).

Lemma safe_copy_result d n c st :
  Log.ready E (fs st) →
  fs st !! AUDIO_DIR = Some Dir →
  Path.valid_name n = true →
  d ≠ AUDIO_DIR →
  fs st !! (d ++ [n]) = Some (File c) →
  denied E Read (d ++ [n]) = false →
  fs st !! (AUDIO_DIR ++ [n]) ≠ Some Dir →
  denied E Write (AUDIO_DIR ++ [n]) = false →
  safe_copy (d ++ [n]) AUDIO_DIR E st =
    (logged E ("Copied: " +:+ Path.str (d ++ [n]) +:+ " → "
               +:+ Path.str (AUDIO_DIR ++ [n]))
       (State (<[AUDIO_DIR ++ [n] := File c]> (fs st))
              (trace st ++ [EvCopy (d ++ [n]) (AUDIO_DIR ++ [n])])),
     Ok tt).
Proof.
  intros Hlog Hdir Hv Hd Hsrc Hread Hdst Hwrite.
  unfold safe_copy.
  erewrite bind_ok by (by apply mkdir_store).
  unfold Path.name. rewrite last_last, join_valid by done.
  set (st1 := State (<[AUDIO_DIR ++ [n] := File c]> (fs st))
                    (trace st ++ [EvCopy (d ++ [n]) (AUDIO_DIR ++ [n])])).
  assert (Hcopy : Os.copy2 (d ++ [n]) (AUDIO_DIR ++ [n]) E st = (st1, Ok tt)).
  { unfold Os.copy2.
    erewrite bind_ok; cycle 1.
    { unfold Os.open_read, bind, get_fs, refused, ret. rewrite Hsrc. cbn.
      by rewrite Hread. }
    unfold bind at 1, get_fs at 1.
    assert (Hnd : Path.is_dir_at (fs st) (AUDIO_DIR ++ [n]) = false).
    { rewrite is_dir_at_lookup by (unfold AUDIO_DIR; discriminate).
      destruct (fs st !! (AUDIO_DIR ++ [n])) as [[x|]|] eqn:Hl;
        [done | by destruct Hdst | done]. }
    rewrite Hnd. rewrite decide_False by (intros Heq; by apply app_inj_tail in Heq as [? _]).
    erewrite bind_ok; cycle 1.
    { apply store_ok; [done | | done].
      unfold Path.parent. rewrite removelast_last.
      rewrite is_dir_at_lookup by (unfold AUDIO_DIR; discriminate).
      by rewrite Hdir. }
    done. }
  erewrite bind_ok by exact Hcopy.
  rewrite log_ok; [done|]. by apply ready_insert_file.
Qed.

(** X8.  Copying a file whose name the content store already holds
    replaces what the store held under that name: afterwards the store has
    the staged bytes, the staged file is still in place, and every other
    entry of the store is as before. *)
Theorem copy_replaces_same_name d n new old st :
  Log.ready E (fs st) →
  fs st !! AUDIO_DIR = Some Dir →
  Path.valid_name n = true →
  d ≠ AUDIO_DIR →
  d ++ [n] ∉ log_paths →
  fs st !! (d ++ [n]) = Some (File new) →
  denied E Read (d ++ [n]) = false →
  fs st !! (AUDIO_DIR ++ [n]) = Some (File old) →
  denied E Write (AUDIO_DIR ++ [n]) = false →
  ∃ st', safe_copy (d ++ [n]) AUDIO_DIR E st = (st', Ok tt) ∧
         fs st' !! (AUDIO_DIR ++ [n]) = Some (File new) ∧
         fs st' !! (d ++ [n]) = Some (File new) ∧
         (∀ m, m ≠ n → fs st' !! (AUDIO_DIR ++ [m]) = fs st !! (AUDIO_DIR ++ [m])) ∧
         trace st' = trace st ++ [EvCopy (d ++ [n]) (AUDIO_DIR ++ [n])].
Proof.
  intros Hlog Hdir Hv Hd Hnl Hsrc Hread Hdst Hwrite.
  eexists. split.
  { apply (safe_copy_result d n new); try done. by rewrite Hdst. }
  unfold logged, Log.append. cbn [fs trace].
  assert (Hl : ∀ m, LOG_FILE ≠ AUDIO_DIR ++ [m]) by (intros m; discriminate).
  split_and!; [| | |done].
  - rewrite lookup_insert_ne by apply Hl. by rewrite lookup_insert_eq.
  - rewrite lookup_insert_ne by (intros Heq; apply Hnl; rewrite <- Heq;
      unfold log_paths; set_solver).
    rewrite lookup_insert_ne; [done|].
    intros Heq. by apply app_inj_tail in Heq as [? _].
  - intros m Hm. rewrite lookup_insert_ne by apply Hl.
    rewrite lookup_insert_ne; [done|].
    intros Heq. by apply app_inj_tail in Heq as [_ ?].
Qed.

End StoreChanges.

Section StoreChangesRun.
Import UsbManager Job Staging.

Lemma copy_replaces_same_name_witness :
  ∃ st', safe_copy (add_dir ++ ["a.mp3"]) AUDIO_DIR Demo.quiet Sample.restaged_volume
           = (st', Ok tt) ∧
         fs st' !! (AUDIO_DIR ++ ["a.mp3"]) = Some (File "new") ∧
         fs st' !! (add_dir ++ ["a.mp3"]) = Some (File "new") ∧
         (∀ m, m ≠ "a.mp3" →
            fs st' !! (AUDIO_DIR ++ [m]) = fs Sample.restaged_volume !! (AUDIO_DIR ++ [m])) ∧
         trace st' = trace Sample.restaged_volume
                     ++ [EvCopy (add_dir ++ ["a.mp3"]) (AUDIO_DIR ++ ["a.mp3"])].
Proof.
  apply (copy_replaces_same_name Demo.quiet add_dir "a.mp3" "new" "aaa"
           Sample.restaged_volume); try (vm_compute; reflexivity).
  - apply readyb_ready. vm_compute. reflexivity.
  - discriminate.
  - unfold log_paths. rewrite !elem_of_cons, elem_of_nil.
    intros [H|[H|[H|[]]]]; discriminate.
Defined.

End StoreChangesRun.

Section Additions2.
Import UsbManager Job Staging.
Context (E : environment) (f0 : gmap path node).

Lemma existsb_filter {A} (g : A → bool) (l : list A) :
  existsb g l = match List.filter g l with [] => false | _ => true end.
Proof. induction l as [|x l IH]; [done|]. cbn. by destruct (g x). Qed.

Lemma elem_of_filter_cons {A} (g : A → bool) (x y : A) (l : list A) :
  x ∈ List.filter g (y :: l) ↔ (x = y ∧ g y = true) ∨ x ∈ List.filter g l.
Proof.
  cbn. destruct (g y) eqn:Hg.
  - rewrite elem_of_cons. naive_solver.
  - naive_solver.
Qed.

Lemma add_loop_exact names : ∀ added st,
  can_add E f0 → steady E f0 st → volume_kept f0 st →
  Forall (λ n, Path.valid_name n = true) names →
  ∃ st', add_loop ((λ n, add_dir ++ [n]) <$> names) added E st
           = (st', Ok (added || existsb (is_staged f0) names)) ∧
         steady E f0 st' ∧ volume_kept f0 st' ∧
         trace st' = trace st ++ copies (List.filter (is_staged f0) names) ∧
         (∀ n, n ∈ List.filter (is_staged f0) names →
            fs st' !! (AUDIO_DIR ++ [n]) = f0 !! (add_dir ++ [n])) ∧
         (∀ p, p ∉ log_paths →
            (∀ n, n ∈ List.filter (is_staged f0) names → p ≠ AUDIO_DIR ++ [n]) →
            fs st' !! p = fs st !! p).
Proof.
  induction names as [|n names IH]; intros added st Hcan Hst Hk Hv.
  - exists st. cbn. rewrite orb_false_r, app_nil_r. split_and!; try done.
    intros n Hn. by apply elem_of_nil in Hn.
  - apply Forall_cons in Hv as [Hn Hv]. cbn [fmap list_fmap add_loop].
    erewrite bind_ok by (apply is_file_child; [apply add_dir_plain | done]).
    unfold Path.name. rewrite last_last.
    assert (Hsame : fs st !! (add_dir ++ [n]) = f0 !! (add_dir ++ [n])).
    { apply Hk. by exists [n]. }
    assert (Htest : Store.file_at (fs st) (add_dir ++ [n]) && negb (hidden n)
                    = is_staged f0 n).
    { unfold is_staged, Store.file_at. by rewrite Hsame. }
    rewrite Htest. cbn [existsb List.filter].
    destruct (is_staged f0 n) eqn:Hg.
    + assert (∃ c, f0 !! (add_dir ++ [n]) = Some (File c)) as [c Hc].
      { unfold is_staged, Store.file_at in Hg.
        destruct (f0 !! (add_dir ++ [n])) as [[c|]|]; [by exists c | done | done]. }
      destruct Hcan as (Hnf & Hlist & Hread & Hstore & Hflat & Hwrite).
      assert (Hdir : fs st !! AUDIO_DIR = Some Dir) by by apply Hst.
      assert (Hdst : fs st !! (AUDIO_DIR ++ [n]) ≠ Some Dir).
      { intros Hd. apply Hst in Hd. by apply (Hflat n). }
      erewrite bind_ok; cycle 1.
      { apply (safe_copy_result E add_dir n c); try done; [apply Hst | by rewrite Hsame]. }
      set (st1 := logged E _ _).
      assert (Hst1 : steady E f0 st1).
      { apply steady_append. by apply steady_insert_file. }
      assert (Hk1 : volume_kept f0 st1).
      { by apply volume_kept_append, volume_kept_store. }
      destruct (IH true st1) as (st' & Hrun & Hst' & Hk' & Htr & Hnew & Hold);
        [done..|].
      exists st'. rewrite orb_true_r. split_and!; [done | done | done | | |].
      * rewrite Htr. unfold st1, logged. cbn [trace copies fmap list_fmap].
        by rewrite <- app_assoc.
      * intros m Hm.
        destruct (decide (m ∈ List.filter (is_staged f0) names)) as [Hin|Hout];
          [by apply Hnew|].
        apply elem_of_cons in Hm as [->|Hm]; [|done].
        rewrite Hold.
        -- unfold st1, logged, Log.append. cbn [fs].
           rewrite lookup_insert_ne by discriminate.
           by rewrite lookup_insert_eq.
        -- by apply store_not_log; exists [n].
        -- intros k Hk2 Heq. apply app_inj_tail in Heq as [_ ->]. done.
      * intros p Hp Hne. rewrite Hold.
        -- unfold st1, logged, Log.append. cbn [fs].
           rewrite lookup_insert_ne.
           ++ rewrite lookup_insert_ne; [done|]. intros Heq.
              apply (Hne n); [apply list_elem_of_here | done].
           ++ intros Heq. apply Hp. rewrite <- Heq. unfold log_paths. set_solver.
        -- done.
        -- intros k Hk2. apply Hne. by apply list_elem_of_further.
    + cbn [orb]. by apply IH.
Qed.

End Additions2.

Section AdditionsRun.
Import UsbManager Job Staging.

Lemma add_step_exact E st :
  can_add E (fs st) →
  Log.ready E (fs st) →
  fs st !! add_dir = Some Dir →
  ∃ st', add_step E st = (st', Ok tt) ∧
         steady E (fs st) st' ∧
         trace st' = trace st ++ copies (staged (fs st))
                     ++ announcement "New books added" (staged (fs st)) ∧
         (∀ n, n ∈ staged (fs st) →
            fs st' !! (AUDIO_DIR ++ [n]) = fs st !! (add_dir ++ [n])) ∧
         (∀ p, p ∉ log_paths →
            (∀ n, n ∈ staged (fs st) → p ≠ AUDIO_DIR ++ [n]) →
            fs st' !! p = fs st !! p) ∧
         (∀ p, add_dir `prefix_of` p → fs st' !! p = fs st !! p).
Proof.
  intros Hcan Hlog Hadd.
  assert (Hst : steady E (fs st) st) by (split; [done | apply same_dirs_refl]).
  assert (Hk : volume_kept (fs st) st) by done.
  unfold add_step. change (USB_MOUNT // "Add") with add_dir.
  unfold bind at 1. unfold Os.exists_ at 1. unfold bind at 1, get_fs at 1, ret at 1.
  rewrite (stat_plain _ add_dir) by (apply add_dir_plain || done).
  rewrite Hadd. cbn [fmap option_fmap option_map].
  erewrite bind_ok; cycle 1.
  { unfold Os.iterdir, bind, get_fs, refused, ret.
    rewrite (stat_plain _ add_dir) by (apply add_dir_plain || done).
    rewrite Hadd. cbn. destruct Hcan as (_ & -> & _). done. }
  destruct (add_loop_exact E (fs st) (Path.children (fs st) add_dir) false st Hcan Hst Hk)
    as (st1 & Hloop & Hst1 & Hk1 & Htr & Hnew & Hold); [apply children_valid|].
  erewrite bind_ok by exact Hloop. cbn [orb].
  rewrite existsb_filter. fold (staged (fs st)) in *.
  destruct (staged (fs st)) as [|n0 names] eqn:Hs.
  - exists st1. cbn [announcement]. split_and!; try done. apply Hk1.
  - rewrite speak_eq. eexists. split; [done|]. cbn [fs trace announcement].
    split_and!; [by eapply steady_same_fs| |done|done|apply Hk1].
    by rewrite Htr, <- app_assoc.
Qed.

(** X9.  With a staging folder that can be listed and read and a flat,
    writable content store, the additions copy exactly the regular, not
    hidden files of [Add], one copy each in the order of the listing; the
    store then holds the staged bytes under each of these names, no other
    file changes apart from the log, the staging folder is left as it was,
    and "New books added" is spoken exactly when something was copied. *)
Theorem additions_copy_the_staged_files E st :
  can_add E (fs st) →
  Log.ready E (fs st) →
  fs st !! add_dir = Some Dir →
  ∃ st', add_step E st = (st', Ok tt) ∧
         trace st' = trace st ++ copies (staged (fs st))
                     ++ announcement "New books added" (staged (fs st)) ∧
         (∀ n, n ∈ staged (fs st) →
            fs st' !! (AUDIO_DIR ++ [n]) = fs st !! (add_dir ++ [n])) ∧
         (∀ p, p ∉ log_paths →
            (∀ n, n ∈ staged (fs st) → p ≠ AUDIO_DIR ++ [n]) →
            fs st' !! p = fs st !! p) ∧
         (∀ p, add_dir `prefix_of` p → fs st' !! p = fs st !! p).
Proof.
  intros Hcan Hlog Hadd.
  destruct (add_step_exact E st Hcan Hlog Hadd) as (st' & Hrun & _ & Hrest).
  by exists st'.
Qed.

Lemma additions_copy_the_staged_files_witness :
  ∃ st', add_step Demo.quiet Sample.restaged_volume = (st', Ok tt) ∧
         trace st' = trace Sample.restaged_volume
                     ++ copies (staged (fs Sample.restaged_volume))
                     ++ announcement "New books added"
                          (staged (fs Sample.restaged_volume)) ∧
         (∀ n, n ∈ staged (fs Sample.restaged_volume) →
            fs st' !! (AUDIO_DIR ++ [n]) = fs Sample.restaged_volume !! (add_dir ++ [n])) ∧
         (∀ p, p ∉ log_paths →
            (∀ n, n ∈ staged (fs Sample.restaged_volume) → p ≠ AUDIO_DIR ++ [n]) →
            fs st' !! p = fs Sample.restaged_volume !! p) ∧
         (∀ p, add_dir `prefix_of` p → fs st' !! p = fs Sample.restaged_volume !! p).
Proof.
  apply (additions_copy_the_staged_files Demo.quiet Sample.restaged_volume).
  - unfold can_add. split_and!; try (intros; vm_compute; reflexivity || discriminate).
    + apply no_subdirs_flat. vm_compute. reflexivity.
  - apply readyb_ready. vm_compute. reflexivity.
  - vm_compute. reflexivity.
Defined.

End AdditionsRun.

Section Deletions2.
Import UsbManager Job Staging Library.
Context (E : environment).





Lemma filter_same {A} (g h : A → bool) (l : list A) :
  (∀ x, g x = h x) → List.filter g l = List.filter h l.
Proof. intros Hgh. induction l as [|x l IH]; [done|]. cbn. by rewrite Hgh, IH. Qed.



End Deletions2.

Section DeletionsRun.
Import UsbManager Job Staging Library.




(** X11.  A request that is an absolute path is not confined to the content
    store: joined to the store it replaces it, so the deletions unlink the
    file at that very path, wherever it lies, log it and count it as a
    deleted book. *)
Theorem absolute_request_leaves_the_store E st name q c :
  Py.startswith "/" name = true →
  Path.components name = q →
  q ≠ [] →
  Forall (λ x, x ≠ "..") q →
  fs st !! q = Some (File c) →
  denied E Unlink q = false →
  Log.ready E (fs st) →
  safe_delete name AUDIO_DIR E st =
    (logged E ("Deleted: " +:+ Path.str q)
       (State (delete q (fs st)) (trace st ++ [EvUnlink q])),
     Ok true).
Proof.
  intros Habs Hq Hne Hplain Hc Hun Hlog. unfold safe_delete, Path.join.
  rewrite Habs, Hq.
  assert (Hstat : Path.stat (fs st) q = Some (q, File c)).
  { rewrite stat_plain by done. by rewrite Hc. }
  unfold bind at 1. unfold Os.exists_ at 1. unfold bind at 1, get_fs at 1, ret at 1.
  rewrite Hstat.
  erewrite bind_ok; cycle 1.
  { unfold Os.unlink, bind, get_fs, refused, set_fs, emit.
    rewrite Hstat. cbn. rewrite Hun. done. }
  erewrite bind_ok; [done|].
  apply log_ok. cbn [fs]. by eapply ready_delete_file.
Qed.

Lemma absolute_request_leaves_the_store_witness :
  safe_delete "/media/usb/Reboot.txt" AUDIO_DIR Demo.quiet Sample.restaged_volume =
    (logged Demo.quiet ("Deleted: " +:+ Path.str Reboot.reboot_file)
       (State (delete Reboot.reboot_file (fs Sample.restaged_volume))
              (trace Sample.restaged_volume ++ [EvUnlink Reboot.reboot_file])),
     Ok true).
Proof.
  apply (absolute_request_leaves_the_store Demo.quiet Sample.restaged_volume
           "/media/usb/Reboot.txt" Reboot.reboot_file REBOOT_FILE_DEFAULT).
  - vm_compute. reflexivity.
  - vm_compute. reflexivity.
  - discriminate.
  - unfold Reboot.reboot_file. vm_compute. repeat constructor; discriminate.
  - vm_compute. reflexivity.
  - vm_compute. reflexivity.
  - apply readyb_ready. vm_compute. reflexivity.
Defined.

End DeletionsRun.

(** ** A whole run of the import job *)

Section WholeRun.
Import UsbManager Job Staging Library.



Lemma is_file_still p E st : (Os.is_file p E st).1 = st.
Proof. done. Qed.










End WholeRun.

(** ** The watcher over many polls *)

Section WatcherFootprint.
Import WatchUsb Tree Poll Watch.

Lemma frames_watcher_log T al msg : LOG_FILE ∈ T → frames T al (WatchUsb.log msg).
Proof.
  intros HT E st. unfold WatchUsb.log, Os.append_text. by apply frames_store.
Qed.

Lemma frames_run_check T (al : event → bool) argv :
  al (EvRun argv) = true → frames T al (Os.run_check argv).
Proof.
  intros Hal. unfold Os.run_check. apply frames_bind; [by apply frames_run|].
  intros [|code]; [apply frames_ret | apply frames_raise].
Qed.

Lemma frames_handle d : frames watcher_paths is_action (handle d).
Proof.
  assert (Hlog : ∀ msg, frames watcher_paths is_action (WatchUsb.log msg)).
  { intros msg. apply frames_watcher_log. unfold watcher_paths. set_solver. }
  unfold handle.
  apply frames_bind.
  { apply frames_mkdir_go. intros k Hk. unfold MOUNTPOINT in *. cbn in Hk.
    unfold watcher_paths, MOUNTPOINT.
    destruct k as [|[|[|k]]]; try lia; cbn; set_solver. }
  intros ?. apply frames_bind; [by apply frames_run_check | intros ?].
  apply frames_bind; [apply Hlog | intros ?].
  apply frames_bind; [by apply frames_run_check | intros ?].
  apply frames_bind; [apply Hlog | intros ?].
  apply frames_bind; [by apply frames_run | intros ?].
  apply frames_bind; [by apply frames_run_check | intros ?].
  apply frames_bind; [apply Hlog | intros ?].
  apply frames_ret.
Qed.

Lemma find_changes enum E st :
  changes_only watcher_paths is_action (polled st) (find_usb_partition enum E st).1.
Proof.
  destruct enum as [e|blocks]; [|rewrite find_listed; apply changes_only_refl].
  unfold find_usb_partition. unfold bind at 1.
  erewrite try_raise by reflexivity.
  unfold bind at 1.
  pose proof (frames_watcher_log watcher_paths is_action
                ("lsblk failed: " +:+ Os.exn_str e)
                ltac:(unfold watcher_paths; set_solver) E (polled st)) as Hlog.
  fold (polled st).
  by destruct (WatchUsb.log _ E (polled st)) as [st1 [[]|e1]].
Qed.

Lemma turn_changes enum last E st :
  changes_only watcher_paths is_action (polled st) (cycle enum last E st).1.
Proof.
  assert (Hlog : ∀ msg, frames watcher_paths is_action (WatchUsb.log msg)).
  { intros msg. apply frames_watcher_log. unfold watcher_paths. set_solver. }
  pose proof (find_changes enum E st) as Hfind.
  unfold cycle. unfold bind at 1.
  destruct (find_usb_partition enum E st) as [st1 [dev|e]]; [|done].
  cbn [fst] in Hfind. eapply changes_only_trans; [exact Hfind|].
  revert E st1 Hfind. intros E st1 _. revert E st1.
  apply frames_bind.
  - apply frames_if; [|apply frames_ret].
    apply frames_bind; [apply Hlog | intros ?].
    apply frames_try; [apply frames_handle | intros e].
    apply frames_bind; [apply Hlog | intros ?; apply frames_ret].
  - intros last'. apply frames_if; [|apply frames_ret].
    apply frames_bind; [|intros ?; apply frames_ret].
    apply frames_if; [apply Hlog | apply frames_ret].
Qed.

Lemma polled_changes st : changes_only watcher_paths is_run st (polled st).
Proof. split; [done|]. by exists [EvRun lsblk_argv]. Qed.

Lemma action_is_run ev : is_action ev = true → is_run ev = true.
Proof. by destruct ev. Qed.

Lemma turn_footprint enum last E st :
  changes_only watcher_paths is_run st (cycle enum last E st).1.
Proof.
  eapply changes_only_trans; [apply polled_changes|].
  eapply changes_only_mono; [apply turn_changes | done | apply action_is_run].
Qed.

Lemma loop_footprint enums : ∀ last,
  frames watcher_paths is_run (main_loop enums last).
Proof.
  induction enums as [|enum enums IH]; intros last; [apply frames_ret|].
  cbn [main_loop]. apply frames_bind; [|intros last'; apply IH].
  intros E st. apply turn_footprint.
Qed.

(** X14.  Whatever the polls show and whatever the child processes do, the
    watcher itself writes to no file but its log, creates no directory but
    the mount point with the one above it, and deletes nothing: every
    other path holds afterwards what it held before, and the history grows
    by child processes only. *)
Theorem watcher_touches_only_its_log enums E st :
  changes_only watcher_paths is_run st (main enums E st).1.
Proof.
  revert E st. unfold main.
  apply frames_bind.
  { intros E st. unfold Os.touch. unfold bind at 1, get_fs at 1.
    assert (Hin : LOG_FILE ∈ watcher_paths) by (unfold watcher_paths; set_solver).
    destruct (fs st !! LOG_FILE) as [[c|]|]; try by apply frames_store.
    unfold bind, refused, raise, ret. destruct (denied E Write LOG_FILE);
      apply changes_only_refl. }
  intros ?. apply frames_bind.
  { apply frames_watcher_log. unfold watcher_paths. set_solver. }
  intros ?. apply loop_footprint.
Qed.

Lemma polls_app tr1 tr2 : polls (tr1 ++ tr2) = (polls tr1 + polls tr2)%nat.
Proof. unfold polls. by rewrite List.filter_app, length_app. Qed.

Lemma polls_actions evs : forallb is_action evs = true → polls evs = 0%nat.
Proof.
  unfold polls. induction evs as [|ev evs IH]; [done|]. cbn [forallb List.filter].
  intros [Hev Hevs]%andb_true_iff.
  destruct ev as [argv| | |]; try done. cbn in Hev |- *.
  apply negb_true_iff in Hev. rewrite Hev. by apply IH.
Qed.

Lemma loop_polls E enums : ∀ last st,
  Log.ready E (fs st) →
  ∃ st' last' tr,
    main_loop enums last E st = (st', Ok last') ∧
    Log.ready E (fs st') ∧
    trace st' = trace st ++ tr ∧
    polls tr = length enums.
Proof.
  induction enums as [|enum enums IH]; intros last st Hr; cbn [main_loop].
  - exists st, last, []. by rewrite app_nil_r.
  - pose proof (cycle_returns enum last E st Hr) as Hret.
    destruct (turn_changes enum last E st) as [_ (evs & Htr & Hact)].
    destruct (cycle enum last E st) as [st1 [last1|e]] eqn:Hc; [|done].
    cbn [fst] in Htr.
    destruct (IH last1 st1 Hret) as (st' & last' & tr & Hrun & Hr' & Htr' & Hn).
    exists st', last', (EvRun lsblk_argv :: evs ++ tr).
    erewrite bind_ok by exact Hc. split_and!; [done | done | |].
    + rewrite Htr', Htr. unfold polled. cbn [trace].
      by rewrite <- !app_assoc.
    + change (EvRun lsblk_argv :: evs ++ tr) with ([EvRun lsblk_argv] ++ evs ++ tr).
      rewrite !polls_app, (polls_actions evs Hact), Hn. done.
Qed.

(** X15.  Once its log accepts lines, the watcher goes on for ever: for any
    run of polls, with [lsblk] failing or not and any outcome of mounting,
    importing and unmounting, [main] gets through every one of them without
    raising, polls exactly once per turn, and leaves a log that still
    accepts lines. *)
Theorem watcher_polls_every_turn E enums st :
  Log.ready E (fs st) →
  ∃ st' last tr,
    main enums E st = (st', Ok last) ∧
    Log.ready E (fs st') ∧
    trace st' = trace st ++ tr ∧
    polls tr = length enums.
Proof.
  intros Hr. unfold main.
  assert (Htouch : ∃ c, Os.touch LOG_FILE E st
                        = (State (<[LOG_FILE := File c]> (fs st)) (trace st), Ok tt)).
  { unfold Os.touch. unfold bind at 1, get_fs at 1.
    destruct (fs st !! LOG_FILE) as [[c|]|] eqn:Hl.
    - exists c. rewrite store_ok; [by rewrite Hl | apply Hr | by eapply ready_parent | apply Hr].
    - by destruct Hr as (_ & _ & _ & Hd).
    - exists "". rewrite store_ok; [by rewrite Hl | apply Hr | by eapply ready_parent | apply Hr]. }
  destruct Htouch as [c Htouch].
  erewrite bind_ok by exact Htouch.
  assert (Hr1 : Log.ready E (<[LOG_FILE := File c]> (fs st))).
  { apply ready_insert_file; [done | apply Hr]. }
  erewrite bind_ok by (by apply watcher_log_ok).
  destruct (loop_polls E enums None
              (State (Log.append (Log.watcher_line E "USB watcher started")
                        (<[LOG_FILE := File c]> (fs st))) (trace st)))
    as (st' & last & tr & Hrun & Hr' & Htr & Hn).
  { by apply ready_append. }
  by exists st', last, tr.
Qed.

Lemma watcher_polls_every_turn_witness :
  ∃ st' last tr,
    main [inr stick; inl (OSError "lsblk: not found"); inr no_stick; inr stick]
      umount_fails Demo.unmounted = (st', Ok last) ∧
    Log.ready umount_fails (fs st') ∧
    trace st' = trace Demo.unmounted ++ tr ∧
    polls tr = length [inr stick; inl (OSError "lsblk: not found");
                       inr no_stick; inr stick].
Proof.
  apply (watcher_polls_every_turn umount_fails
           [inr stick; inl (OSError "lsblk: not found"); inr no_stick; inr stick]
           Demo.unmounted).
  apply readyb_ready. vm_compute. reflexivity.
Defined.

End WatcherFootprint.

Section WatcherRecord.
Import WatchUsb Tree Poll Watch.

Lemma actions_forgotten E d e st :
  actions (trace (forgotten E d e st)) = actions (trace st).
Proof.
  unfold forgotten. cbn [trace]. by rewrite actions_app, actions_poll, app_nil_r.
Qed.

(** X16.  A failed poll counts as a removal.  When [lsblk] fails while the
    device [d] is recorded, the turn logs the failure and the removal of
    [d] and clears the record; so if [d] is in fact still inserted, the
    next poll that shows it has it mounted and imported a second time. *)
Theorem failed_poll_forgets_the_device E st d e again :
  Py.truthy d = true →
  Log.ready E (fs st) →
  mountpoint_present (fs st) →
  handling_succeeds E d →
  shows d again →
  cycle (inl e) (Some d) E st = (forgotten E d e st, Ok None) ∧
  ∃ st', main_loop [inl e; again] (Some d) E st = (st', Ok (Some d)) ∧
         actions (trace st') = actions (trace st) ++ handling d.
Proof.
  intros Ht Hr Hm Hall Hs.
  assert (Hturn : cycle (inl e) (Some d) E st = (forgotten E d e st, Ok None)).
  { unfold cycle. erewrite bind_ok by (by apply find_failed).
    cbn [truthy andb negb]. unfold bind at 1, ret at 1. cbn [truthy default].
    rewrite Ht. unfold bind at 1.
    rewrite watcher_log_ok by (by apply ready_append). done. }
  split; [done|].
  destruct (shows_walk d again Hs) as (blocks & -> & Hw & _).
  cbn [main_loop]. erewrite bind_ok by exact Hturn.
  erewrite bind_ok; cycle 1.
  { apply cycle_handles; try done.
    - unfold forgotten. cbn [fs]. by do 2 apply ready_append.
    - unfold forgotten. cbn [fs]. by do 2 apply present_append. }
  eexists. split; [done|].
  by rewrite actions_handled, actions_forgotten.
Qed.

Lemma failed_poll_forgets_the_device_witness :
  cycle (inl (OSError "lsblk: not found")) (Some "/dev/sda1") Demo.quiet
    Demo.plain_volume
    = (forgotten Demo.quiet "/dev/sda1" (OSError "lsblk: not found")
         Demo.plain_volume, Ok None) ∧
  ∃ st', main_loop [inl (OSError "lsblk: not found"); inr stick] (Some "/dev/sda1")
           Demo.quiet Demo.plain_volume = (st', Ok (Some "/dev/sda1")) ∧
         actions (trace st') = actions (trace Demo.plain_volume) ++ handling "/dev/sda1".
Proof.
  apply (failed_poll_forgets_the_device Demo.quiet Demo.plain_volume "/dev/sda1"
           (OSError "lsblk: not found") (inr stick)).
  - vm_compute. reflexivity.
  - apply readyb_ready. vm_compute. reflexivity.
  - split; vm_compute; reflexivity.
  - split_and!; intros tr; try (vm_compute; reflexivity). by exists 0%nat.
  - apply shows_stick.
Defined.

Lemma loop_recorded blocks d E n : ∀ st,
  walk blocks = Some d → Py.truthy d = true →
  ∃ tr, main_loop (replicate n (inr blocks)) (Some d) E st
          = (State (fs st) (trace st ++ tr), Ok (Some d)) ∧
        actions tr = [].
Proof.
  induction n as [|n IH]; intros st Hw Ht; cbn [replicate main_loop].
  - exists []. rewrite app_nil_r. by destruct st.
  - erewrite bind_ok by (by apply cycle_same).
    destruct (IH (polled st) Hw Ht) as (tr & Hrun & Hact).
    exists (EvRun lsblk_argv :: tr). split.
    + rewrite Hrun. unfold polled. cbn [fs trace]. by rewrite <- app_assoc.
    + change (EvRun lsblk_argv :: tr) with ([EvRun lsblk_argv] ++ tr).
      by rewrite actions_app, actions_poll, Hact.
Qed.

Lemma elem_of_actions ev tr : ev ∈ tr → is_poll ev = false → ev ∈ actions tr.
Proof.
  intros Hin Hp. unfold actions. apply list_elem_of_In, filter_In.
  split; [by apply list_elem_of_In | by rewrite Hp].
Qed.

(** X17.  When a poll shows several partitions that pass the test, only the
    first of them in pre-order is handled: however long they all stay
    inserted, that one is mounted and imported once and recorded, and no
    other one is ever mounted. *)
Theorem only_the_first_partition_is_handled E st blocks b1 b2 more d1 d2 n :
  has_paths blocks →
  List.filter wanted (preorder blocks) = b1 :: b2 :: more →
  block_path b1 = Some d1 →
  block_path b2 = Some d2 →
  d1 ≠ d2 →
  handling_succeeds E d1 →
  Log.ready E (fs st) →
  mountpoint_present (fs st) →
  ∃ st' tr,
    main_loop (replicate (S n) (inr blocks)) None E st = (st', Ok (Some d1)) ∧
    trace st' = trace st ++ tr ∧
    actions tr = handling d1 ∧
    EvRun (mount_argv d2) ∉ tr.
Proof.
  intros Hp Hf Hb1 Hb2 Hne Hall Hr Hm.
  assert (Hfind : List.find wanted (preorder blocks) = Some b1).
  { by rewrite find_of_filter, Hf. }
  assert (Hw : walk blocks = Some d1).
  { rewrite walk_first by done. unfold path_of_first. by rewrite Hfind. }
  assert (Ht : Py.truthy d1 = true).
  { apply find_some in Hfind as [Hin _].
    unfold has_paths in Hp. rewrite Forall_forall in Hp.
    specialize (Hp b1 (proj2 (list_elem_of_In _ _) Hin)).
    by rewrite Hb1 in Hp. }
  cbn [replicate main_loop].
  erewrite bind_ok by (by apply cycle_handles).
  destruct (loop_recorded blocks d1 E n (handled E d1 st) Hw Ht) as (tr & Hrun & Hact).
  exists (State (fs (handled E d1 st)) (trace (handled E d1 st) ++ tr)),
         ((EvRun lsblk_argv :: handling d1) ++ tr).
  assert (Hacts : actions ((EvRun lsblk_argv :: handling d1) ++ tr) = handling d1).
  { change (EvRun lsblk_argv :: handling d1) with ([EvRun lsblk_argv] ++ handling d1).
    by rewrite !actions_app, actions_poll, actions_handling, Hact, app_nil_r. }
  split_and!; [done | | done |].
  - unfold handled. cbn [trace]. by rewrite <- !app_assoc.
  - intros Hin. apply elem_of_actions in Hin; [|done].
    rewrite Hacts in Hin. unfold handling in Hin.
    rewrite !elem_of_cons, elem_of_nil in Hin.
    destruct Hin as [Heq|[Heq|[Heq|[Heq|[]]]]]; try discriminate.
    injection Heq as Heq. by destruct Hne.
Qed.

Lemma only_the_first_partition_is_handled_witness :
  ∃ st' tr,
    main_loop (replicate 3 (inr two_sticks)) None Demo.quiet Demo.plain_volume
      = (st', Ok (Some "/dev/sda1")) ∧
    trace st' = trace Demo.plain_volume ++ tr ∧
    actions tr = handling "/dev/sda1" ∧
    EvRun (mount_argv "/dev/sdb1") ∉ tr.
Proof.
  apply (only_the_first_partition_is_handled Demo.quiet Demo.plain_volume two_sticks
           (Block (Some "sda1") (Some "/dev/sda1") true None [])
           (Block (Some "sdb1") (Some "/dev/sdb1") true None [])
           [] "/dev/sda1" "/dev/sdb1" 2).
  - apply has_pathsb_has_paths. vm_compute. reflexivity.
  - vm_compute. reflexivity.
  - reflexivity.
  - reflexivity.
  - discriminate.
  - split_and!; intros tr; try (vm_compute; reflexivity). by exists 0%nat.
  - apply readyb_ready. vm_compute. reflexivity.
  - split; vm_compute; reflexivity.
Defined.

End WatcherRecord.

Section WatcherRetries.
Import WatchUsb Tree Poll Watch.

Lemma handle_umount_fails_state d E st :
  only_umount_fails E d → Log.ready E (fs st) → mountpoint_present (fs st) →
  ∃ st1 e, handle d E st = (st1, Raise e) ∧
           trace st1 = trace st ++ handling d ∧
           Log.ready E (fs st1) ∧ mountpoint_present (fs st1).
Proof.
  intros (Hmount & Himp & Hsync & Humount) Hr Hm. unfold handle.
  erewrite bind_ok by (by apply mkdir_mountpoint).
  erewrite bind_ok by (by apply run_check_ok).
  erewrite bind_ok by (by apply watcher_log_ok). cbn [fs trace].
  erewrite bind_ok by (by apply run_check_ok). cbn [fs trace].
  erewrite bind_ok by (apply watcher_log_ok; cbn [fs]; by apply ready_append).
  cbn [fs trace].
  destruct (Hsync ((trace st ++ [EvRun (mount_argv d)]) ++ [EvRun importer_argv]))
    as [code Hcode].
  erewrite bind_ok by (by apply run_exited). cbn [fs trace].
  match goal with
  | |- context [Os.run_check umount_argv] =>
    destruct (run_check_raises umount_argv E
                (State (Log.append (Log.watcher_line E "usb_manager.py completed")
                          (Log.append (Log.watcher_line E
                             ("Mounted " +:+ d +:+ " at " +:+ Path.str MOUNTPOINT))
                             (fs st)))
                       (((trace st ++ [EvRun (mount_argv d)]) ++ [EvRun importer_argv])
                          ++ [EvRun ["sync"]])) (Humount _)) as [e He]
  end.
  erewrite bind_raise by exact He.
  eexists _, e. split; [done|]. cbn [fs trace]. split_and!.
  - unfold handling. by rewrite <- !app_assoc.
  - by do 2 apply ready_append.
  - by do 2 apply present_append.
Qed.

Lemma turn_umount_fails blocks d E st :
  walk blocks = Some d → Py.truthy d = true →
  only_umount_fails E d → Log.ready E (fs st) → mountpoint_present (fs st) →
  ∃ st', cycle (inr blocks) None E st = (st', Ok None) ∧
         trace st' = (trace st ++ [EvRun lsblk_argv]) ++ handling d ∧
         Log.ready E (fs st') ∧ mountpoint_present (fs st').
Proof.
  intros Hw Ht Hfail Hr Hm.
  rewrite (cycle_attempts blocks d) by done.
  destruct (handle_umount_fails_state d E (detected E d st) Hfail)
    as (st1 & e & Hh & Htr & Hr1 & Hm1).
  { unfold detected. cbn [fs]. by apply ready_append. }
  { unfold detected. cbn [fs]. by apply present_append. }
  rewrite (attempt_failure d None E st st1 e Hr Hh).
  eexists. split; [done|]. cbn [fs trace]. split_and!.
  - by rewrite Htr.
  - by apply ready_append.
  - by apply present_append.
Qed.

(** X18.  A device whose unmount fails is never recorded, so it is handled
    again at every poll: as long as it stays inserted, each turn of the
    loop mounts it, runs the import job and tries to unmount it once more. *)
Theorem failing_umount_repeats_the_import E st blocks d n :
  walk blocks = Some d →
  Py.truthy d = true →
  only_umount_fails E d →
  Log.ready E (fs st) →
  mountpoint_present (fs st) →
  ∃ st', main_loop (replicate n (inr blocks)) None E st = (st', Ok None) ∧
         actions (trace st') = actions (trace st) ++ concat (replicate n (handling d)).
Proof.
  intros Hw Ht Hfail. revert st.
  induction n as [|n IH]; intros st Hr Hm; cbn [replicate main_loop concat].
  - exists st. by rewrite app_nil_r.
  - destruct (turn_umount_fails blocks d E st Hw Ht Hfail Hr Hm)
      as (st1 & Hturn & Htr & Hr1 & Hm1).
    erewrite bind_ok by exact Hturn.
    destruct (IH st1 Hr1 Hm1) as (st' & Hrun & Hact).
    exists st'. split; [done|].
    rewrite Hact, Htr, !actions_app, actions_poll, actions_handling, app_nil_r.
    by rewrite <- app_assoc.
Qed.

Lemma failing_umount_repeats_the_import_witness :
  ∃ st', main_loop (replicate 3 (inr stick)) None umount_fails Demo.plain_volume
           = (st', Ok None) ∧
         actions (trace st') = actions (trace Demo.plain_volume)
                               ++ concat (replicate 3 (handling "/dev/sda1")).
Proof.
  apply (failing_umount_repeats_the_import umount_fails Demo.plain_volume stick
           "/dev/sda1" 3).
  - vm_compute. reflexivity.
  - vm_compute. reflexivity.
  - split_and!; intros tr; try (vm_compute; reflexivity).
    + by exists 0%nat.
    + vm_compute. discriminate.
  - apply readyb_ready. vm_compute. reflexivity.
  - split; vm_compute; reflexivity.
Defined.

End WatcherRetries.

(** ** Directories that the job creates *)

Section Creating.
Import UsbManager Job.

(** X19.  The two log sinks differ when the directory of the log is
    missing: the import job's [log] creates [/home] and [/home/USER] and
    then writes its line, while the watcher's [log] raises and writes
    nothing. *)
Theorem job_log_creates_its_directory E st msg :
  fs st !! ["home"] = None →
  fs st !! ["home"; "USER"] = None →
  fs st !! LOG_FILE = None →
  denied E Mkdir ["home"] = false →
  denied E Mkdir ["home"; "USER"] = false →
  denied E Write LOG_FILE = false →
  log msg E st =
    (State (<[LOG_FILE := File (Log.line E msg)]>
              (<[["home"; "USER"] := Dir]> (<[["home"] := Dir]> (fs st))))
           (trace st), Ok tt) ∧
  WatchUsb.log msg E st = (st, Raise (FileNotFoundError LOG_FILE)).
Proof.
  intros Hh Hu Hl Hmh Hmu Hw. split.
  - unfold log, Os.mkdir_parents, Path.parent, LOG_FILE. cbn [removelast].
    unfold bind at 1. cbn [Os.mkdir_go app].
    unfold bind at 1, get_fs at 1. rewrite Hh.
    unfold bind at 1, refused at 1. rewrite Hmh.
    unfold bind at 1, set_fs at 1.
    unfold bind at 1, get_fs at 1. cbn [fs].
    rewrite lookup_insert_ne by discriminate. rewrite Hu.
    unfold bind at 1, refused at 1. rewrite Hmu.
    unfold bind at 1, set_fs at 1. unfold ret at 1.
    unfold Os.append_text.
    rewrite store_ok.
    + cbn [fs trace]. rewrite !lookup_insert_ne by discriminate.
      unfold LOG_FILE in Hl. rewrite Hl. done.
    + cbn [fs]. rewrite !lookup_insert_ne by discriminate.
      unfold LOG_FILE in Hl. by rewrite Hl.
    + cbn [fs Path.parent removelast Path.is_dir_at]. by rewrite lookup_insert_eq.
    + done.
  - unfold WatchUsb.log, Os.append_text, Os.store.
    unfold bind at 1, get_fs at 1.
    change WatchUsb.LOG_FILE with LOG_FILE. rewrite Hl.
    unfold LOG_FILE, Path.parent. cbn [removelast Path.is_dir_at]. by rewrite Hu.
Qed.

Lemma job_log_creates_its_directory_witness :
  log "hello" Demo.quiet (State ∅ []) =
    (State (<[LOG_FILE := File (Log.line Demo.quiet "hello")]>
              (<[["home"; "USER"] := Dir]> (<[["home"] := Dir]> ∅)))
           [], Ok tt) ∧
  WatchUsb.log "hello" Demo.quiet (State ∅ []) =
    (State ∅ [], Raise (FileNotFoundError LOG_FILE)).
Proof.
  apply (job_log_creates_its_directory Demo.quiet (State ∅ []) "hello");
    reflexivity.
Defined.

(** X20.  The first copy creates the content store: when
    [/home/USER/audiobooks] is missing and may be created, [safe_copy] makes
    the directory, copies the file into it and logs the copy. *)
Theorem first_copy_creates_the_store E st d n c :
  Log.ready E (fs st) →
  fs st !! AUDIO_DIR = None →
  denied E Mkdir AUDIO_DIR = false →
  Path.valid_name n = true →
  d ≠ AUDIO_DIR →
  fs st !! (d ++ [n]) = Some (File c) →
  denied E Read (d ++ [n]) = false →
  fs st !! (AUDIO_DIR ++ [n]) ≠ Some Dir →
  denied E Write (AUDIO_DIR ++ [n]) = false →
  safe_copy (d ++ [n]) AUDIO_DIR E st =
    (logged E ("Copied: " +:+ Path.str (d ++ [n]) +:+ " → "
               +:+ Path.str (AUDIO_DIR ++ [n]))
       (State (<[AUDIO_DIR ++ [n] := File c]> (<[AUDIO_DIR := Dir]> (fs st)))
              (trace st ++ [EvCopy (d ++ [n]) (AUDIO_DIR ++ [n])])),
     Ok tt).
Proof.
  intros Hlog Hdir Hmk Hv Hd Hsrc Hread Hdst Hwrite.
  set (st0 := State (<[AUDIO_DIR := Dir]> (fs st)) (trace st)).
  assert (Hmkdir : Os.mkdir_parents AUDIO_DIR E st = (st0, Ok tt)).
  { destruct Hlog as (_ & Hh & Hu & _).
    unfold Os.mkdir_parents, AUDIO_DIR in *. cbn [Os.mkdir_go app].
    unfold bind at 1, get_fs at 1. rewrite Hh.
    unfold bind at 1, get_fs at 1. rewrite Hu.
    unfold bind at 1, get_fs at 1. rewrite Hdir.
    unfold bind at 1, refused at 1. rewrite Hmk.
    unfold bind at 1, set_fs at 1. done. }
  assert (Hne : AUDIO_DIR ≠ d ++ [n]).
  { intros Heq. rewrite Heq, Hsrc in Hdir. discriminate. }
  assert (Hcopy : safe_copy (d ++ [n]) AUDIO_DIR E st0 =
            (logged E ("Copied: " +:+ Path.str (d ++ [n]) +:+ " → "
                       +:+ Path.str (AUDIO_DIR ++ [n]))
               (State (<[AUDIO_DIR ++ [n] := File c]> (fs st0))
                      (trace st0 ++ [EvCopy (d ++ [n]) (AUDIO_DIR ++ [n])])),
             Ok tt)).
  { apply safe_copy_result; try done; unfold st0; cbn [fs].
    - destruct Hlog as (Hw & Hh & Hu & Hl). split_and!; [done | | |].
      + by rewrite lookup_insert_ne by discriminate.
      + by rewrite lookup_insert_ne by discriminate.
      + by rewrite lookup_insert_ne by discriminate.
    - by rewrite lookup_insert_eq.
    - by rewrite lookup_insert_ne.
    - rewrite lookup_insert_ne; [done|]. intros Heq.
      apply (f_equal length) in Heq. rewrite length_app in Heq. cbn in Heq. lia. }
  unfold safe_copy in Hcopy |- *.
  erewrite bind_ok in Hcopy; cycle 1.
  { apply mkdir_store; unfold st0; cbn [fs]; [|by rewrite lookup_insert_eq].
    destruct Hlog as (Hw & Hh & Hu & Hl). split_and!; [done | | |];
      by rewrite lookup_insert_ne by discriminate. }
  by erewrite bind_ok by exact Hmkdir.
Qed.

Lemma first_copy_creates_the_store_witness :
  safe_copy (add_dir ++ ["x.mp3"]) AUDIO_DIR Demo.quiet Sample.fresh_box =
    (logged Demo.quiet
       ("Copied: " +:+ Path.str (add_dir ++ ["x.mp3"]) +:+ " → "
        +:+ Path.str (AUDIO_DIR ++ ["x.mp3"]))
       (State (<[AUDIO_DIR ++ ["x.mp3"] := File "xxx"]>
                 (<[AUDIO_DIR := Dir]> (fs Sample.fresh_box)))
              (trace Sample.fresh_box
               ++ [EvCopy (add_dir ++ ["x.mp3"]) (AUDIO_DIR ++ ["x.mp3"])])),
     Ok tt).
Proof.
  apply (first_copy_creates_the_store Demo.quiet Sample.fresh_box add_dir
           "x.mp3" "xxx"); try (vm_compute; reflexivity).
  - apply readyb_ready. vm_compute. reflexivity.
  - discriminate.
  - vm_compute. discriminate.
Defined.

End Creating.

(** ** Runs that cannot reach the volume *)

Section NoVolume.
Import UsbManager Job Library.

(** X21.  A run without a volume at the mount point does nothing but log:
    Reboot.txt cannot be created, which is logged; there is nothing to add
    and nothing to delete; and the inventory is skipped with a second log
    line.  No file is copied, deleted or written, and nothing is spoken. *)
Theorem run_without_volume_only_logs E st :
  Log.ready E (fs st) →
  fs st !! USB_MOUNT = None →
  fs st !! Reboot.reboot_file = None →
  fs st !! add_dir = None →
  fs st !! library = None →
  process_usb E st =
    (logged E "USB mount not found; skipping library write"
       (logged E ("Error creating default Reboot.txt: "
                  +:+ Os.exn_str (FileNotFoundError Reboot.reboot_file)) st),
     Ok tt).
Proof.
  intros Hr Hm Hrb Hadd Hlib.
  set (st1 := logged E ("Error creating default Reboot.txt: "
                        +:+ Os.exn_str (FileNotFoundError Reboot.reboot_file)) st).
  assert (Hr1 : Log.ready E (fs st1)) by (by apply ready_append).
  assert (Hsame : ∀ p, p ≠ LOG_FILE → fs st1 !! p = fs st !! p).
  { intros p Hp. unfold st1, logged, Log.append. cbn [fs].
    by rewrite lookup_insert_ne. }
  assert (Hwrite : Os.write_text Reboot.reboot_file REBOOT_FILE_DEFAULT E st
                   = (st, Raise (FileNotFoundError Reboot.reboot_file))).
  { unfold Os.write_text, Os.store. unfold bind at 1. unfold bind at 1, get_fs at 1.
    rewrite Hrb, usb_is_parent. unfold USB_MOUNT in *. cbn [Path.is_dir_at].
    by rewrite Hm. }
  destruct (guarded_failures_logged E st Hr) as (Hensure & _).
  assert (Hhandle : handle_reboot_file E st = (st1, Ok false)).
  { unfold handle_reboot_file.
    change (USB_MOUNT // "Reboot.txt") with Reboot.reboot_file.
    erewrite bind_ok by (by apply Hensure).
    apply handle_untriggered.
    unfold check_reboot_trigger, Os.exists_.
    unfold bind at 1 2. unfold get_fs at 1, ret at 1.
    rewrite stat_reboot_file, Hsame by discriminate. by rewrite Hrb. }
  unfold process_usb. erewrite bind_ok by exact Hhandle. cbn beta iota.
  erewrite bind_ok; cycle 1.
  { unfold add_step. change (USB_MOUNT // "Add") with add_dir.
    unfold bind at 1. unfold Os.exists_ at 1. unfold bind at 1, get_fs at 1, ret at 1.
    rewrite (stat_plain _ add_dir) by (apply add_dir_plain || done).
    rewrite Hsame by discriminate. by rewrite Hadd. }
  erewrite bind_ok; cycle 1.
  { unfold delete_step. change (USB_MOUNT // "library.txt") with library.
    erewrite bind_ok; cycle 1.
    { apply parse_absent. by rewrite Hsame by discriminate. }
    done. }
  destruct (guarded_failures_logged E st1 Hr1) as (_ & _ & _ & _ & Hskip & _).
  apply Hskip. by rewrite Hsame by discriminate.
Qed.

Lemma run_without_volume_only_logs_witness :
  process_usb Demo.quiet Demo.unmounted =
    (logged Demo.quiet "USB mount not found; skipping library write"
       (logged Demo.quiet ("Error creating default Reboot.txt: "
                  +:+ Os.exn_str (FileNotFoundError Reboot.reboot_file))
          Demo.unmounted),
     Ok tt).
Proof.
  apply (run_without_volume_only_logs Demo.quiet Demo.unmounted);
    try (vm_compute; reflexivity).
  apply readyb_ready. vm_compute. reflexivity.
Defined.

End NoVolume.

Section FailedMount.
Import WatchUsb Tree Poll Watch.

(** X22.  When [mount] fails, the import job is not started: the turn
    stops at the failed command, logs the error and leaves the record as it
    was, so no import ever runs on a volume that is not mounted. *)
Theorem failed_mount_skips_the_import E st blocks d last :
  walk blocks = Some d →
  Py.truthy d = true →
  Some d ≠ last →
  Log.ready E (fs st) →
  mountpoint_present (fs st) →
  proc E (trace st ++ [EvRun lsblk_argv]) (mount_argv d) ≠ Exited 0 →
  ∃ e, cycle (inr blocks) last E st =
         (State (Log.append
                   (Log.watcher_line E ("Error handling " +:+ d +:+ ": "
                                        +:+ Os.exn_str e))
                   (Log.append
                      (Log.watcher_line E ("Detected new USB device: " +:+ d))
                      (fs st)))
                (trace st ++ [EvRun lsblk_argv; EvRun (mount_argv d)]),
          Ok last).
Proof.
  intros Hw Ht Hne Hr Hm Hfail.
  rewrite (cycle_attempts blocks d) by done.
  destruct (run_check_raises (mount_argv d) E (detected E d st) Hfail) as [e He].
  exists e.
  rewrite (attempt_failure d last E st
             (State (fs (detected E d st))
                    (trace (detected E d st) ++ [EvRun (mount_argv d)])) e Hr).
  - unfold detected. cbn [fs trace]. by rewrite <- app_assoc.
  - unfold handle.
    erewrite bind_ok; cycle 1.
    { apply mkdir_mountpoint. unfold detected. cbn [fs]. by apply present_append. }
    by erewrite bind_raise by exact He.
Qed.

Lemma failed_mount_skips_the_import_witness :
  ∃ e, cycle (inr stick) None Sample.mount_fails Demo.plain_volume =
         (State (Log.append
                   (Log.watcher_line Sample.mount_fails
                      ("Error handling " +:+ "/dev/sda1" +:+ ": " +:+ Os.exn_str e))
                   (Log.append
                      (Log.watcher_line Sample.mount_fails
                         ("Detected new USB device: " +:+ "/dev/sda1"))
                      (fs Demo.plain_volume)))
                (trace Demo.plain_volume
                 ++ [EvRun lsblk_argv; EvRun (mount_argv "/dev/sda1")]),
          Ok None).
Proof.
  apply (failed_mount_skips_the_import Sample.mount_fails Demo.plain_volume stick
           "/dev/sda1" None).
  - vm_compute. reflexivity.
  - vm_compute. reflexivity.
  - discriminate.
  - apply readyb_ready. vm_compute. reflexivity.
  - split; vm_compute; reflexivity.
  - vm_compute. discriminate.
Defined.

End FailedMount.
